(** * Nonce-reuse private key recovery for DSA and ECDSA

    A shallow embedding of [ecdsa_key_recovery/__init__.py] and the
    verification of its specification.

    Conventions of the embedding.
    - Python integers are unbounded: they are modelled by [Z].  Python's
      [%] and [//] are floored, with the sign of the divisor, exactly as
      [Z.modulo] and [Z.div] for a divisor other than zero; a zero divisor
      raises [ZeroDivisionError] ([pymod]).
    - A call either returns a value or raises: [outcome].  A method that
      mutates [self] is a function from the object before the call to the
      object after it, paired with the outcome ([Method]).
    - [assert e] raises [AssertionError] when [e] is false (the interpreter
      runs with assertions enabled, its default mode).  The exception carries
      the asserted expression, which is what the traceback shows.
    - The module is Python 3 code (it uses f-strings): text, [str], and
      [bytes] are different types, and a function of bytes refuses text.
    - The logger calls only format a string from [self]; they are omitted.
    - The interpreter's recursion limit is not modelled: [extended_gcd] is
      the mathematical recursion of the source. *)

From Stdlib Require Import ZArith Zdiv Zcong Lia List Bool String Ascii.
From Stdlib Require Import Setoid Morphisms.
From Stdlib.Strings Require Import Byte.
Import ListNotations.

Local Open Scope Z_scope.

(* ================================================================== *)
(** * Part I: the program *)

(* ------------------------------------------------------------------ *)
(** ** Python values, exceptions and outcomes *)

Module Py.

(** The exceptions that the modelled code can raise.  [LibraryError] stands
    for an exception class defined by an imported package. *)
Inductive exn : Type :=
| ValueError (msg : string)
| AssertionError (asserted : string)
| TypeError (msg : string)
| AttributeError (attribute : string)
| ZeroDivisionError
| LibraryError (origin : string).

Inductive outcome (A : Type) : Type :=
| Returned (a : A)
| Raised (e : exn).
Arguments Returned {A} a.
Arguments Raised {A} e.

Definition bind {A B} (m : outcome A) (f : A -> outcome B) : outcome B :=
  match m with
  | Returned a => f a
  | Raised e => Raised e
  end.

(** [a % b] *)
Definition pymod (a b : Z) : outcome Z :=
  if b =? 0 then Raised ZeroDivisionError else Returned (a mod b).

(** [assert c], where [txt] is the asserted expression. *)
Definition assert (c : bool) (txt : string) : outcome unit :=
  if c then Returned tt else Raised (AssertionError txt).

(** A method of an object of class [S]: it may update [self] and then
    returns or raises.  The first component is [self] after the call. *)
Definition Method (S A : Type) : Type := S -> S * outcome A.

Definition mret {S A} (a : A) : Method S A := fun self => (self, Returned a).

Definition mbind {S A B} (m : Method S A) (f : A -> Method S B) : Method S B :=
  fun self =>
    match m self with
    | (self', Returned a) => f a self'
    | (self', Raised e) => (self', Raised e)
    end.

(** Evaluation of an expression that does not touch [self]'s attributes. *)
Definition lift {S A} (o : outcome A) : Method S A := fun self => (self, o).

(** Reading [self]. *)
Definition get {S} : Method S S := fun self => (self, Returned self).

(** An attribute assignment [self.f = v]. *)
Definition assign {S} (update : S -> S) : Method S unit :=
  fun self => (update self, Returned tt).

End Py.
Import Py.

Declare Scope py_scope.
Delimit Scope py_scope with py.
Notation "x <- m ;; k" := (bind m (fun x => k))
  (at level 61, m at next level, right associativity) : py_scope.
Notation "x <~ m ;; k" := (mbind m (fun x => k))
  (at level 61, m at next level, right associativity) : py_scope.
Local Open Scope py_scope.

(* ------------------------------------------------------------------ *)
(** ** ModularArithmetic: [inverse] and its nested [extended_gcd] *)

Module ModularArithmetic.

(** [extended_gcd(a, b)] of the source, with an explicit recursion budget:
<<
    if a == 0: return b, 0, 1
    gcd, x1, y1 = extended_gcd(b % a, a)
    x = y1 - (b // a) * x1
    y = x1
    return gcd, x, y
>>
    [None] means that the budget ran out; [extended_gcd_total] shows that
    it never does with the budget [depth a]. *)
Fixpoint extended_gcd_fuel (fuel : nat) (a b : Z) : option (Z * Z * Z) :=
  match fuel with
  | O => None
  | S fuel' =>
      if a =? 0 then Some (b, 0, 1)
      else
        match extended_gcd_fuel fuel' (b mod a) a with
        | Some (gcd, x1, y1) => Some (gcd, y1 - (b / a) * x1, x1)
        | None => None
        end
  end.

(** A budget that always suffices: the first argument at least halves in
    absolute value every two calls. *)
Definition depth (a : Z) : nat := S (2 * Z.to_nat (Z.log2 (Z.abs a) + 1)).

Definition extended_gcd (a b : Z) : Z * Z * Z :=
  match extended_gcd_fuel (depth a) a b with
  | Some r => r
  | None => (0, 0, 0)
  end.

Definition no_inverse : string := "No modular multiplicative inverse exists".

(** [inverse(a, n)]:
<<
    gcd, x, _ = extended_gcd(a, n)
    if gcd != 1: raise ValueError(...)
    return x % n
>> *)
Definition inverse (a n : Z) : outcome Z :=
  let '(gcd, x, _) := extended_gcd a n in
  if negb (gcd =? 1) then Raised (ValueError no_inverse)
  else pymod x n.

End ModularArithmetic.
Import ModularArithmetic.

(* ------------------------------------------------------------------ *)
(** ** Names imported from other packages

    [Crypto.Util.number.bytes_to_long] and [ecdsa.numbertheory.inverse_mod]
    are not part of this repository.  The program is parameterised by them;
    the theorems state the contract they rely on as hypotheses. *)

Inductive bytes_like : Type :=
| BytesArg (b : list byte)
| StrArg (s : string).

Record Imports : Type := {
  bytes_to_long : bytes_like -> outcome Z;
  inverse_mod : Z -> Z -> outcome Z
}.

(** The integer that a sequence of bytes denotes, most significant first. *)
Definition big_endian (bs : list byte) : Z :=
  fold_left (fun acc b => acc * 256 + Z.of_N (Byte.to_N b)) bs 0.

(* ------------------------------------------------------------------ *)
(** ** SignatureParameter and the argument normalisation of
       RecoverableSignature *)

Module Signature.

(** The object kept in [self.sig]: an instance of [SignatureParameter], or
    the caller's own object that has attributes [r] and [s] (and perhaps an
    attribute [tuple]). *)
Inductive sigobj : Type :=
| SignatureParameter (r s : Z)
| ForeignSignature (r s : Z) (tuple : option (Z * Z)).

Definition sig_r (sg : sigobj) : Z :=
  match sg with SignatureParameter r _ | ForeignSignature r _ _ => r end.

Definition sig_s (sg : sigobj) : Z :=
  match sg with SignatureParameter _ s | ForeignSignature _ s _ => s end.

(** [sig.tuple]: the property of [SignatureParameter], or the attribute of
    a foreign object. *)
Definition sig_tuple (sg : sigobj) : outcome (Z * Z) :=
  match sg with
  | SignatureParameter r s => Returned (r, s)
  | ForeignSignature _ _ (Some t) => Returned t
  | ForeignSignature _ _ None => Raised (AttributeError "tuple")
  end.

(** What a caller may pass as [sig]. *)
Inductive sig_arg : Type :=
| SigAttributes (o : sigobj)      (* any object with attributes r and s *)
| SigTuple (items : list Z)       (* a tuple, of any length *)
| SigOther.                       (* anything else *)

Definition invalid_signature : string :=
  "Invalid Signature Format! - Expected tuple(long r,long s) or SignatureParamter(long r, long s)".

Definition init_arity : string :=
  "__init__() takes 3 positional arguments".

(** The call of [SignatureParameter] with the items of the tuple [sig]
    unpacked as its positional arguments. *)
Definition SignatureParameter_star (items : list Z) : outcome sigobj :=
  match items with
  | [r; s] => Returned (SignatureParameter r s)
  | _ => Raised (TypeError init_arity)
  end.

(** [RecoverableSignature._load_signature] *)
Definition _load_signature (sig : sig_arg) : outcome sigobj :=
  match sig with
  | SigAttributes o => Returned o
  | SigTuple items => SignatureParameter_star items
  | SigOther => Raised (ValueError invalid_signature)
  end.

(** What a caller may pass as [h]. *)
Inductive hash_arg : Type :=
| HInt (z : Z)
| HBytes (b : list byte)
| HStr (s : string)
| HOther.

Definition invalid_hash : string :=
  "Invalid Hash Format! - Expected long(hash) or str(hash)".

(** [RecoverableSignature._load_hash] *)
Definition _load_hash (env : Imports) (h : hash_arg) : outcome Z :=
  match h with
  | HInt z => Returned z
  | HBytes b => bytes_to_long env (BytesArg b)
  | HStr s => bytes_to_long env (StrArg s)
  | HOther => Raised (ValueError invalid_hash)
  end.

End Signature.
Import Signature.

(* ------------------------------------------------------------------ *)
(** ** DsaSignature *)

Module Dsa.

(** The public key object bound to a signature.  The program uses two of
    its capabilities: the attribute [q] and the method [verify]. *)
Record PublicKey : Type := {
  pubkey_q : Z;
  pubkey_verify : Z -> Z * Z -> outcome bool
}.

(** The attributes of an instance: [sig], [h], [pubkey], [k], [x]. *)
Record DsaSignature : Type := {
  self_sig : sigobj;
  self_h : Z;
  self_pubkey : PublicKey;
  self_k : option Z;
  self_x : option Z
}.

Definition set_k (v : Z) (self : DsaSignature) : DsaSignature :=
  {| self_sig := self_sig self; self_h := self_h self;
     self_pubkey := self_pubkey self;
     self_k := Some v; self_x := self_x self |}.

Definition set_x (v : Z) (self : DsaSignature) : DsaSignature :=
  {| self_sig := self_sig self; self_h := self_h self;
     self_pubkey := self_pubkey self;
     self_k := self_k self; self_x := Some v |}.

(** [DsaSignature._load_pubkey] *)
Definition _load_pubkey (pubkey : PublicKey) : PublicKey := pubkey.

Definition gate : string := "self.pubkey.verify(self.h, self.sig.tuple)".

(** [DsaSignature.__init__], with the body of
    [RecoverableSignature.__init__] that it calls first. *)
Definition __init__ (env : Imports) (sig : sig_arg) (h : hash_arg)
    (pubkey : PublicKey) : outcome DsaSignature :=
  sg <- _load_signature sig ;;
  hh <- _load_hash env h ;;
  let pk := _load_pubkey pubkey in
  t <- sig_tuple sg ;;
  ok <- pubkey_verify pk hh t ;;
  _ <- assert ok gate ;;
  Returned {| self_sig := sg; self_h := hh; self_pubkey := pk;
              self_k := None; self_x := None |}.

Definition same_q : string := "self.pubkey.q == other.pubkey.q".
Definition same_r : string := "self.sig.r == other.sig.r".

(** [DsaSignature.recover_nonce_reuse]:
<<
    assert (self.pubkey.q == other.pubkey.q)
    assert (self.sig.r == other.sig.r)
    self.k = (self.h - other.h) * inverse(self.sig.s - other.sig.s,
                                          self.pubkey.q) % self.pubkey.q
    self.x = ((self.k * self.sig.s - self.h) *
              inverse(self.sig.r, self.pubkey.q)) % self.pubkey.q
    return self
>>
    [other] is only read, and only before the first assignment; the second
    statement reads back in [self.k] the value just assigned. *)
Definition recover_nonce_reuse (other : DsaSignature)
    : Method DsaSignature unit :=
  self <~ get ;;
  let q := pubkey_q (self_pubkey self) in
  _ <~ lift (assert (q =? pubkey_q (self_pubkey other)) same_q) ;;
  _ <~ lift (assert (sig_r (self_sig self) =? sig_r (self_sig other)) same_r) ;;
  i <~ lift (inverse (sig_s (self_sig self) - sig_s (self_sig other)) q) ;;
  k <~ lift (pymod ((self_h self - self_h other) * i) q) ;;
  _ <~ assign (set_k k) ;;
  j <~ lift (inverse (sig_r (self_sig self)) q) ;;
  x <~ lift (pymod ((k * sig_s (self_sig self) - self_h self) * j) q) ;;
  _ <~ assign (set_x x) ;;
  mret tt.

End Dsa.

(* ------------------------------------------------------------------ *)
(** ** EcDsaSignature *)

Module Ecdsa.

(** The object kept in [self.pubkey].  It is an [ecdsa.ecdsa.Public_key] or
    any other object of the caller; [generator_order] is
    [pubkey.generator.order()] and [verifies] is [pubkey.verifies(h, sig)],
    either of which raises on an object that lacks the attribute. *)
Record PublicKey : Type := {
  isinstance_Public_key : bool;
  generator_order : outcome Z;
  verifies : Z -> sigobj -> outcome bool
}.

(** What a caller may pass as [pubkey]: text, bytes, or any other object. *)
Inductive pubkey_arg : Type :=
| PkObject (o : PublicKey)
| PkStr (s : string)
| PkBytes (b : list byte).

(** [ecdsa.SigningKey]: the secret exponent and
    [get_verifying_key().pubkey]. *)
Record SigningKey : Type := {
  secret_exponent : Z;
  verifying_pubkey : PublicKey
}.

(** A curve object of the ecdsa package, seen through the two calls that
    the program makes with it:
    [SigningKey.from_secret_exponent(d, curve=curve)] and
    [VerifyingKey.from_string(pubkey, curve=curve).pubkey]. *)
Record Curve : Type := {
  from_secret_exponent : Z -> outcome SigningKey;
  from_string : bytes_like -> outcome PublicKey
}.

(** The attributes of an instance:
    [curve], [sig], [h], [pubkey], [k], [x], [signingkey], [n]. *)
Record EcDsaSignature : Type := {
  self_curve : Curve;
  self_sig : sigobj;
  self_h : Z;
  self_pubkey : PublicKey;
  self_k : option Z;
  self_x : option Z;
  self_signingkey : option SigningKey;
  self_n : Z
}.

(** The three assignments [self.signingkey = signingkey], [self.k = k],
    [self.x = d] that precede [return self]. *)
Definition set_recovered (signingkey : SigningKey) (k d : Z)
    (self : EcDsaSignature) : EcDsaSignature :=
  {| self_curve := self_curve self; self_sig := self_sig self;
     self_h := self_h self; self_pubkey := self_pubkey self;
     self_k := Some k; self_x := Some d;
     self_signingkey := Some signingkey; self_n := self_n self |}.

(** [EcDsaSignature._load_pubkey]:
<<
    if isinstance(pubkey, ecdsa.ecdsa.Public_key): return pubkey
    elif isinstance(pubkey, (str, bytes)):
        return ecdsa.VerifyingKey.from_string(pubkey, curve=self.curve).pubkey
    return pubkey
>> *)
Definition _load_pubkey (curve : Curve) (pubkey : pubkey_arg)
    : outcome PublicKey :=
  match pubkey with
  | PkObject o =>
      if isinstance_Public_key o then Returned o
      else Returned o
  | PkStr s => from_string curve (StrArg s)
  | PkBytes b => from_string curve (BytesArg b)
  end.

Definition gate : string := "self.pubkey.verifies(self.h, self.sig)".

(** [EcDsaSignature.__init__], with the body of
    [RecoverableSignature.__init__] that it calls after setting
    [self.curve]. *)
Definition __init__ (env : Imports) (sig : sig_arg) (h : hash_arg)
    (pubkey : pubkey_arg) (curve : Curve) : outcome EcDsaSignature :=
  sg <- _load_signature sig ;;
  hh <- _load_hash env h ;;
  pk <- _load_pubkey curve pubkey ;;
  n <- generator_order pk ;;
  ok <- verifies pk hh sg ;;
  _ <- assert ok gate ;;
  Returned {| self_curve := curve; self_sig := sg; self_h := hh;
              self_pubkey := pk; self_k := None; self_x := None;
              self_signingkey := None; self_n := n |}.

(** The four candidates, in the order of the source. *)
Definition candidates (s1 s2 : Z) : list Z :=
  [s1 - s2; s1 + s2; - s1 - s2; - s1 + s2].

(** The body of the loop up to its [if]: the nonce and the secret that
    [candidate] yields, the trial key, and whether the public key derived
    from it verifies [(self.h, self.sig)]. *)
Definition trial (env : Imports) (self : EcDsaSignature) (z r_inv : Z)
    (candidate : Z) : outcome (Z * Z * SigningKey * bool) :=
  let n := self_n self in
  i <- inverse_mod env candidate n ;;
  k <- pymod (z * i) n ;;
  t <- pymod (sig_s (self_sig self) * k - self_h self) n ;;
  d <- pymod (t * r_inv) n ;;
  signingkey <- from_secret_exponent (self_curve self) d ;;
  ok <- verifies (verifying_pubkey signingkey) (self_h self) (self_sig self) ;;
  Returned (k, d, signingkey, ok).

(** The [for] loop, followed by [assert False]. *)
Fixpoint try_candidates (env : Imports) (z r_inv : Z) (cands : list Z)
    : Method EcDsaSignature unit :=
  match cands with
  | [] => lift (assert false "False")
  | candidate :: rest =>
      self <~ get ;;
      res <~ lift (trial env self z r_inv candidate) ;;
      let '(k, d, signingkey, ok) := res in
      if (ok : bool) then
        _ <~ assign (set_recovered signingkey k d) ;;
        mret tt
      else try_candidates env z r_inv rest
  end.

(** [EcDsaSignature.recover_nonce_reuse] *)
Definition recover_nonce_reuse (env : Imports) (other : EcDsaSignature)
    : Method EcDsaSignature unit :=
  self <~ get ;;
  let sig2 := self_sig other in
  let h2 := self_h other in
  let z := self_h self - h2 in
  r_inv <~ lift (inverse_mod env (sig_r (self_sig self)) (self_n self)) ;;
  try_candidates env z r_inv (candidates (sig_s (self_sig self)) (sig_s sig2)).

End Ecdsa.

(* ------------------------------------------------------------------ *)
(** ** The signature schemes of the imported packages

    The key objects that reach the program come from PyCrypto (DSA) and
    from the ecdsa package.  Their signing and verification equations are
    written out here so that keys, signatures and instances can be built
    and the recovery run on them. *)

Module Scheme.

(** What the theorems assume of [ecdsa.numbertheory.inverse_mod]: on a
    modulus above 1 and an argument coprime to it, it returns the inverse
    reduced into the range of the modulus. *)
Definition inverse_mod_contract (env : Imports) : Prop :=
  forall a m, 1 < m -> Z.gcd a m = 1 ->
    exists x, inverse_mod env a m = Returned x /\ 0 <= x < m /\ (a * x) mod m = 1.

(** What the theorems assume of [Crypto.Util.number.bytes_to_long], a
    function on bytes.  For bytes it returns their big-endian value.  On
    text (the module is Python 3 code: a [str] is not bytes) it raises
    [TypeError] as soon as there is a character: it pads its argument with
    zero bytes to a multiple of four, which is a concatenation of bytes
    and text, and unpacks it four bytes at a time. *)
Definition bytes_to_long_contract (env : Imports) : Prop :=
  (forall b, bytes_to_long env (BytesArg b) = Returned (big_endian b)) /\
  (forall s, s <> EmptyString ->
     exists msg, bytes_to_long env (StrArg s) = Raised (TypeError msg)).

(** Imported functions that meet both contracts.  [bytes_to_long] on text
    follows the package: a length that is not a multiple of four fails at
    the padding, any other length at the first unpacking, and on the empty
    text there is nothing to unpack and the result is 0. *)
Definition reference_imports : Imports := {|
  bytes_to_long := fun arg =>
    match arg with
    | BytesArg b => Returned (big_endian b)
    | StrArg EmptyString => Returned 0
    | StrArg s =>
        if (Nat.modulo (String.length s) 4 =? 0)%nat
        then Raised (TypeError "a bytes-like object is required, not 'str'")
        else Raised (TypeError "can't concat str to bytes")
    end;
  inverse_mod := fun a m =>
    if a =? 0 then Returned 0
    else if Z.gcd a m =? 1 then Returned (Z.invmod a m)
    else Raised (ValueError "base is not invertible for the given modulus")
|}.

(** *** DSA over the subgroup of order [q] generated by [g] modulo [p] *)

Definition dsa_sign (p q g x k h : Z) : Z * Z :=
  let r := (g ^ k mod p) mod q in
  let s := (Z.invmod k q * (h + x * r)) mod q in
  (r, s).

Definition dsa_verify (p q g y h : Z) (sig : Z * Z) : outcome bool :=
  let '(r, s) := sig in
  if negb ((0 <? r) && (r <? q)) || negb ((0 <? s) && (s <? q))
  then Returned false
  else
    let w := Z.invmod s q in
    let u1 := (h * w) mod q in
    let u2 := (r * w) mod q in
    let v := (((g ^ u1 mod p) * (y ^ u2 mod p)) mod p) mod q in
    Returned (v =? r).

Definition dsa_public_key (p q g y : Z) : Dsa.PublicKey := {|
  Dsa.pubkey_q := q;
  Dsa.pubkey_verify := dsa_verify p q g y
|}.

(** *** ECDSA over a cyclic group

    [base_mul k] is the point [k * G], [mul_add u1 Q u2] is
    [u1 * G + u2 * Q], [x_coord] is [point.x()], which has no integer value
    at the point at infinity, and [decode] reads an encoded point. *)
Record Group : Type := {
  point : Type;
  order : Z;
  base_mul : Z -> point;
  mul_add : Z -> point -> Z -> point;
  x_coord : point -> outcome Z;
  decode : bytes_like -> outcome point
}.

(** The law of a cyclic group of order [order] generated by [G], on the
    scalars that verification uses. *)
Definition group_law (grp : Group) : Prop :=
  forall u1 u2 d,
    0 <= u1 < order grp -> 0 <= u2 < order grp -> 1 <= d < order grp ->
    mul_add grp u1 (base_mul grp d) u2 =
    base_mul grp ((u1 + u2 * d) mod order grp).

(** [Private_key.sign(hash, k)] of the ecdsa package. *)
Definition ecdsa_sign (env : Imports) (grp : Group) (d k h : Z)
    : outcome (Z * Z) :=
  let n := order grp in
  let k := k mod n in
  x1 <- x_coord grp (base_mul grp k) ;;
  let r := x1 mod n in
  if r =? 0 then Raised (LibraryError "RSZeroError")
  else
    ki <- inverse_mod env k n ;;
    let s := (ki * (h + (d * r) mod n)) mod n in
    if s =? 0 then Raised (LibraryError "RSZeroError")
    else Returned (r, s).

(** [Public_key.verifies(hash, signature)] of the ecdsa package, for the
    public point [Q]. *)
Definition ecdsa_verifies (env : Imports) (grp : Group) (Q : point grp)
    (h : Z) (sig : sigobj) : outcome bool :=
  let n := order grp in
  let r := sig_r sig in
  let s := sig_s sig in
  if (r <? 1) || (n - 1 <? r) then Returned false
  else if (s <? 1) || (n - 1 <? s) then Returned false
  else
    c <- inverse_mod env s n ;;
    let u1 := (h * c) mod n in
    let u2 := (r * c) mod n in
    v <- x_coord grp (mul_add grp u1 Q u2) ;;
    Returned (v mod n =? r).

Definition ecdsa_public_key (env : Imports) (grp : Group) (Q : point grp)
    : Ecdsa.PublicKey := {|
  Ecdsa.isinstance_Public_key := true;
  Ecdsa.generator_order := Returned (order grp);
  Ecdsa.verifies := ecdsa_verifies env grp Q
|}.

Definition ecdsa_signing_key (env : Imports) (grp : Group) (d : Z)
    : Ecdsa.SigningKey := {|
  Ecdsa.secret_exponent := d;
  Ecdsa.verifying_pubkey := ecdsa_public_key env grp (base_mul grp d)
|}.

Definition ecdsa_curve (env : Imports) (grp : Group) : Ecdsa.Curve := {|
  Ecdsa.from_secret_exponent := fun d =>
    if (1 <=? d) && (d <? order grp)
    then Returned (ecdsa_signing_key env grp d)
    else Raised (LibraryError "MalformedPointError");
  Ecdsa.from_string := fun b =>
    Q <- decode grp b ;;
    Returned (ecdsa_public_key env grp Q)
|}.

(** *** A small curve: y^2 = x^3 + 2x + 2 over the field of 17 elements,
        whose 19 points are generated by (5, 1) *)

Definition toy_p : Z := 17.
Definition toy_a : Z := 2.
Definition toy_n : Z := 19.

(** [None] is the point at infinity. *)
Definition toy_point : Type := option (Z * Z).

Definition toy_G : toy_point := Some (5, 1).

Definition toy_add (P Q : toy_point) : toy_point :=
  match P, Q with
  | None, _ => Q
  | _, None => P
  | Some (x1, y1), Some (x2, y2) =>
      if (x1 =? x2) && ((y1 + y2) mod toy_p =? 0) then None
      else
        let l :=
          if (x1 =? x2) && (y1 =? y2)
          then ((3 * x1 * x1 + toy_a) * Z.invmod (2 * y1) toy_p) mod toy_p
          else ((y2 - y1) * Z.invmod (x2 - x1) toy_p) mod toy_p in
        let x3 := (l * l - x1 - x2) mod toy_p in
        let y3 := (l * (x1 - x3) - y1) mod toy_p in
        Some (x3, y3)
  end.

Definition toy_mul (k : Z) (P : toy_point) : toy_point :=
  Nat.iter (Z.to_nat (k mod toy_n)) (toy_add P) None.

Definition toy_group : Group := {|
  point := toy_point;
  order := toy_n;
  base_mul := fun k => toy_mul k toy_G;
  mul_add := fun u1 Q u2 => toy_add (toy_mul u1 toy_G) (toy_mul u2 Q);
  x_coord := fun P =>
    match P with
    | Some (x, _) => Returned x
    | None => Raised (TypeError "unsupported operand type(s) for %")
    end;
  decode := fun _ => Raised (LibraryError "MalformedPointError")
|}.

Definition toy_curve : Ecdsa.Curve := ecdsa_curve reference_imports toy_group.

(** The public key of the secret exponent 7 on the small curve. *)
Definition toy_pubkey : Ecdsa.PublicKey :=
  ecdsa_public_key reference_imports toy_group (toy_mul 7 toy_G).

(** *** A small DSA group: p = 23, q = 11, g = 4, with x = 7 and y = 8 *)

Definition toy_dsa_pubkey : Dsa.PublicKey := dsa_public_key 23 11 4 8.

(** A key whose [q] is not prime: p = 31, q = 15, g = 7, x = 2, y = 18. *)
Definition composite_dsa_pubkey : Dsa.PublicKey := dsa_public_key 31 15 7 18.

(** An object that is no key at all: it has neither [generator] nor
    [verifies]. *)
Definition not_a_key : Ecdsa.PublicKey := {|
  Ecdsa.isinstance_Public_key := false;
  Ecdsa.generator_order := Raised (AttributeError "generator");
  Ecdsa.verifies := fun _ _ => Raised (AttributeError "verifies")
|}.

(** Equality of points of the small curve, and the scalars below [n]. *)
Definition toy_point_eqb (P Q : toy_point) : bool :=
  match P, Q with
  | None, None => true
  | Some (x1, y1), Some (x2, y2) => (x1 =? x2) && (y1 =? y2)
  | _, _ => false
  end.

Definition scalars (n : nat) : list Z := map Z.of_nat (seq 0 n).

(** *** Instances on the small curve, all bound to the key of the secret 7

    [ec_11] and [ec_13] carry the signatures of the digests 11 and 13 made
    with the nonce 3, and [ec_13_negated] that of 13 made with the nonce
    19 - 3; [ec_6] carries the signature of the digest 6 made
    with the nonce 1, and [ec_1] that of the digest 1 made with the
    nonce 2. *)
Definition ec_instance (r s h : Z) : Ecdsa.EcDsaSignature := {|
  Ecdsa.self_curve := toy_curve;
  Ecdsa.self_sig := SignatureParameter r s;
  Ecdsa.self_h := h;
  Ecdsa.self_pubkey := toy_pubkey;
  Ecdsa.self_k := None;
  Ecdsa.self_x := None;
  Ecdsa.self_signingkey := None;
  Ecdsa.self_n := toy_n
|}.

Definition ec_11 : Ecdsa.EcDsaSignature := ec_instance 10 8 11.
Definition ec_13 : Ecdsa.EcDsaSignature := ec_instance 10 15 13.
Definition ec_13_negated : Ecdsa.EcDsaSignature := ec_instance 10 4 13.
Definition ec_6 : Ecdsa.EcDsaSignature := ec_instance 5 3 6.
Definition ec_1 : Ecdsa.EcDsaSignature := ec_instance 6 12 1.

(** *** Instances on the small DSA groups

    [dsa_11] and [dsa_13] carry the signatures of the digests 11 and 13
    made with the secret 7 and the nonce 3; [composite_1] and [composite_2]
    those of the digests 1 and 2 made with the secret 2 and the nonce 2
    under the key whose [q] is 15. *)
Definition dsa_instance (pubkey : Dsa.PublicKey) (r s h : Z)
    : Dsa.DsaSignature := {|
  Dsa.self_sig := SignatureParameter r s;
  Dsa.self_h := h;
  Dsa.self_pubkey := pubkey;
  Dsa.self_k := None;
  Dsa.self_x := None
|}.

Definition dsa_11 : Dsa.DsaSignature := dsa_instance toy_dsa_pubkey 7 9 11.
Definition dsa_13 : Dsa.DsaSignature := dsa_instance toy_dsa_pubkey 7 6 13.
Definition composite_1 : Dsa.DsaSignature := dsa_instance composite_dsa_pubkey 3 11 1.
Definition composite_2 : Dsa.DsaSignature := dsa_instance composite_dsa_pubkey 3 4 2.

End Scheme.
Import Scheme.

(* ------------------------------------------------------------------ *)
(** ** The helpers [bignum_to_hex] and [bytes_fromhex] *)

Module Hex.

(** One digit of [hex]: the characters 0 to 9 have the codes 48 to 57 and
    the letters a to f the codes 97 to 102. *)
Definition hex_digit (d : Z) : ascii :=
  ascii_of_N (Z.to_N (if d <? 10 then 48 + d else 87 + d)).

(** The digits of a non-negative integer, most significant first, put in
    front of [acc]; [fuel] bounds the number of digits. *)
Fixpoint hex_digits (fuel : nat) (n : Z) (acc : string) : string :=
  match fuel with
  | O => acc
  | S fuel' =>
      if n <? 16 then String (hex_digit n) acc
      else hex_digits fuel' (n / 16) (String (hex_digit (n mod 16)) acc)
  end.

(** The built-in [hex]: a sign, the prefix 0x and the digits, of which
    there are no more than bits. *)
Definition hex (n : Z) : string :=
  let m := Z.abs n in
  String.append (if n <? 0 then "-0x"%string else "0x"%string)
    (hex_digits (S (Z.to_nat (Z.log2 m))) m EmptyString).

(** [c in chars] *)
Fixpoint char_in (c : ascii) (chars : string) : bool :=
  match chars with
  | EmptyString => false
  | String c' rest => Ascii.eqb c c' || char_in c rest
  end.

(** [s.lstrip(chars)] and [s.rstrip(chars)]: the leading, respectively
    trailing, characters that occur in [chars] are removed. *)
Fixpoint lstrip (chars s : string) : string :=
  match s with
  | EmptyString => EmptyString
  | String c rest => if char_in c chars then lstrip chars rest else s
  end.

Fixpoint rstrip (chars s : string) : string :=
  match s with
  | EmptyString => EmptyString
  | String c rest =>
      match rstrip chars rest with
      | EmptyString => if char_in c chars then EmptyString else String c EmptyString
      | t => String c t
      end
  end.

(** [bignum_to_hex(val, nbits=256)]:
<<
    ret = hex((val + (1 << nbits)) % (1 << nbits)).rstrip("L").lstrip("0x")
    if len(ret) % 2 == 1:
        return "0" + ret
    return ret
>>
    A negative shift count makes [1 << nbits] raise. *)
Definition bignum_to_hex (val nbits : Z) : outcome string :=
  if nbits <? 0 then Raised (ValueError "negative shift count")
  else
    m <- pymod (val + Z.shiftl 1 nbits) (Z.shiftl 1 nbits) ;;
    let ret := lstrip "0x"%string (rstrip "L"%string (hex m)) in
    if (Nat.modulo (String.length ret) 2 =? 1)%nat
    then Returned (String "0" ret)
    else Returned ret.

(** The value of a hexadecimal digit, in either case, and of a string of
    digits read from the left. *)
Definition digit_value (c : ascii) : option Z :=
  let code := Z.of_N (N_of_ascii c) in
  if (48 <=? code) && (code <=? 57) then Some (code - 48)
  else if (97 <=? code) && (code <=? 102) then Some (code - 87)
  else if (65 <=? code) && (code <=? 70) then Some (code - 55)
  else None.

Fixpoint hex_value_from (acc : Z) (s : string) : option Z :=
  match s with
  | EmptyString => Some acc
  | String c rest =>
      match digit_value c with
      | Some d => hex_value_from (acc * 16 + d) rest
      | None => None
      end
  end.

Definition hex_value (s : string) : option Z := hex_value_from 0 s.

(** ASCII whitespace, which [bytes.fromhex] skips between bytes. *)
Definition is_space (c : ascii) : bool :=
  char_in c (String " " (String "009" (String "010" (String "011"
            (String "012" (String "013" EmptyString)))))).

Definition byte_of_Z (v : Z) : byte := byte_of_ascii (ascii_of_N (Z.to_N v)).

(** The built-in [bytes.fromhex]: pairs of hexadecimal digits, with
    whitespace allowed between the pairs. *)
Fixpoint fromhex (s : string) : outcome (list byte) :=
  match s with
  | EmptyString => Returned []
  | String c1 rest =>
      if is_space c1 then fromhex rest
      else
        match rest with
        | EmptyString => Raised (ValueError "non-hexadecimal number found in fromhex() arg")
        | String c2 rest' =>
            match digit_value c1, digit_value c2 with
            | Some hi, Some lo =>
                bs <- fromhex rest' ;;
                Returned (byte_of_Z (hi * 16 + lo) :: bs)
            | _, _ => Raised (ValueError "non-hexadecimal number found in fromhex() arg")
            end
        end
  end.

(** [bytes_fromhex(str)] *)
Definition bytes_fromhex (str : string) : outcome (list byte) := fromhex str.

End Hex.

(* ------------------------------------------------------------------ *)
(** ** Export and import of keys *)

(** The key code raises three exceptions besides those of [exn]. *)
Module Builtin.

Inductive error : Type :=
| Core (e : exn)
| NameError (name : string)
| IndexError (msg : string)
| Exception (msg : string).

Inductive result (A : Type) : Type :=
| Value (a : A)
| Error (e : error).
Arguments Value {A} a.
Arguments Error {A} e.

Definition of_outcome {A} (o : outcome A) : result A :=
  match o with
  | Returned a => Value a
  | Raised e => Error (Core e)
  end.

(** The truth value of an attribute that holds [None] or an int. *)
Definition truthy (x : option Z) : bool :=
  match x with
  | Some v => negb (v =? 0)
  | None => false
  end.

(** The module imports [Crypto], [ecdsa] and [logging]; the name
    [Cryptodome] is bound nowhere, so evaluating it raises. *)
Definition Cryptodome {A} : result A := Error (NameError "Cryptodome").

End Builtin.
Import Builtin.

Module EcdsaKey.
Import Builtin.

(** The methods of [ecdsa.SigningKey] that the key code calls; the
    encodings are bytes. *)
Record Library : Type := {
  to_pem : Ecdsa.SigningKey -> outcome (list byte);
  to_der : Ecdsa.SigningKey -> outcome (list byte);
  from_pem : string -> outcome Ecdsa.SigningKey;
  from_der : string -> outcome Ecdsa.SigningKey
}.

Definition unknown_format (ext_format : string) : string :=
  String.append "Unknown format '" (String.append ext_format "'").

(** [EcDsaSignature.export_key]; [format] is the entry of that name in
    the keyword arguments, if there is one:
<<
    ext_format = kwargs.get("format", "PEM")
    if ext_format == "PEM":
        return self.signingkey.to_pem()
    elif ext_format == "DER":
        return self.signingkey.to_der()
    raise ValueError(f"Unknown format '{ext_format}'")
>> *)
Definition export_key (lib : Library) (format : option string)
    (self : Ecdsa.EcDsaSignature) : outcome (list byte) :=
  let ext_format := match format with Some f => f | None => "PEM"%string end in
  if String.eqb ext_format "PEM" then
    match Ecdsa.self_signingkey self with
    | Some signingkey => to_pem lib signingkey
    | None => Raised (AttributeError "to_pem")
    end
  else if String.eqb ext_format "DER" then
    match Ecdsa.self_signingkey self with
    | Some signingkey => to_der lib signingkey
    | None => Raised (AttributeError "to_der")
    end
  else Raised (ValueError (unknown_format ext_format)).

(** [EcDsaSignature.import_key(encoded, passphrase=None)]:
<<
    if encoded.startswith('-----'):
        return ecdsa.SigningKey.from_pem(encoded)
    if ord(encoded[0]) == 0x30:
        return ecdsa.SigningKey.from_der(encoded)
    raise Exception("Invalid Format")
>>
    [bytes.startswith] refuses a [str] argument. *)
Definition import_key (lib : Library) (encoded : bytes_like)
    (passphrase : option string) : result Ecdsa.SigningKey :=
  match encoded with
  | BytesArg _ =>
      Error (Core (TypeError
        "startswith first arg must be bytes or a tuple of bytes, not str"))
  | StrArg s =>
      if String.prefix "-----" s then of_outcome (from_pem lib s)
      else
        match s with
        | EmptyString => Error (IndexError "string index out of range")
        | String c _ =>
            if (N_of_ascii c =? 48)%N then of_outcome (from_der lib s)
            else Error (Exception "Invalid Format")
        end
  end.

(** The property [EcDsaSignature.privkey]; the [Private_key] that it
    returns is seen through its secret multiplier:
<<
    assert self.x
    assert self.signingkey
    return self.signingkey.privkey
>> *)
Definition privkey (self : Ecdsa.EcDsaSignature) : outcome Z :=
  _ <- assert (truthy (Ecdsa.self_x self)) "self.x" ;;
  match Ecdsa.self_signingkey self with
  | Some signingkey => Returned (Ecdsa.secret_exponent signingkey)
  | None => Raised (AssertionError "self.signingkey")
  end.

(** A stand-in for the encodings of the package, to run the code on: a
    marker followed by the secret exponent as one character. *)
Definition toy_library : Library := {|
  to_pem := fun sk =>
    Returned (list_byte_of_string "-----" ++
              [Hex.byte_of_Z (Ecdsa.secret_exponent sk)]);
  to_der := fun sk => Returned [x30; Hex.byte_of_Z (Ecdsa.secret_exponent sk)];
  from_pem := fun s =>
    match String.get 5 s with
    | Some c => Returned (ecdsa_signing_key reference_imports toy_group
                            (Z.of_N (N_of_ascii c)))
    | None => Raised (LibraryError "UnexpectedDER")
    end;
  from_der := fun s =>
    match String.get 1 s with
    | Some c => Returned (ecdsa_signing_key reference_imports toy_group
                            (Z.of_N (N_of_ascii c)))
    | None => Raised (LibraryError "UnexpectedDER")
    end
|}.

End EcdsaKey.

Module DsaKey.
Import Builtin.

(** What the key code uses of [Crypto.PublicKey.DSA] and of the public key
    object: [DSA.construct], and the attributes [y], [g], [p] read from
    [self.pubkey] (which an object may lack). *)
Record Library (K : Type) : Type := {
  construct : list Z -> outcome K;
  y_g_p : Dsa.PublicKey -> outcome (Z * Z * Z)
}.
Arguments construct {K} _ _.
Arguments y_g_p {K} _ _.

(** The property [DsaSignature.privkey]:
<<
    assert self.x
    return DSA.construct([self.pubkey.y, self.pubkey.g, self.pubkey.p,
                          self.pubkey.q, self.x])
>> *)
Definition privkey {K} (lib : Library K) (self : Dsa.DsaSignature)
    : outcome K :=
  _ <- assert (truthy (Dsa.self_x self)) "self.x" ;;
  ygp <- y_g_p lib (Dsa.self_pubkey self) ;;
  let '(y, g, p) := ygp in
  construct lib [y; g; p; Dsa.pubkey_q (Dsa.self_pubkey self);
                 match Dsa.self_x self with Some x => x | None => 0 end].

(** [to_dsakey(secret_key, _from=..., _to=...)] begins with
    [if _from == Cryptodome.PublicKey.DSA:]. *)
Definition to_dsakey {K} (secret_key : K) : result K := Cryptodome.

(** [DsaSignature.export_key]:
<<
    return to_dsakey(self.privkey, _to=Cryptodome.PublicKey.DSA).exportKey(...)
>>
    The arguments of the call are evaluated from left to right, before
    the call. *)
Definition export_key {K} (lib : Library K) (self : Dsa.DsaSignature)
    : result (list byte) :=
  match privkey lib self with
  | Raised e => Error (Core e)
  | Returned _ => Cryptodome
  end.

(** [DsaSignature.import_key] begins with
    [key = Cryptodome.PublicKey.DSA.import_key(...)]. *)
Definition import_key {K} (encoded : bytes_like) : result K := Cryptodome.

(** Key components to run the code on. *)
Definition toy_library : Library (list Z) := {|
  construct := fun components => Returned components;
  y_g_p := fun _ => Returned (8, 4, 23)
|}.

End DsaKey.

(* ------------------------------------------------------------------ *)
(** ** Notions used by the statements *)

(** Congruence modulo [q]. *)
Definition cong (q a b : Z) : Prop := a mod q = b mod q.

(** The trial of [candidate] runs to its end and the trial key does not
    verify, respectively verifies, the signature of [self]. *)
Definition rejected (env : Imports) (self : Ecdsa.EcDsaSignature)
    (z r_inv candidate : Z) : Prop :=
  exists k d sk, Ecdsa.trial env self z r_inv candidate = Returned (k, d, sk, false).

Definition accepted (env : Imports) (self : Ecdsa.EcDsaSignature)
    (z r_inv candidate k d : Z) (sk : Ecdsa.SigningKey) : Prop :=
  Ecdsa.trial env self z r_inv candidate = Returned (k, d, sk, true).

(** [self] with another object in [self.pubkey]. *)
Definition with_pubkey (pk : Ecdsa.PublicKey) (self : Ecdsa.EcDsaSignature)
    : Ecdsa.EcDsaSignature :=
  {| Ecdsa.self_curve := Ecdsa.self_curve self;
     Ecdsa.self_sig := Ecdsa.self_sig self;
     Ecdsa.self_h := Ecdsa.self_h self;
     Ecdsa.self_pubkey := pk;
     Ecdsa.self_k := Ecdsa.self_k self;
     Ecdsa.self_x := Ecdsa.self_x self;
     Ecdsa.self_signingkey := Ecdsa.self_signingkey self;
     Ecdsa.self_n := Ecdsa.self_n self |}.

(** Instances on the small curve that hold the signatures of the digests
    1 and 16 made with the nonces 1 and 19 - 1. *)
Definition ec_k1 : Ecdsa.EcDsaSignature := ec_instance 5 17 1.
Definition ec_k18 : Ecdsa.EcDsaSignature := ec_instance 5 6 16.

(** The instance of the digest 30, which the secret 7 and the nonce 3 sign
    with (10, 8) as they do the digest 11: 30 is 11 modulo 19. *)
Definition ec_30 : Ecdsa.EcDsaSignature := ec_instance 10 8 30.

(** [ec_11] after the recovery of k = 3 and d = 7. *)
Definition ec_11_recovered : Ecdsa.EcDsaSignature :=
  Ecdsa.set_recovered (ecdsa_signing_key reference_imports toy_group 7) 3 7
    ec_11.

(* ================================================================== *)
(** * Part II: verification *)

(* ------------------------------------------------------------------ *)
(** ** Outcomes *)

Lemma bind_returned {A B} (m : outcome A) (f : A -> outcome B) (b : B) :
  bind m f = Returned b -> exists a, m = Returned a /\ f a = Returned b.
Proof.
  destruct m as [a|e]; simpl; intros H; [eauto | discriminate].
Qed.

Lemma assert_returned (c : bool) (txt : string) (u : unit) :
  assert c txt = Returned u -> c = true.
Proof. destruct c; simpl; [reflexivity | discriminate]. Qed.

(* ------------------------------------------------------------------ *)
(** ** The extended Euclidean algorithm of [inverse] *)

Lemma pymod_nonzero (a b : Z) : b <> 0 -> pymod a b = Returned (a mod b).
Proof.
  intros Hb. unfold pymod. destruct (Z.eqb_spec b 0); [contradiction | reflexivity].
Qed.


Lemma extended_gcd_fuel_S (f : nat) (a b : Z) :
  extended_gcd_fuel (S f) a b =
  if a =? 0 then Some (b, 0, 1)
  else match extended_gcd_fuel f (b mod a) a with
       | Some (gcd, x1, y1) => Some (gcd, y1 - (b / a) * x1, x1)
       | None => None
       end.
Proof. reflexivity. Qed.

Lemma extended_gcd_fuel_mono (f : nat) :
  forall a b r, extended_gcd_fuel f a b = Some r ->
  forall f', (f <= f')%nat -> extended_gcd_fuel f' a b = Some r.
Proof.
  induction f as [|f IH]; intros a b r H f' Hle; [discriminate|].
  destruct f' as [|f']; [lia|].
  simpl in *. destruct (a =? 0); [exact H|].
  destruct (extended_gcd_fuel f (b mod a) a) as [[[g x1] y1]|] eqn:E; [|discriminate].
  rewrite (IH _ _ _ E f') by lia. exact H.
Qed.

Lemma extended_gcd_fuel_agree (f1 f2 : nat) (a b : Z) (r1 r2 : Z * Z * Z) :
  extended_gcd_fuel f1 a b = Some r1 ->
  extended_gcd_fuel f2 a b = Some r2 -> r1 = r2.
Proof.
  intros H1 H2.
  pose proof (extended_gcd_fuel_mono _ _ _ _ H1 (Nat.max f1 f2) ltac:(lia)) as H1'.
  pose proof (extended_gcd_fuel_mono _ _ _ _ H2 (Nat.max f1 f2) ltac:(lia)) as H2'.
  congruence.
Qed.

(** Two calls down, the first argument is less than half of what it was. *)
Lemma two_steps_halve (a b : Z) :
  a <> 0 -> b mod a <> 0 -> 2 * Z.abs (a mod (b mod a)) < Z.abs a.
Proof.
  intros Ha Hr.
  destruct (Z.lt_total a 0) as [Hneg|[H0|Hpos]]; [| contradiction |].
  - pose proof (Z.mod_neg_bound b a Hneg) as B1.
    assert (Hr1 : b mod a < 0) by lia.
    pose proof (Z.mod_neg_bound a (b mod a) Hr1) as B2.
    pose proof (Z.div_mod a (b mod a) Hr) as E.
    assert (1 <= a / (b mod a)).
    { destruct (Z.le_gt_cases 1 (a / (b mod a))) as [?|Hq]; [assumption|].
      assert (a / (b mod a) <= 0) by lia. nia. }
    nia.
  - pose proof (Z.mod_pos_bound b a Hpos) as B1.
    assert (Hr1 : 0 < b mod a) by lia.
    pose proof (Z.mod_pos_bound a (b mod a) Hr1) as B2.
    pose proof (Z.div_mod a (b mod a) Hr) as E.
    assert (1 <= a / (b mod a)).
    { destruct (Z.le_gt_cases 1 (a / (b mod a))) as [?|Hq]; [assumption|].
      assert (a / (b mod a) <= 0) by lia. nia. }
    nia.
Qed.

Lemma extended_gcd_fuel_enough (n : nat) :
  forall a b, Z.abs a < 2 ^ Z.of_nat n ->
  exists r, extended_gcd_fuel (S (2 * n)) a b = Some r.
Proof.
  induction n as [|n IH]; intros a b Hlt.
  - simpl in Hlt. assert (a = 0) by lia. subst. simpl. eauto.
  - replace (S (2 * S n)) with (S (S (S (2 * n)))) by lia.
    rewrite extended_gcd_fuel_S.
    destruct (Z.eqb_spec a 0) as [|Ha]; [eauto|].
    rewrite extended_gcd_fuel_S.
    destruct (Z.eqb_spec (b mod a) 0) as [|Hr]; [eauto|].
    destruct (IH (a mod (b mod a)) (b mod a)) as [[[g x1] y1] E].
    + pose proof (two_steps_halve a b Ha Hr).
      rewrite Nat2Z.inj_succ, Z.pow_succ_r in Hlt by lia. lia.
    + rewrite E. eauto.
Qed.

Lemma extended_gcd_total (a b : Z) :
  exists r, extended_gcd_fuel (depth a) a b = Some r.
Proof.
  unfold depth. apply extended_gcd_fuel_enough.
  destruct (Z.eq_dec a 0) as [->|Ha].
  - simpl. lia.
  - rewrite Z2Nat.id by (pose proof (Z.log2_nonneg (Z.abs a)); lia).
    pose proof (Z.log2_spec (Z.abs a) ltac:(lia)). 
    replace (Z.log2 (Z.abs a) + 1) with (Z.succ (Z.log2 (Z.abs a))) by lia. lia.
Qed.

Lemma extended_gcd_fuel_sound (f : nat) (a b : Z) (r : Z * Z * Z) :
  extended_gcd_fuel f a b = Some r -> extended_gcd a b = r.
Proof.
  intros H. unfold extended_gcd.
  destruct (extended_gcd_total a b) as [r' E]. rewrite E.
  eapply extended_gcd_fuel_agree; eassumption.
Qed.

(** The defining equation of the source. *)
Lemma extended_gcd_equation (a b : Z) :
  extended_gcd a b =
  if a =? 0 then (b, 0, 1)
  else let '(gcd, x1, y1) := extended_gcd (b mod a) a in
       (gcd, y1 - (b / a) * x1, x1).
Proof.
  destruct (extended_gcd_total a b) as [r E].
  rewrite (extended_gcd_fuel_sound _ _ _ _ E).
  unfold depth in E. rewrite extended_gcd_fuel_S in E.
  destruct (a =? 0); [congruence|].
  destruct (extended_gcd_fuel _ (b mod a) a) as [[[g x1] y1]|] eqn:E'; [|discriminate].
  rewrite (extended_gcd_fuel_sound _ _ _ _ E'). congruence.
Qed.

Lemma extended_gcd_rect (P : Z -> Z -> Z * Z * Z -> Prop) :
  (forall b, P 0 b (b, 0, 1)) ->
  (forall a b g x1 y1, a <> 0 ->
     extended_gcd (b mod a) a = (g, x1, y1) ->
     P (b mod a) a (g, x1, y1) ->
     P a b (g, y1 - (b / a) * x1, x1)) ->
  forall a b, P a b (extended_gcd a b).
Proof.
  intros H0 HS.
  assert (forall f a b r, extended_gcd_fuel f a b = Some r -> P a b r) as Hf.
  { induction f as [|f IH]; intros a b r E; [discriminate|].
    simpl in E. destruct (Z.eqb_spec a 0) as [->|Ha].
    - injection E as <-. apply H0.
    - destruct (extended_gcd_fuel f (b mod a) a) as [[[g x1] y1]|] eqn:E'; [|discriminate].
      injection E as <-. apply HS; auto.
      eapply extended_gcd_fuel_sound; eassumption. }
  intros a b. destruct (extended_gcd_total a b) as [r E].
  rewrite (extended_gcd_fuel_sound _ _ _ _ E). eapply Hf; eassumption.
Qed.

Lemma extended_gcd_bezout (a b : Z) :
  let '(g, x, y) := extended_gcd a b in a * x + b * y = g.
Proof.
  apply (extended_gcd_rect (fun a b r => let '(g, x, y) := r in a * x + b * y = g)).
  - intros; lia.
  - intros a' b' g x1 y1 Ha _ IH.
    pose proof (Z.div_mod b' a' Ha). nia.
Qed.

Lemma gcd_of_divisor (a b : Z) : (a | b) -> Z.sgn a * Z.gcd a b = a.
Proof.
  intros Hd. rewrite <- Z.gcd_abs_l.
  rewrite (proj1 (Z.divide_gcd_iff (Z.abs a) b (Z.abs_nonneg a))).
  - rewrite Z.mul_comm. apply Z.abs_sgn.
  - apply Z.divide_abs_l. exact Hd.
Qed.

Lemma sgn_mod (a b : Z) : a <> 0 -> b mod a <> 0 -> Z.sgn (b mod a) = Z.sgn a.
Proof.
  intros Ha Hr.
  destruct (Z.lt_total a 0) as [Hneg|[H0|Hpos]]; [| contradiction |].
  - pose proof (Z.mod_neg_bound b a Hneg). lia.
  - pose proof (Z.mod_pos_bound b a Hpos). lia.
Qed.

(** The first component: [b] when [a] is zero, and otherwise the greatest
    common divisor carrying the sign of [a]. *)
Lemma extended_gcd_value (a b : Z) :
  fst (fst (extended_gcd a b)) = if a =? 0 then b else Z.sgn a * Z.gcd a b.
Proof.
  apply (extended_gcd_rect
           (fun a b r => fst (fst r) = if a =? 0 then b else Z.sgn a * Z.gcd a b)).
  - intros; reflexivity.
  - intros a' b' g x1 y1 Ha _ IH. simpl in *.
    destruct (Z.eqb_spec a' 0) as [|_]; [contradiction|].
    destruct (Z.eqb_spec (b' mod a') 0) as [Hr|Hr].
    + subst g. symmetry. apply gcd_of_divisor.
      apply Z.mod_divide; assumption.
    + rewrite IH, sgn_mod, Z.gcd_mod by assumption. reflexivity.
Qed.

(** [inverse] on a modulus above 1: it raises on every negative argument,
    and otherwise returns the inverse exactly when there is one. *)
Lemma inverse_negative (a n : Z) :
  a < 0 -> inverse a n = Raised (ValueError no_inverse).
Proof.
  intros Ha. unfold inverse.
  pose proof (extended_gcd_value a n) as V.
  destruct (extended_gcd a n) as [[g x] y]. simpl in V.
  destruct (Z.eqb_spec a 0) as [|_]; [lia|].
  pose proof (Z.gcd_nonneg a n).
  destruct (Z.eqb_spec g 1) as [|_]; [nia|]. reflexivity.
Qed.

Lemma inverse_nonneg (a n : Z) :
  0 <= a -> 1 < n ->
  if Z.gcd a n =? 1
  then exists x, inverse a n = Returned x /\ 0 <= x < n /\ (a * x) mod n = 1
  else inverse a n = Raised (ValueError no_inverse).
Proof.
  intros Ha Hn. unfold inverse.
  pose proof (extended_gcd_value a n) as V.
  pose proof (extended_gcd_bezout a n) as Bz.
  destruct (extended_gcd a n) as [[g x] y]. simpl in V.
  assert (Hg : g = Z.gcd a n).
  { destruct (Z.eqb_spec a 0) as [->|Hne].
    - rewrite Z.gcd_0_l, Z.abs_eq by lia. exact V.
    - rewrite V. replace (Z.sgn a) with 1 by lia. lia. }
  rewrite <- Hg.
  destruct (Z.eqb_spec g 1) as [G1|G1]; simpl; [|reflexivity].
  exists (x mod n). rewrite pymod_nonzero by lia.
  split; [reflexivity|]. split; [apply Z.mod_pos_bound; lia|].
  rewrite Z.mul_mod_idemp_r by lia.
  replace (a * x) with (1 + (- y) * n) by lia.
  rewrite Z.mod_add by lia. apply Z.mod_small; lia.
Qed.

(** C7 (modular inverse, the failure condition).  The claim: for n > 1,
    [inverse a n] returns the inverse of [a] whenever gcd(a, n) = 1 and
    raises only when gcd(a, n) <> 1.  The source does not: -3 and 11 are
    coprime, 7 is the inverse of -3 modulo 11, and [inverse (-3) 11]
    raises, because [extended_gcd] returns -1 as the gcd. *)
Theorem C7_inverse_raises_on_coprime_negative :
  Z.gcd (-3) 11 = 1 /\
  (-3 * 7) mod 11 = 1 /\
  extended_gcd (-3) 11 = (-1, 4, 1) /\
  inverse (-3) 11 = Raised (ValueError no_inverse).
Proof.
  repeat split; vm_compute; reflexivity.
Qed.

(* ------------------------------------------------------------------ *)
(** ** Normalisation of the constructor's arguments *)

Ltac run_bind :=
  repeat match goal with
         | H : bind ?m _ = Returned _ |- _ =>
             let a := fresh "a" in
             let E := fresh "E" in
             apply bind_returned in H; destruct H as (a & E & H)
         end.

Lemma load_signature_shapes :
  (forall r s, _load_signature (SigTuple [r; s]) = Returned (SignatureParameter r s)) /\
  (forall o, _load_signature (SigAttributes o) = Returned o) /\
  _load_signature SigOther = Raised (ValueError invalid_signature) /\
  (forall items : list Z, List.length items <> 2%nat ->
     _load_signature (SigTuple items) = Raised (TypeError init_arity)).
Proof.
  repeat split; try reflexivity.
  intros [|a [|b [|c l]]] H; simpl in *; try reflexivity; lia.
Qed.

(** C9 (signature-input normalisation).  The claim: a 2-tuple or an object
    with attributes r and s is normalised into the canonical pair, and
    every other argument fails with the validation error.  A tuple of three
    items is neither shape; [_load_signature] passes it to the constructor
    of [SignatureParameter], and what is raised is the [TypeError] of that
    call, in both variants' constructors, not the [ValueError] that the
    method raises for an invalid format.  (A 2-tuple becomes a
    [SignatureParameter]; an object with r and s is kept as it is, so that
    the DSA constructor, which reads [sig.tuple], raises [AttributeError]
    on one that has no such attribute, here for a signature that verifies
    when it is given as a tuple.) *)
Theorem C9_three_tuple_raises_TypeError :
  _load_signature (SigTuple [1; 2; 3]) = Raised (TypeError init_arity) /\
  (forall env h pubkey,
     Dsa.__init__ env (SigTuple [1; 2; 3]) h pubkey = Raised (TypeError init_arity)) /\
  (forall env h pubkey curve,
     Ecdsa.__init__ env (SigTuple [1; 2; 3]) h pubkey curve
     = Raised (TypeError init_arity)) /\
  _load_signature (SigTuple [1; 2]) = Returned (SignatureParameter 1 2) /\
  _load_signature (SigAttributes (ForeignSignature 1 2 None))
  = Returned (ForeignSignature 1 2 None) /\
  _load_signature SigOther = Raised (ValueError invalid_signature) /\
  Dsa.__init__ reference_imports (SigTuple [7; 9]) (HInt 11) toy_dsa_pubkey
  = Returned dsa_11 /\
  Dsa.__init__ reference_imports (SigAttributes (ForeignSignature 7 9 None))
    (HInt 11) toy_dsa_pubkey
  = Raised (AttributeError "tuple").
Proof.
  split; [reflexivity|].
  split; [intros; reflexivity|].
  split; [intros; reflexivity|].
  split; [reflexivity|].
  split; [reflexivity|].
  split; [reflexivity|].
  split; [|reflexivity].
  unfold Dsa.__init__, Dsa._load_pubkey. simpl.
  replace (dsa_verify 23 11 4 8 11 (7, 9)) with (Returned true)
    by (vm_compute; reflexivity).
  reflexivity.
Qed.

(** C8 (digest normalisation).  The claim: an integer digest is stored
    unchanged, a byte string or a string is converted to the big-endian
    integer, and any other argument fails.  The code does so for an
    integer, for bytes and for an argument of another type.  For a string,
    which the [isinstance] test of [_load_hash] admits and its error
    message names as expected, it calls the imported [bytes_to_long], and
    that function raises [TypeError] on text: for the digest "AB" and for
    every string that is not empty [_load_hash] raises, and neither
    constructor builds an instance.  Both constructors store what
    [_load_hash] returns and raise what it raises (once the signature
    argument has been accepted, which comes first). *)
Theorem C8_str_digest_raises_TypeError (env : Imports) :
  bytes_to_long_contract env ->
  (forall z, _load_hash env (HInt z) = Returned z) /\
  (forall b, _load_hash env (HBytes b) = Returned (big_endian b)) /\
  _load_hash env HOther = Raised (ValueError invalid_hash) /\
  (exists msg,
     _load_hash env (HStr "AB") = Raised (TypeError msg) /\
     (forall pubkey,
        Dsa.__init__ env (SigTuple [7; 9]) (HStr "AB") pubkey
        = Raised (TypeError msg)) /\
     (forall pubkey curve,
        Ecdsa.__init__ env (SigTuple [10; 8]) (HStr "AB") pubkey curve
        = Raised (TypeError msg))) /\
  (forall s, s <> EmptyString ->
     exists msg, _load_hash env (HStr s) = Raised (TypeError msg)) /\
  (forall sig h pubkey inst,
     Dsa.__init__ env sig h pubkey = Returned inst ->
     _load_hash env h = Returned (Dsa.self_h inst)) /\
  (forall sig h pubkey curve inst,
     Ecdsa.__init__ env sig h pubkey curve = Returned inst ->
     _load_hash env h = Returned (Ecdsa.self_h inst)) /\
  (forall sig sg h e pubkey,
     _load_signature sig = Returned sg -> _load_hash env h = Raised e ->
     Dsa.__init__ env sig h pubkey = Raised e) /\
  (forall sig sg h e pubkey curve,
     _load_signature sig = Returned sg -> _load_hash env h = Raised e ->
     Ecdsa.__init__ env sig h pubkey curve = Raised e).
Proof.
  intros [Hb Hs].
  split; [reflexivity|].
  split; [intros b; simpl; apply Hb|].
  split; [reflexivity|].
  split.
  { destruct (Hs "AB"%string ltac:(discriminate)) as [msg Hmsg].
    exists msg.
    assert (L : _load_hash env (HStr "AB") = Raised (TypeError msg))
      by exact Hmsg.
    split; [exact L|]. split.
    - intros pubkey. unfold Dsa.__init__. simpl _load_signature.
      cbn [bind]. rewrite L. reflexivity.
    - intros pubkey curve. unfold Ecdsa.__init__. simpl _load_signature.
      cbn [bind]. rewrite L. reflexivity. }
  split; [intros s Hne; exact (Hs s Hne)|].
  split.
  { intros sig h pubkey inst H. unfold Dsa.__init__ in H. run_bind.
    injection H as <-. exact E0. }
  split.
  { intros sig h pubkey curve inst H. unfold Ecdsa.__init__ in H. run_bind.
    injection H as <-. exact E0. }
  split.
  - intros sig sg h e pubkey H1 H2. unfold Dsa.__init__.
    rewrite H1. simpl. rewrite H2. reflexivity.
  - intros sig sg h e pubkey curve H1 H2. unfold Ecdsa.__init__.
    rewrite H1. simpl. rewrite H2. reflexivity.
Qed.

Lemma reference_bytes_to_long : bytes_to_long_contract reference_imports.
Proof.
  split; [reflexivity|].
  intros [|c s] Hne; [contradiction|].
  cbn [bytes_to_long reference_imports].
  destruct (Nat.modulo (String.length (String c s)) 4 =? 0)%nat;
    eexists; reflexivity.
Qed.

Lemma C8_str_digest_raises_TypeError_witness :
  bytes_to_long_contract reference_imports /\
  _load_hash reference_imports (HInt 11) = Returned 11 /\
  _load_hash reference_imports (HBytes [x01; x00]) = Returned 256 /\
  _load_hash reference_imports HOther = Raised (ValueError invalid_hash) /\
  _load_hash reference_imports (HStr "AB")
  = Raised (TypeError "can't concat str to bytes") /\
  Dsa.__init__ reference_imports (SigTuple [7; 9]) (HStr "AB") toy_dsa_pubkey
  = Raised (TypeError "can't concat str to bytes") /\
  Ecdsa.__init__ reference_imports (SigTuple [10; 8]) (HStr "AB")
    (Ecdsa.PkObject toy_pubkey) toy_curve
  = Raised (TypeError "can't concat str to bytes").
Proof.
  split; [exact reference_bytes_to_long|].
  destruct (C8_str_digest_raises_TypeError reference_imports
              reference_bytes_to_long)
    as (Hi & Hb & Ho & (msg & Hm & Hd & He) & _).
  split; [exact (Hi 11)|].
  split; [exact (Hb [x01; x00])|].
  split; [exact Ho|].
  assert (M : msg = "can't concat str to bytes"%string).
  { assert (L : _load_hash reference_imports (HStr "AB")
                = Raised (TypeError "can't concat str to bytes"))
      by reflexivity.
    rewrite L in Hm. injection Hm as <-. reflexivity. }
  subst msg.
  split; [exact Hm|].
  split; [exact (Hd toy_dsa_pubkey) | exact (He (Ecdsa.PkObject toy_pubkey) toy_curve)].
Defined.

(** C10 (public-key passthrough).  An argument that is neither a
    [Public_key] nor text or bytes is returned unchanged by
    [EcDsaSignature._load_pubkey], which does not raise; the rest of the
    construction is run on that very object: its generator's order is read
    and its [verifies] is called, and an instance is returned exactly when
    that call returns true. *)
Theorem C10_load_pubkey_passthrough (curve : Ecdsa.Curve) (o : Ecdsa.PublicKey) :
  Ecdsa.isinstance_Public_key o = false ->
  Ecdsa._load_pubkey curve (Ecdsa.PkObject o) = Returned o /\
  (forall env sig h sg hh,
     _load_signature sig = Returned sg -> _load_hash env h = Returned hh ->
     Ecdsa.__init__ env sig h (Ecdsa.PkObject o) curve =
     (n <- Ecdsa.generator_order o ;;
      ok <- Ecdsa.verifies o hh sg ;;
      _ <- assert ok Ecdsa.gate ;;
      Returned {| Ecdsa.self_curve := curve; Ecdsa.self_sig := sg;
                  Ecdsa.self_h := hh; Ecdsa.self_pubkey := o;
                  Ecdsa.self_k := None; Ecdsa.self_x := None;
                  Ecdsa.self_signingkey := None; Ecdsa.self_n := n |})).
Proof.
  intros Hno. split.
  - unfold Ecdsa._load_pubkey. rewrite Hno. reflexivity.
  - intros env sig h sg hh H1 H2. unfold Ecdsa.__init__, Ecdsa._load_pubkey.
    rewrite H1. simpl. rewrite H2. simpl. rewrite Hno. reflexivity.
Qed.

Lemma C10_load_pubkey_passthrough_witness :
  Ecdsa.isinstance_Public_key not_a_key = false /\
  Ecdsa._load_pubkey toy_curve (Ecdsa.PkObject not_a_key) = Returned not_a_key.
Proof.
  split; [reflexivity|].
  exact (proj1 (C10_load_pubkey_passthrough toy_curve not_a_key eq_refl)).
Defined.

(* ------------------------------------------------------------------ *)
(** ** The verification gate of the constructors *)

Lemma dsa_init_returned env sig h pubkey inst :
  Dsa.__init__ env sig h pubkey = Returned inst ->
  exists sg hh t,
    _load_signature sig = Returned sg /\ _load_hash env h = Returned hh /\
    sig_tuple sg = Returned t /\
    Dsa.pubkey_verify pubkey hh t = Returned true /\
    inst = {| Dsa.self_sig := sg; Dsa.self_h := hh; Dsa.self_pubkey := pubkey;
              Dsa.self_k := None; Dsa.self_x := None |}.
Proof.
  intros H. unfold Dsa.__init__, Dsa._load_pubkey in H. run_bind.
  apply assert_returned in E3. subst.
  injection H as <-. eauto 10.
Qed.

Lemma ecdsa_init_returned env sig h pubkey curve inst :
  Ecdsa.__init__ env sig h pubkey curve = Returned inst ->
  exists sg hh pk n,
    _load_signature sig = Returned sg /\ _load_hash env h = Returned hh /\
    Ecdsa._load_pubkey curve pubkey = Returned pk /\
    Ecdsa.generator_order pk = Returned n /\
    Ecdsa.verifies pk hh sg = Returned true /\
    inst = {| Ecdsa.self_curve := curve; Ecdsa.self_sig := sg;
              Ecdsa.self_h := hh; Ecdsa.self_pubkey := pk;
              Ecdsa.self_k := None; Ecdsa.self_x := None;
              Ecdsa.self_signingkey := None; Ecdsa.self_n := n |}.
Proof.
  intros H. unfold Ecdsa.__init__ in H. run_bind.
  apply assert_returned in E4. subst.
  injection H as <-. eauto 12.
Qed.

(** C4 (verification gate at construction).  In both variants, once the
    arguments have been normalised and the key bound, a verification
    predicate that rejects the pair of digest and signature makes the
    constructor raise the [AssertionError] of the gate, and no instance is
    produced; and on every instance that a constructor returns, the bound
    key's predicate accepts the stored digest and signature. *)
Theorem C4_verification_gate (env : Imports) :
  (forall sig h pubkey sg hh t,
     _load_signature sig = Returned sg -> _load_hash env h = Returned hh ->
     sig_tuple sg = Returned t ->
     Dsa.pubkey_verify pubkey hh t = Returned false ->
     Dsa.__init__ env sig h pubkey = Raised (AssertionError Dsa.gate)) /\
  (forall sig h pubkey inst,
     Dsa.__init__ env sig h pubkey = Returned inst ->
     exists t, sig_tuple (Dsa.self_sig inst) = Returned t /\
       Dsa.pubkey_verify (Dsa.self_pubkey inst) (Dsa.self_h inst) t
       = Returned true) /\
  (forall sig h pubkey curve sg hh pk n,
     _load_signature sig = Returned sg -> _load_hash env h = Returned hh ->
     Ecdsa._load_pubkey curve pubkey = Returned pk ->
     Ecdsa.generator_order pk = Returned n ->
     Ecdsa.verifies pk hh sg = Returned false ->
     Ecdsa.__init__ env sig h pubkey curve = Raised (AssertionError Ecdsa.gate)) /\
  (forall sig h pubkey curve inst,
     Ecdsa.__init__ env sig h pubkey curve = Returned inst ->
     Ecdsa.verifies (Ecdsa.self_pubkey inst) (Ecdsa.self_h inst)
       (Ecdsa.self_sig inst) = Returned true).
Proof.
  split; [|split; [|split]].
  - intros sig h pubkey sg hh t H1 H2 H3 H4. unfold Dsa.__init__, Dsa._load_pubkey.
    rewrite H1; simpl. rewrite H2; simpl. rewrite H3; simpl. rewrite H4. reflexivity.
  - intros sig h pubkey inst H.
    apply dsa_init_returned in H as (sg & hh & t & _ & _ & Ht & Hv & ->).
    exists t. split; assumption.
  - intros sig h pubkey curve sg hh pk n H1 H2 H3 H4 H5. unfold Ecdsa.__init__.
    rewrite H1; simpl. rewrite H2; simpl. rewrite H3; simpl. rewrite H4; simpl.
    rewrite H5. reflexivity.
  - intros sig h pubkey curve inst H.
    apply ecdsa_init_returned in H as (sg & hh & pk & n & _ & _ & _ & _ & Hv & ->).
    exact Hv.
Qed.

(** The gate at work on the small DSA group and on the small curve: the
    signature (7, 9) of the digest 11 is rejected for the digest 12, and the
    signature (10, 8) of the digest 11 is rejected for the digest 12. *)
Lemma C4_verification_gate_witness :
  Dsa.pubkey_verify toy_dsa_pubkey 12 (7, 9) = Returned false /\
  Dsa.__init__ reference_imports (SigTuple [7; 9]) (HInt 12) toy_dsa_pubkey
  = Raised (AssertionError Dsa.gate) /\
  Ecdsa.verifies toy_pubkey 12 (SignatureParameter 10 8) = Returned false /\
  Ecdsa.__init__ reference_imports (SigTuple [10; 8]) (HInt 12)
    (Ecdsa.PkObject toy_pubkey) toy_curve
  = Raised (AssertionError Ecdsa.gate).
Proof.
  destruct (C4_verification_gate reference_imports) as (Hd & _ & He & _).
  split; [vm_compute; reflexivity|].
  split.
  { apply (Hd (SigTuple [7; 9]) (HInt 12) toy_dsa_pubkey
              (SignatureParameter 7 9) 12 (7, 9));
      [reflexivity | reflexivity | reflexivity | vm_compute; reflexivity]. }
  split; [vm_compute; reflexivity|].
  apply (He (SigTuple [10; 8]) (HInt 12) (Ecdsa.PkObject toy_pubkey) toy_curve
            (SignatureParameter 10 8) 12 toy_pubkey 19);
    [reflexivity | reflexivity | reflexivity | reflexivity |
     vm_compute; reflexivity].
Defined.

(* ------------------------------------------------------------------ *)
(** ** Arithmetic modulo the group order *)

#[local] Instance cong_equivalence (q : Z) : Equivalence (cong q).
Proof.
  unfold cong. split.
  - intros a. reflexivity.
  - intros a b H. symmetry. exact H.
  - intros a b c H1 H2. congruence.
Qed.

#[local] Instance cong_add (q : Z) : Proper (cong q ==> cong q ==> cong q) Z.add.
Proof. exact (Zplus_eqm q). Qed.

#[local] Instance cong_sub (q : Z) : Proper (cong q ==> cong q ==> cong q) Z.sub.
Proof. exact (Zminus_eqm q). Qed.

#[local] Instance cong_mul (q : Z) : Proper (cong q ==> cong q ==> cong q) Z.mul.
Proof. exact (Zmult_eqm q). Qed.

#[local] Instance cong_opp (q : Z) : Proper (cong q ==> cong q) Z.opp.
Proof. exact (Zopp_eqm q). Qed.

Lemma cong_mod (q a : Z) : cong q (a mod q) a.
Proof. unfold cong. apply Zmod_mod. Qed.

Lemma cong_small (q a b : Z) : cong q a b -> 0 <= b < q -> a mod q = b.
Proof. unfold cong. intros H Hb. rewrite H. apply Z.mod_small. exact Hb. Qed.

Lemma cong_of_eq_mod (q a b : Z) : a mod q = b -> cong q a b.
Proof. intros <-. symmetry. apply cong_mod. Qed.

(** The algebra of nonce reuse modulo [q]. *)
Section NonceReuse.
Variables (q k x r h1 h2 s1 s2 : Z).
Hypothesis sign1 : cong q (k * s1) (h1 + x * r).
Hypothesis sign2 : cong q (k * s2) (h2 + x * r).

Lemma nonce_times_difference : cong q (k * (s1 - s2)) (h1 - h2).
Proof.
  rewrite Z.mul_sub_distr_l, sign1, sign2.
  replace (h1 + x * r - (h2 + x * r)) with (h1 - h2) by ring. reflexivity.
Qed.

Lemma nonce_recovered (c i : Z) :
  cong q c (s1 - s2) -> cong q (c * i) 1 -> cong q ((h1 - h2) * i) k.
Proof.
  intros Hc Hi. rewrite <- nonce_times_difference, <- Hc.
  rewrite <- Z.mul_assoc, Hi, Z.mul_1_r. reflexivity.
Qed.

Lemma secret_recovered (j : Z) :
  cong q (r * j) 1 -> cong q ((k * s1 - h1) * j) x.
Proof.
  intros Hj. rewrite sign1.
  replace (h1 + x * r - h1) with (x * r) by ring.
  rewrite <- Z.mul_assoc, Hj, Z.mul_1_r. reflexivity.
Qed.
End NonceReuse.

Lemma coprime_below_prime (q a : Z) : Z.prime q -> 0 < a < q -> Z.gcd a q = 1.
Proof.
  intros Hq Ha. rewrite Z.gcd_comm. apply Z.coprime_prime_small; [assumption|lia].
Qed.

Lemma inverse_of_unit (q a : Z) :
  Z.prime q -> 0 < a < q ->
  exists i, inverse a q = Returned i /\ cong q (a * i) 1.
Proof.
  intros Hq Ha. pose proof (Z.prime_ge_2 q Hq) as Hq2.
  pose proof (inverse_nonneg a q ltac:(lia) ltac:(lia)) as H.
  rewrite (coprime_below_prime q a Hq Ha) in H. simpl in H.
  destruct H as (i & Hi & _ & Hm). exists i. split; [assumption|].
  apply cong_of_eq_mod. exact Hm.
Qed.

Lemma dsa_recover_unfold (self other : Dsa.DsaSignature) :
  Dsa.recover_nonce_reuse other self =
  let q := Dsa.pubkey_q (Dsa.self_pubkey self) in
  if negb (q =? Dsa.pubkey_q (Dsa.self_pubkey other))
  then (self, Raised (AssertionError Dsa.same_q))
  else if negb (sig_r (Dsa.self_sig self) =? sig_r (Dsa.self_sig other))
  then (self, Raised (AssertionError Dsa.same_r))
  else
    match inverse (sig_s (Dsa.self_sig self) - sig_s (Dsa.self_sig other)) q with
    | Raised e => (self, Raised e)
    | Returned i =>
        match pymod ((Dsa.self_h self - Dsa.self_h other) * i) q with
        | Raised e => (self, Raised e)
        | Returned k =>
            match inverse (sig_r (Dsa.self_sig self)) q with
            | Raised e => (Dsa.set_k k self, Raised e)
            | Returned j =>
                match pymod ((k * sig_s (Dsa.self_sig self) - Dsa.self_h self) * j) q with
                | Raised e => (Dsa.set_k k self, Raised e)
                | Returned x => (Dsa.set_x x (Dsa.set_k k self), Returned tt)
                end
            end
        end
    end.
Proof.
  unfold Dsa.recover_nonce_reuse, mbind, get, lift, assign, mret, assert. simpl.
  destruct (_ =? _); simpl; [|reflexivity].
  destruct (_ =? _); simpl; [|reflexivity].
  destruct (inverse _ _); simpl; [|reflexivity].
  destruct (pymod _ _); simpl; [|reflexivity].
  destruct (inverse _ _); simpl; [|reflexivity].
  destruct (pymod _ _); reflexivity.
Qed.

Lemma dsa_recovery_when_s1_exceeds_s2
    (q r s1 s2 h1 h2 k x : Z) (self other : Dsa.DsaSignature) :
  Z.prime q -> 0 < k < q -> 0 <= x < q -> 0 < r < q ->
  cong q (k * s1) (h1 + x * r) -> cong q (k * s2) (h2 + x * r) ->
  0 < s1 - s2 < q ->
  Dsa.pubkey_q (Dsa.self_pubkey self) = q ->
  Dsa.pubkey_q (Dsa.self_pubkey other) = q ->
  sig_r (Dsa.self_sig self) = r -> sig_r (Dsa.self_sig other) = r ->
  sig_s (Dsa.self_sig self) = s1 -> sig_s (Dsa.self_sig other) = s2 ->
  Dsa.self_h self = h1 -> Dsa.self_h other = h2 ->
  Dsa.recover_nonce_reuse other self
  = (Dsa.set_x x (Dsa.set_k k self), Returned tt).
Proof.
  intros Hq Hk Hx Hr S1 S2 Hs Q1 Q2 R1 R2 E1 E2 H1 H2.
  pose proof (Z.prime_ge_2 q Hq) as Hq2.
  rewrite dsa_recover_unfold. cbv zeta.
  rewrite Q1, Q2, R1, R2, E1, E2, H1, H2, !Z.eqb_refl. simpl.
  destruct (inverse_of_unit q (s1 - s2) Hq Hs) as (i & -> & Hi).
  rewrite pymod_nonzero by lia.
  rewrite (cong_small q _ k
             (nonce_recovered q k x r h1 h2 s1 s2 S1 S2 (s1 - s2) i
                ltac:(reflexivity) Hi)) by lia.
  destruct (inverse_of_unit q r Hq Hr) as (j & -> & Hj).
  rewrite pymod_nonzero by lia.
  rewrite (cong_small q _ x (secret_recovered q k x r h1 s1 S1 j Hj)) by lia.
  reflexivity.
Qed.

(* ------------------------------------------------------------------ *)
(** ** The candidate search of the ECDSA recovery *)

Lemma try_candidates_cons env z r_inv c rest (self : Ecdsa.EcDsaSignature) :
  Ecdsa.try_candidates env z r_inv (c :: rest) self =
  match Ecdsa.trial env self z r_inv c with
  | Raised e => (self, Raised e)
  | Returned (k, d, signingkey, true) =>
      (Ecdsa.set_recovered signingkey k d self, Returned tt)
  | Returned (_, _, _, false) => Ecdsa.try_candidates env z r_inv rest self
  end.
Proof.
  simpl. unfold mbind, get, lift, assign, mret.
  destruct (Ecdsa.trial env self z r_inv c) as [[[[k d] sk] []]|e]; reflexivity.
Qed.

Lemma try_candidates_returned env z r_inv cands :
  forall self self' u,
  Ecdsa.try_candidates env z r_inv cands self = (self', Returned u) ->
  exists before c after k d sk,
    cands = before ++ c :: after /\
    Forall (rejected env self z r_inv) before /\
    accepted env self z r_inv c k d sk /\
    self' = Ecdsa.set_recovered sk k d self.
Proof.
  induction cands as [|c rest IH]; intros self self' u H.
  - discriminate.
  - rewrite try_candidates_cons in H.
    destruct (Ecdsa.trial env self z r_inv c) as [[[[k d] sk] ok]|e] eqn:T;
      [|discriminate].
    destruct ok.
    + injection H as <- _.
      exists [], c, rest, k, d, sk. repeat split; auto.
    + destruct (IH _ _ _ H) as (before & c' & after & k' & d' & sk' & -> & F & A & ->).
      exists (c :: before), c', after, k', d', sk'. repeat split; auto.
      constructor; [|assumption]. exists k, d, sk. exact T.
Qed.

Lemma try_candidates_raised env z r_inv cands :
  forall self self' e,
  Ecdsa.try_candidates env z r_inv cands self = (self', Raised e) ->
  self' = self.
Proof.
  induction cands as [|c rest IH]; intros self self' e H.
  - injection H as <- _. reflexivity.
  - rewrite try_candidates_cons in H.
    destruct (Ecdsa.trial env self z r_inv c) as [[[[k d] sk] ok]|e'] eqn:T.
    + destruct ok; [discriminate|]. eapply IH; eassumption.
    + injection H as <- _. reflexivity.
Qed.

Lemma try_candidates_all_rejected env z r_inv cands self :
  Forall (rejected env self z r_inv) cands ->
  Ecdsa.try_candidates env z r_inv cands self
  = (self, Raised (AssertionError "False")).
Proof.
  induction 1 as [|c rest (k & d & sk & T) _ IH].
  - reflexivity.
  - rewrite try_candidates_cons, T. exact IH.
Qed.

Lemma try_candidates_first_accepted env z r_inv before c after self k d sk :
  Forall (rejected env self z r_inv) before ->
  accepted env self z r_inv c k d sk ->
  Ecdsa.try_candidates env z r_inv (before ++ c :: after) self
  = (Ecdsa.set_recovered sk k d self, Returned tt).
Proof.
  induction 1 as [|c' rest (k' & d' & sk' & T) _ IH]; intros A.
  - simpl app. rewrite try_candidates_cons. unfold accepted in A. rewrite A. reflexivity.
  - rewrite <- app_comm_cons, try_candidates_cons, T. apply IH. exact A.
Qed.

Lemma ecdsa_recover_unfold env (self other : Ecdsa.EcDsaSignature) :
  Ecdsa.recover_nonce_reuse env other self =
  match inverse_mod env (sig_r (Ecdsa.self_sig self)) (Ecdsa.self_n self) with
  | Raised e => (self, Raised e)
  | Returned r_inv =>
      Ecdsa.try_candidates env (Ecdsa.self_h self - Ecdsa.self_h other) r_inv
        (Ecdsa.candidates (sig_s (Ecdsa.self_sig self))
                          (sig_s (Ecdsa.self_sig other))) self
  end.
Proof.
  unfold Ecdsa.recover_nonce_reuse, mbind, get, lift.
  destruct (inverse_mod env _ _); reflexivity.
Qed.

Section EcdsaHonest.
Variable env : Imports.
Variable grp : Group.
Hypothesis Hinv : inverse_mod_contract env.
Hypothesis Hlaw : group_law grp.
Hypothesis Hprime : Z.prime (order grp).

Let n := order grp.

Lemma inverse_mod_of_unit (a : Z) :
  ~ (n | a) ->
  exists i, inverse_mod env a n = Returned i /\ 0 <= i < n /\ cong n (a * i) 1.
Proof.
  intros Hnd. pose proof (Z.prime_ge_2 n Hprime) as Hn2.
  destruct (Hinv a n ltac:(lia)) as (i & Hi & Hr & Hm).
  - rewrite Z.gcd_comm. apply Z.coprime_prime_l; assumption.
  - exists i. repeat split; try assumption; try lia.
    apply cong_of_eq_mod. exact Hm.
Qed.

Lemma not_divisible_in_range (a : Z) : 0 < a < n -> ~ (n | a).
Proof.
  intros Ha Hd. apply Z.divide_pos_le in Hd; lia.
Qed.

Lemma ecdsa_sign_returned (d k h r s : Z) :
  1 <= k < n ->
  ecdsa_sign env grp d k h = Returned (r, s) ->
  exists x1,
    x_coord grp (base_mul grp k) = Returned x1 /\ r = x1 mod n /\
    0 < r < n /\ 0 < s < n /\ cong n (k * s) (h + d * r).
Proof.
  intros Hk H. pose proof (Z.prime_ge_2 n Hprime) as Hn2.
  unfold ecdsa_sign in H. fold n in H.
  rewrite (Z.mod_small k n) in H by lia.
  apply bind_returned in H as (x1 & Hx & H).
  destruct (Z.eqb_spec (x1 mod n) 0) as [|Hr0]; [discriminate|].
  apply bind_returned in H as (ki & Hki & H).
  destruct (Z.eqb_spec ((ki * (h + (d * (x1 mod n)) mod n)) mod n) 0) as [|Hs0];
    [discriminate|].
  injection H as <- <-.
  exists x1. split; [assumption|]. split; [reflexivity|].
  pose proof (Z.mod_pos_bound x1 n ltac:(lia)).
  pose proof (Z.mod_pos_bound (ki * (h + (d * (x1 mod n)) mod n)) n ltac:(lia)).
  split; [lia|]. split; [lia|].
  destruct (inverse_mod_of_unit k (not_divisible_in_range k ltac:(lia)))
    as (ki' & Hki' & _ & Hc).
  assert (ki' = ki) by congruence. subst ki'.
  rewrite !cong_mod. rewrite Z.mul_assoc, Hc. rewrite Z.mul_1_l. reflexivity.
Qed.

Lemma honest_signature_verifies (d k h r s : Z) (sg : sigobj) :
  1 <= d < n -> 1 <= k < n ->
  ecdsa_sign env grp d k h = Returned (r, s) ->
  sig_r sg = r -> sig_s sg = s ->
  ecdsa_verifies env grp (base_mul grp d) h sg = Returned true.
Proof.
  intros Hd Hk Hs Er Es. pose proof (Z.prime_ge_2 n Hprime) as Hn2.
  destruct (ecdsa_sign_returned d k h r s Hk Hs)
    as (x1 & Hx & Hr & Rr & Rs & Eq).
  unfold ecdsa_verifies. fold n. rewrite Er, Es.
  destruct (Z.ltb_spec r 1); [lia|]. destruct (Z.ltb_spec (n - 1) r); [lia|].
  destruct (Z.ltb_spec s 1); [lia|]. destruct (Z.ltb_spec (n - 1) s); [lia|].
  simpl.
  destruct (inverse_mod_of_unit s (not_divisible_in_range s Rs))
    as (c & -> & _ & Hc).
  simpl. unfold group_law in Hlaw. fold n in Hlaw. rewrite Hlaw;
    try (apply Z.mod_pos_bound; lia); try lia.
  assert (Ek : ((h * c) mod n + (r * c) mod n * d) mod n = k).
  { apply cong_small; [|lia]. rewrite !cong_mod.
    replace (h * c + r * c * d) with ((h + d * r) * c) by ring.
    rewrite <- Eq. rewrite <- Z.mul_assoc, Hc, Z.mul_1_r. reflexivity. }
  rewrite Ek, Hx. simpl. rewrite <- Hr, Z.eqb_refl. reflexivity.
Qed.

Lemma same_nonce_same_r (d k h1 h2 r s1 r2 s2 : Z) :
  1 <= k < n ->
  ecdsa_sign env grp d k h1 = Returned (r, s1) ->
  ecdsa_sign env grp d k h2 = Returned (r2, s2) -> r2 = r.
Proof.
  intros Hk S1 S2.
  destruct (ecdsa_sign_returned d k h1 r s1 Hk S1) as (x1 & Hx1 & -> & _).
  destruct (ecdsa_sign_returned d k h2 r2 s2 Hk S2) as (x2 & Hx2 & -> & _).
  congruence.
Qed.

Lemma ecdsa_recovery_same_nonce
    (d k h1 h2 r s1 s2 : Z) (A B : Ecdsa.EcDsaSignature) :
  1 <= d < n -> 1 <= k < n ->
  ecdsa_sign env grp d k h1 = Returned (r, s1) ->
  ecdsa_sign env grp d k h2 = Returned (r, s2) ->
  s1 <> s2 ->
  Ecdsa.self_curve A = ecdsa_curve env grp -> Ecdsa.self_n A = n ->
  sig_r (Ecdsa.self_sig A) = r -> sig_s (Ecdsa.self_sig A) = s1 ->
  Ecdsa.self_h A = h1 ->
  sig_s (Ecdsa.self_sig B) = s2 -> Ecdsa.self_h B = h2 ->
  exists r_inv,
    inverse_mod env r n = Returned r_inv /\
    accepted env A (h1 - h2) r_inv (s1 - s2) k d (ecdsa_signing_key env grp d) /\
    Ecdsa.recover_nonce_reuse env B A
    = (Ecdsa.set_recovered (ecdsa_signing_key env grp d) k d A, Returned tt).
Proof.
  intros Hd Hk S1 S2 Hne Ec En Er Es Eh Es2 Eh2.
  pose proof (Z.prime_ge_2 n Hprime) as Hn2.
  destruct (ecdsa_sign_returned d k h1 r s1 Hk S1) as (x1 & Hx & Hr & Rr & Rs1 & Q1).
  destruct (ecdsa_sign_returned d k h2 r s2 Hk S2) as (_ & _ & _ & _ & Rs2 & Q2).
  destruct (inverse_mod_of_unit r (not_divisible_in_range r Rr))
    as (r_inv & Hri & _ & Hrc).
  assert (Hnd : ~ (n | s1 - s2)).
  { intros Hdv. apply Z.divide_abs_r in Hdv.
    apply Z.divide_pos_le in Hdv; lia. }
  destruct (inverse_mod_of_unit (s1 - s2) Hnd) as (i & Hi & _ & Hic).
  assert (Acc : accepted env A (h1 - h2) r_inv (s1 - s2) k d
                  (ecdsa_signing_key env grp d)).
  { unfold accepted, Ecdsa.trial. rewrite En, Es, Eh, Ec, Hi. simpl.
    rewrite !pymod_nonzero by lia. simpl.
    rewrite (cong_small n _ k
               (nonce_recovered n k d r h1 h2 s1 s2 Q1 Q2 (s1 - s2) i
                  ltac:(reflexivity) Hic)) by lia.
    rewrite pymod_nonzero by lia. simpl.
    rewrite pymod_nonzero by lia. simpl.
    assert (Ed : (((s1 * k - h1) mod n) * r_inv) mod n = d).
    { apply cong_small; [|lia]. rewrite cong_mod, (Z.mul_comm s1 k).
      apply (secret_recovered n k d r h1 s1 Q1 r_inv Hrc). }
    rewrite Ed.
    destruct (Z.leb_spec 1 d); [|lia]. destruct (Z.ltb_spec d (order grp)); [|fold n; lia].
    simpl.
    rewrite (honest_signature_verifies d k h1 r s1 (Ecdsa.self_sig A) Hd Hk S1 Er Es).
    reflexivity. }
  exists r_inv. split; [assumption|]. split; [assumption|].
  rewrite ecdsa_recover_unfold, En, Er, Hri, Es, Eh, Es2, Eh2.
  apply (try_candidates_first_accepted env (h1 - h2) r_inv [] (s1 - s2)).
  - constructor.
  - exact Acc.
Qed.

End EcdsaHonest.

(* ------------------------------------------------------------------ *)
(** ** The reference imports and the small groups meet the assumptions *)

Lemma reference_inverse_mod : inverse_mod_contract reference_imports.
Proof.
  intros a m Hm Hg. simpl.
  destruct (Z.eqb_spec a 0) as [->|Ha].
  - rewrite Z.gcd_0_l in Hg. lia.
  - rewrite Hg. simpl. exists (Z.invmod a m). split; [reflexivity|]. split.
    + rewrite <- Z.mod_invmod. apply Z.mod_pos_bound. lia.
    + rewrite Z.mul_comm. apply Z.invmod_coprime; [lia | exact Hg].
Qed.

Lemma small_prime (p : Z) :
  1 < p ->
  forallb (fun m => negb (p mod m =? 0)) (map (fun i => Z.of_nat i + 2) (seq 0 (Z.to_nat (p - 2))))
  = true ->
  Z.prime p.
Proof.
  intros Hp Hall. split; [assumption|].
  intros m Hm Hd. rewrite forallb_forall in Hall.
  specialize (Hall m). 
  assert (Hin : In m (map (fun i => Z.of_nat i + 2) (seq 0 (Z.to_nat (p - 2))))).
  { apply in_map_iff. exists (Z.to_nat (m - 2)). split; [lia|].
    apply in_seq. lia. }
  apply Hall in Hin. apply Z.mod_divide in Hd; [|lia].
  rewrite Hd in Hin. discriminate.
Qed.

Lemma prime_19 : Z.prime toy_n.
Proof. apply small_prime; [reflexivity | vm_compute; reflexivity]. Qed.

Lemma prime_11 : Z.prime 11.
Proof. apply small_prime; [reflexivity | vm_compute; reflexivity]. Qed.

Lemma toy_point_eqb_eq (P Q : toy_point) : toy_point_eqb P Q = true -> P = Q.
Proof.
  destruct P as [[x1 y1]|], Q as [[x2 y2]|]; simpl; try discriminate; try reflexivity.
  intros H. apply andb_true_iff in H as [Hx Hy].
  apply Z.eqb_eq in Hx, Hy. congruence.
Qed.

Lemma in_scalars (n : nat) (z : Z) : 0 <= z < Z.of_nat n -> In z (scalars n).
Proof.
  intros Hz. unfold scalars. apply in_map_iff.
  exists (Z.to_nat z). split; [lia|]. apply in_seq. lia.
Qed.

(** The group law of the small curve, checked on every triple of scalars. *)
Lemma toy_group_law_checked :
  forallb (fun u1 =>
    forallb (fun u2 =>
      forallb (fun d =>
        toy_point_eqb (mul_add toy_group u1 (base_mul toy_group d) u2)
                      (base_mul toy_group ((u1 + u2 * d) mod order toy_group)))
        (scalars 19))
      (scalars 19))
    (scalars 19) = true.
Proof. vm_compute. reflexivity. Qed.

Lemma toy_group_law : group_law toy_group.
Proof.
  intros u1 u2 d H1 H2 Hd.
  assert (B1 : 0 <= u1 < Z.of_nat 19) by exact H1.
  assert (B2 : 0 <= u2 < Z.of_nat 19) by exact H2.
  assert (B3 : 0 <= d < Z.of_nat 19)
    by (change (order toy_group) with 19 in Hd; lia).
  pose proof toy_group_law_checked as C.
  pose proof (proj1 (forallb_forall _ _) C u1 (in_scalars 19 u1 B1)) as C1.
  cbv beta in C1.
  pose proof (proj1 (forallb_forall _ _) C1 u2 (in_scalars 19 u2 B2)) as C2.
  cbv beta in C2.
  pose proof (proj1 (forallb_forall _ _) C2 d (in_scalars 19 d B3)) as C3.
  cbv beta in C3.
  apply toy_point_eqb_eq. exact C3.
Qed.

(* ------------------------------------------------------------------ *)
(** ** ECDSA recovery *)

Lemma accepted_verifies env self z r_inv c k d sk :
  accepted env self z r_inv c k d sk ->
  Ecdsa.from_secret_exponent (Ecdsa.self_curve self) d = Returned sk /\
  Ecdsa.verifies (Ecdsa.verifying_pubkey sk) (Ecdsa.self_h self)
    (Ecdsa.self_sig self) = Returned true.
Proof.
  unfold accepted, Ecdsa.trial. intros H.
  apply bind_returned in H as (i & _ & H).
  apply bind_returned in H as (k' & _ & H).
  apply bind_returned in H as (t & _ & H).
  apply bind_returned in H as (d' & _ & H).
  apply bind_returned in H as (sk' & Hsk & H).
  apply bind_returned in H as (ok & Hok & H).
  injection H as <- <- <- <-. split; assumption.
Qed.

Lemma ecdsa_recover_returned env self other self' u :
  Ecdsa.recover_nonce_reuse env other self = (self', Returned u) ->
  exists r_inv before c after k d sk,
    inverse_mod env (sig_r (Ecdsa.self_sig self)) (Ecdsa.self_n self)
    = Returned r_inv /\
    Ecdsa.candidates (sig_s (Ecdsa.self_sig self)) (sig_s (Ecdsa.self_sig other))
    = before ++ c :: after /\
    Forall (rejected env self (Ecdsa.self_h self - Ecdsa.self_h other) r_inv) before /\
    accepted env self (Ecdsa.self_h self - Ecdsa.self_h other) r_inv c k d sk /\
    self' = Ecdsa.set_recovered sk k d self.
Proof.
  rewrite ecdsa_recover_unfold. intros H.
  destruct (inverse_mod env _ _) as [r_inv|e] eqn:Hr; [|discriminate].
  apply try_candidates_returned in H
    as (before & c & after & k & d & sk & Hc & Hb & Ha & ->).
  exists r_inv, before, c, after, k, d, sk. repeat split; assumption.
Qed.

Lemma ecdsa_recover_raised env self other self' e :
  Ecdsa.recover_nonce_reuse env other self = (self', Raised e) -> self' = self.
Proof.
  rewrite ecdsa_recover_unfold. intros H.
  destruct (inverse_mod env _ _) as [r_inv|e'] eqn:Hr.
  - eapply try_candidates_raised; eassumption.
  - injection H as <- _. reflexivity.
Qed.

Lemma ecdsa_init_accepts env r s h o curve n :
  Ecdsa.generator_order o = Returned n ->
  Ecdsa.verifies o h (SignatureParameter r s) = Returned true ->
  Ecdsa.__init__ env (SigTuple [r; s]) (HInt h) (Ecdsa.PkObject o) curve
  = Returned {| Ecdsa.self_curve := curve;
                Ecdsa.self_sig := SignatureParameter r s;
                Ecdsa.self_h := h; Ecdsa.self_pubkey := o;
                Ecdsa.self_k := None; Ecdsa.self_x := None;
                Ecdsa.self_signingkey := None; Ecdsa.self_n := n |}.
Proof.
  intros Hn Hv. unfold Ecdsa.__init__, Ecdsa._load_pubkey. simpl.
  destruct (Ecdsa.isinstance_Public_key o); simpl; rewrite Hn; simpl;
    rewrite Hv; reflexivity.
Qed.

(** C1 (ECDSA recovery with self-verification), as amended: the two
    signatures differ.  On a curve group of prime order, take two
    signatures made with the same secret [d] and the same nonce [k] whose
    [s] differ.  They have the same [r], and the constructor accepts each
    of them under the public key of [d].  On every pair of instances of
    that curve that hold them, the first candidate, s1 - s2, yields a trial
    key that verifies the signature of [self], and [recover_nonce_reuse]
    returns with [self.k = k], [self.x = d] and the key of [d] in
    [self.signingkey].

    The four candidates are tried in the order s1 - s2, s1 + s2,
    -s1 - s2, -s1 + s2, whatever the pair.  If the candidates before one
    of them are tried and rejected and that one is accepted, the call
    returns and has stored that candidate's nonce, secret and trial key,
    which verifies the signature of [self].  Conversely a call that returns
    has taken the first accepted candidate in that order and has stored its
    nonce, secret and trial key. *)
Theorem C1_ecdsa_recovery_self_verified (env : Imports) (grp : Group) :
  inverse_mod_contract env -> group_law grp -> Z.prime (order grp) ->
  (forall d k h1 h2 r s1 r2 s2,
     1 <= d < order grp -> 1 <= k < order grp ->
     ecdsa_sign env grp d k h1 = Returned (r, s1) ->
     ecdsa_sign env grp d k h2 = Returned (r2, s2) ->
     s1 <> s2 ->
     r2 = r /\
     (exists A,
        Ecdsa.__init__ env (SigTuple [r; s1]) (HInt h1)
          (Ecdsa.PkObject (ecdsa_public_key env grp (base_mul grp d)))
          (ecdsa_curve env grp) = Returned A /\
        Ecdsa.self_curve A = ecdsa_curve env grp /\
        Ecdsa.self_n A = order grp /\
        sig_r (Ecdsa.self_sig A) = r /\ sig_s (Ecdsa.self_sig A) = s1 /\
        Ecdsa.self_h A = h1 /\
        Ecdsa.self_k A = None /\ Ecdsa.self_x A = None) /\
     (forall A B : Ecdsa.EcDsaSignature,
        Ecdsa.self_curve A = ecdsa_curve env grp ->
        Ecdsa.self_n A = order grp ->
        sig_r (Ecdsa.self_sig A) = r -> sig_s (Ecdsa.self_sig A) = s1 ->
        Ecdsa.self_h A = h1 ->
        sig_s (Ecdsa.self_sig B) = s2 -> Ecdsa.self_h B = h2 ->
        exists r_inv self',
          inverse_mod env r (order grp) = Returned r_inv /\
          accepted env A (h1 - h2) r_inv (s1 - s2) k d
            (ecdsa_signing_key env grp d) /\
          Ecdsa.recover_nonce_reuse env B A = (self', Returned tt) /\
          Ecdsa.self_k self' = Some k /\
          Ecdsa.self_x self' = Some d /\
          Ecdsa.self_signingkey self' = Some (ecdsa_signing_key env grp d))) /\
  (forall self other r_inv before c after k d sk,
     inverse_mod env (sig_r (Ecdsa.self_sig self)) (Ecdsa.self_n self)
     = Returned r_inv ->
     [sig_s (Ecdsa.self_sig self) - sig_s (Ecdsa.self_sig other);
      sig_s (Ecdsa.self_sig self) + sig_s (Ecdsa.self_sig other);
      - sig_s (Ecdsa.self_sig self) - sig_s (Ecdsa.self_sig other);
      - sig_s (Ecdsa.self_sig self) + sig_s (Ecdsa.self_sig other)]
     = before ++ c :: after ->
     Forall (rejected env self (Ecdsa.self_h self - Ecdsa.self_h other) r_inv)
       before ->
     accepted env self (Ecdsa.self_h self - Ecdsa.self_h other) r_inv c k d sk ->
     exists self',
       Ecdsa.recover_nonce_reuse env other self = (self', Returned tt) /\
       Ecdsa.self_k self' = Some k /\
       Ecdsa.self_x self' = Some d /\
       Ecdsa.self_signingkey self' = Some sk /\
       Ecdsa.verifies (Ecdsa.verifying_pubkey sk) (Ecdsa.self_h self)
         (Ecdsa.self_sig self) = Returned true) /\
  (forall self other self' u,
     Ecdsa.recover_nonce_reuse env other self = (self', Returned u) ->
     exists r_inv before c after k d sk,
       inverse_mod env (sig_r (Ecdsa.self_sig self)) (Ecdsa.self_n self)
       = Returned r_inv /\
       [sig_s (Ecdsa.self_sig self) - sig_s (Ecdsa.self_sig other);
        sig_s (Ecdsa.self_sig self) + sig_s (Ecdsa.self_sig other);
        - sig_s (Ecdsa.self_sig self) - sig_s (Ecdsa.self_sig other);
        - sig_s (Ecdsa.self_sig self) + sig_s (Ecdsa.self_sig other)]
       = before ++ c :: after /\
       Forall (rejected env self (Ecdsa.self_h self - Ecdsa.self_h other) r_inv)
         before /\
       accepted env self (Ecdsa.self_h self - Ecdsa.self_h other) r_inv c k d sk /\
       Ecdsa.verifies (Ecdsa.verifying_pubkey sk) (Ecdsa.self_h self)
         (Ecdsa.self_sig self) = Returned true /\
       Ecdsa.self_k self' = Some k /\
       Ecdsa.self_x self' = Some d /\
       Ecdsa.self_signingkey self' = Some sk).
Proof.
  intros Hinv Hlaw Hprime. split; [|split].
  - intros d k h1 h2 r s1 r2 s2 Hd Hk S1 S2 Hne.
    assert (r2 = r) as ->
      by (eapply (same_nonce_same_r env grp Hinv Hprime); eassumption).
    split; [reflexivity|]. split.
    + pose proof (honest_signature_verifies env grp Hinv Hlaw Hprime d k h1 r s1
                    (SignatureParameter r s1) Hd Hk S1 eq_refl eq_refl) as V1.
      eexists. split.
      * apply ecdsa_init_accepts; [reflexivity | exact V1].
      * repeat split.
    + intros A B Ec En Er Es Eh Es2 Eh2.
      destruct (ecdsa_recovery_same_nonce env grp Hinv Hlaw Hprime d k h1 h2 r
                  s1 s2 A B Hd Hk S1 S2 Hne Ec En Er Es Eh Es2 Eh2)
        as (r_inv & Hr & Ha & R).
      exists r_inv, (Ecdsa.set_recovered (ecdsa_signing_key env grp d) k d A).
      split; [exact Hr|]. split; [exact Ha|]. split; [exact R|].
      split; [reflexivity|]. split; reflexivity.
  - intros self other r_inv before c after k d sk Hr Hc Hb Ha.
    exists (Ecdsa.set_recovered sk k d self).
    split.
    + rewrite ecdsa_recover_unfold, Hr. unfold Ecdsa.candidates. rewrite Hc.
      apply try_candidates_first_accepted; assumption.
    + split; [reflexivity|]. split; [reflexivity|]. split; [reflexivity|].
      apply (accepted_verifies _ _ _ _ _ _ _ _ Ha).
  - intros self other self' u H.
    apply ecdsa_recover_returned in H
      as (r_inv & before & c & after & k & d & sk & Hr & Hc & Hb & Ha & ->).
    exists r_inv, before, c, after, k, d, sk.
    split; [exact Hr|]. split; [exact Hc|]. split; [exact Hb|].
    split; [exact Ha|].
    split; [apply (accepted_verifies _ _ _ _ _ _ _ _ Ha)|].
    split; [reflexivity|]. split; reflexivity.
Qed.

Lemma ec_instance_constructed (r s h : Z) :
  Ecdsa.verifies toy_pubkey h (SignatureParameter r s) = Returned true ->
  Ecdsa.__init__ reference_imports (SigTuple [r; s]) (HInt h)
    (Ecdsa.PkObject toy_pubkey) toy_curve = Returned (ec_instance r s h).
Proof.
  intros V. apply (ecdsa_init_accepts reference_imports r s h toy_pubkey toy_curve toy_n).
  - reflexivity.
  - exact V.
Qed.

(** The trial of a candidate on a curve of the ecdsa package, by its
    arithmetic. *)
Lemma trial_on_curve env grp (self : Ecdsa.EcDsaSignature) z r_inv c i k d ok :
  Ecdsa.self_curve self = ecdsa_curve env grp ->
  Ecdsa.self_n self <> 0 ->
  inverse_mod env c (Ecdsa.self_n self) = Returned i ->
  (z * i) mod Ecdsa.self_n self = k ->
  (((sig_s (Ecdsa.self_sig self) * k - Ecdsa.self_h self) mod Ecdsa.self_n self)
   * r_inv) mod Ecdsa.self_n self = d ->
  1 <= d < order grp ->
  ecdsa_verifies env grp (base_mul grp d) (Ecdsa.self_h self) (Ecdsa.self_sig self)
  = Returned ok ->
  Ecdsa.trial env self z r_inv c
  = Returned (k, d, ecdsa_signing_key env grp d, ok).
Proof.
  intros Hc Hn Hi Hk Hd Rd Hv. unfold Ecdsa.trial.
  rewrite Hi. simpl. rewrite pymod_nonzero by assumption. simpl. rewrite Hk.
  rewrite pymod_nonzero by assumption. simpl.
  rewrite pymod_nonzero by assumption. simpl. rewrite Hd, Hc. simpl.
  destruct (Z.leb_spec 1 d); [|lia]. destruct (Z.ltb_spec d (order grp)); [|lia].
  simpl. rewrite Hv. reflexivity.
Qed.

Ltac toy_range := change (order toy_group) with 19; lia.

Ltac toy_trial i :=
  apply (trial_on_curve reference_imports toy_group _ _ _ _ i);
  [ reflexivity | discriminate | vm_compute; reflexivity
  | vm_compute; reflexivity | vm_compute; reflexivity
  | toy_range
  | vm_compute; reflexivity ].

Lemma C1_ecdsa_recovery_self_verified_witness :
  inverse_mod_contract reference_imports /\
  group_law toy_group /\
  Z.prime (order toy_group) /\
  ecdsa_sign reference_imports toy_group 7 3 11 = Returned (10, 8) /\
  ecdsa_sign reference_imports toy_group 7 3 13 = Returned (10, 15) /\
  Ecdsa.__init__ reference_imports (SigTuple [10; 8]) (HInt 11)
    (Ecdsa.PkObject toy_pubkey) toy_curve = Returned ec_11 /\
  Ecdsa.__init__ reference_imports (SigTuple [10; 15]) (HInt 13)
    (Ecdsa.PkObject toy_pubkey) toy_curve = Returned ec_13 /\
  (exists self',
     Ecdsa.recover_nonce_reuse reference_imports ec_13 ec_11
     = (self', Returned tt) /\
     Ecdsa.self_k self' = Some 3 /\
     Ecdsa.self_x self' = Some 7 /\
     Ecdsa.self_signingkey self'
     = Some (ecdsa_signing_key reference_imports toy_group 7)) /\
  rejected reference_imports ec_11 (11 - 13) 2 (8 - 4) /\
  accepted reference_imports ec_11 (11 - 13) 2 (8 + 4) 3 7
    (ecdsa_signing_key reference_imports toy_group 7) /\
  (exists self',
     Ecdsa.recover_nonce_reuse reference_imports ec_13_negated ec_11
     = (self', Returned tt) /\
     Ecdsa.self_k self' = Some 3 /\
     Ecdsa.self_x self' = Some 7 /\
     Ecdsa.self_signingkey self'
     = Some (ecdsa_signing_key reference_imports toy_group 7)).
Proof.
  assert (S1 : ecdsa_sign reference_imports toy_group 7 3 11 = Returned (10, 8))
    by (vm_compute; reflexivity).
  assert (S2 : ecdsa_sign reference_imports toy_group 7 3 13 = Returned (10, 15))
    by (vm_compute; reflexivity).
  repeat (split; [first [exact reference_inverse_mod | exact toy_group_law
                        | exact prime_19 | exact S1 | exact S2]|]).
  split; [apply ec_instance_constructed; vm_compute; reflexivity|].
  split; [apply ec_instance_constructed; vm_compute; reflexivity|].
  destruct (C1_ecdsa_recovery_self_verified reference_imports toy_group
              reference_inverse_mod toy_group_law prime_19)
    as (Same & Forward & _).
  split.
  { destruct (Same 7 3 11 13 10 8 10 15
                ltac:(toy_range) ltac:(toy_range) S1 S2 ltac:(lia))
      as (_ & _ & Rec).
    destruct (Rec ec_11 ec_13 eq_refl eq_refl eq_refl eq_refl eq_refl eq_refl
                eq_refl)
      as (r_inv & self' & _ & _ & R & Hk & Hx & Hsk).
    exists self'. split; [exact R|]. split; [exact Hk|].
    split; [exact Hx | exact Hsk]. }
  assert (Rj : rejected reference_imports ec_11 (11 - 13) 2 (8 - 4)).
  { exists 9, 8, (ecdsa_signing_key reference_imports toy_group 8). toy_trial 5. }
  assert (Ac : accepted reference_imports ec_11 (11 - 13) 2 (8 + 4) 3 7
                 (ecdsa_signing_key reference_imports toy_group 7)).
  { unfold accepted. toy_trial 8. }
  split; [exact Rj|]. split; [exact Ac|].
  destruct (Forward ec_11 ec_13_negated 2 [8 - 4] (8 + 4) [- 8 - 4; - 8 + 4]
              3 7 (ecdsa_signing_key reference_imports toy_group 7))
    as (self' & R & Hk & Hx & Hsk & _).
  - vm_compute. reflexivity.
  - reflexivity.
  - constructor; [exact Rj | constructor].
  - exact Ac.
  - exists self'. split; [exact R|]. split; [exact Hk|].
    split; [exact Hx | exact Hsk].
Defined.

(** The digests 11 and 30 are congruent modulo the order 19: with the
    secret 7 and the nonce 3 both are signed (10, 8).  The first candidate
    is then 0, of which [inverse_mod] returns 0; the nonce it yields is 0
    and the trial key's verification meets the point at infinity, whose
    x-coordinate is None. *)
Lemma equal_s_trial (c : Z) :
  In c (Ecdsa.candidates 8 8) ->
  Ecdsa.trial reference_imports ec_11 (11 - 30) 2 c
  = Raised (TypeError "unsupported operand type(s) for %").
Proof.
  intros [<-|[<-|[<-|[<-|[]]]]]; vm_compute; reflexivity.
Qed.

Lemma equal_s_recovery_run :
  Ecdsa.recover_nonce_reuse reference_imports ec_30 ec_11
  = (ec_11, Raised (TypeError "unsupported operand type(s) for %")).
Proof.
  rewrite ecdsa_recover_unfold.
  replace (inverse_mod reference_imports (sig_r (Ecdsa.self_sig ec_11))
             (Ecdsa.self_n ec_11))
    with (Returned (A:=Z) 2) by (vm_compute; reflexivity).
  change (Ecdsa.self_h ec_11 - Ecdsa.self_h ec_30) with (11 - 30).
  change (Ecdsa.candidates (sig_s (Ecdsa.self_sig ec_11))
            (sig_s (Ecdsa.self_sig ec_30)))
    with ((8 - 8) :: [8 + 8; - 8 - 8; - 8 + 8]).
  rewrite try_candidates_cons, (equal_s_trial (8 - 8)); [reflexivity|].
  left. reflexivity.
Qed.

(** C1, the claim as stated, fails on two signatures of the same secret and
    nonce that agree in [s]: the signatures of the digests 11 and 30 under
    the secret 7 and the nonce 3 are both (10, 8), both instances are
    constructed, and the recovery raises [TypeError] with [k] and [x] left
    unset, where the claim has it store k = 3 and d = 7. *)
Lemma C1_equal_s_counterexample :
  ecdsa_sign reference_imports toy_group 7 3 11 = Returned (10, 8) /\
  ecdsa_sign reference_imports toy_group 7 3 30 = Returned (10, 8) /\
  Ecdsa.__init__ reference_imports (SigTuple [10; 8]) (HInt 11)
    (Ecdsa.PkObject toy_pubkey) toy_curve = Returned ec_11 /\
  Ecdsa.__init__ reference_imports (SigTuple [10; 8]) (HInt 30)
    (Ecdsa.PkObject toy_pubkey) toy_curve = Returned ec_30 /\
  Ecdsa.recover_nonce_reuse reference_imports ec_30 ec_11
  = (ec_11, Raised (TypeError "unsupported operand type(s) for %")) /\
  Ecdsa.self_k ec_11 = None /\ Ecdsa.self_x ec_11 = None /\
  ~ (exists self' u,
       Ecdsa.recover_nonce_reuse reference_imports ec_30 ec_11
       = (self', Returned u) /\
       Ecdsa.self_k self' = Some 3 /\ Ecdsa.self_x self' = Some 7).
Proof.
  split; [vm_compute; reflexivity|].
  split; [vm_compute; reflexivity|].
  split; [apply ec_instance_constructed; vm_compute; reflexivity|].
  split; [apply ec_instance_constructed; vm_compute; reflexivity|].
  split; [exact equal_s_recovery_run|].
  split; [reflexivity|]. split; [reflexivity|].
  intros (self' & u & R & _). rewrite equal_s_recovery_run in R.
  apply (f_equal snd) in R. discriminate R.
Qed.

(** The second branch: [other] holds a signature made with the negated
    nonce, n - k, which has the same [r] when the x-coordinates of the
    points of k and of n - k agree.  If the first candidate is tried and
    rejected, the second one, s1 + s2, returns the nonce of [self] and the
    secret. *)
Lemma ecdsa_recovery_negated_nonce (env : Imports) (grp : Group)
    (d k h1 h2 r s1 s2 r_inv : Z) (A B : Ecdsa.EcDsaSignature) :
  inverse_mod_contract env -> group_law grp -> Z.prime (order grp) ->
  1 <= d < order grp -> 1 <= k < order grp ->
  ecdsa_sign env grp d k h1 = Returned (r, s1) ->
  ecdsa_sign env grp d (order grp - k) h2 = Returned (r, s2) ->
  (s1 + s2) mod order grp <> 0 ->
  Ecdsa.self_curve A = ecdsa_curve env grp -> Ecdsa.self_n A = order grp ->
  sig_r (Ecdsa.self_sig A) = r -> sig_s (Ecdsa.self_sig A) = s1 ->
  Ecdsa.self_h A = h1 ->
  sig_s (Ecdsa.self_sig B) = s2 -> Ecdsa.self_h B = h2 ->
  inverse_mod env r (order grp) = Returned r_inv ->
  rejected env A (h1 - h2) r_inv (s1 - s2) ->
  accepted env A (h1 - h2) r_inv (s1 + s2) k d (ecdsa_signing_key env grp d) /\
  Ecdsa.recover_nonce_reuse env B A
  = (Ecdsa.set_recovered (ecdsa_signing_key env grp d) k d A, Returned tt).
Proof.
  intros Hinv Hlaw Hprime Hd Hk S1 S2 Hne Ec En Er Es Eh Es2 Eh2 Hri Rej.
  set (n := order grp) in *.
  pose proof (Z.prime_ge_2 n Hprime) as Hn2.
  destruct (ecdsa_sign_returned env grp Hinv Hprime d k h1 r s1 Hk S1)
    as (x1 & Hx & Hr & Rr & Rs1 & Q1).
  destruct (ecdsa_sign_returned env grp Hinv Hprime d (n - k) h2 r s2
              ltac:(fold n; lia) S2)
    as (_ & _ & _ & _ & Rs2 & Q2).
  fold n in Q1, Q2.
  assert (Q2' : cong n (k * (- s2)) (h2 + d * r)).
  { rewrite <- Q2. unfold cong.
    replace ((n - k) * s2) with (k * - s2 + s2 * n) by ring.
    rewrite Z.mod_add by lia. reflexivity. }
  destruct (inverse_mod_of_unit env grp Hinv Hprime r
              (not_divisible_in_range grp r Rr)) as (r_inv' & Hri' & _ & Hrc).
  fold n in Hri'. assert (r_inv' = r_inv) by congruence. subst r_inv'.
  assert (Hnd : ~ (n | s1 + s2)).
  { intros Hdv. apply Z.mod_divide in Hdv; [contradiction | lia]. }
  destruct (inverse_mod_of_unit env grp Hinv Hprime (s1 + s2) Hnd)
    as (i & Hi & _ & Hic).
  fold n in Hi, Hic.
  assert (Acc : accepted env A (h1 - h2) r_inv (s1 + s2) k d
                  (ecdsa_signing_key env grp d)).
  { apply (trial_on_curve env grp A (h1 - h2) r_inv (s1 + s2) i).
    - exact Ec.
    - rewrite En. fold n. lia.
    - rewrite En. exact Hi.
    - rewrite En. fold n. apply cong_small; [|lia].
      apply (nonce_recovered n k d r h1 h2 s1 (- s2) Q1 Q2' (s1 + s2) i); [|exact Hic].
      replace (s1 - - s2) with (s1 + s2) by ring. reflexivity.
    - rewrite En, Es, Eh. fold n. apply cong_small; [|lia].
      rewrite cong_mod, (Z.mul_comm s1 k).
      apply (secret_recovered n k d r h1 s1 Q1 r_inv Hrc).
    - exact Hd.
    - rewrite Eh. 
      exact (honest_signature_verifies env grp Hinv Hlaw Hprime d k h1 r s1
               (Ecdsa.self_sig A) Hd Hk S1 Er Es). }
  split; [exact Acc|].
  rewrite ecdsa_recover_unfold, En, Er. fold n. rewrite Hri, Es, Eh, Es2, Eh2.
  apply (try_candidates_first_accepted env (h1 - h2) r_inv [s1 - s2] (s1 + s2)
           [- s1 - s2; - s1 + s2]).
  - constructor; [exact Rej | constructor].
  - exact Acc.
Qed.

(** The second branch on the small curve: the signature of the digest 13
    made with the nonce 19 - 3 is (10, 4). *)
Lemma ecdsa_recovery_negated_nonce_example :
  ecdsa_sign reference_imports toy_group 7 (19 - 3) 13 = Returned (10, 4) /\
  Ecdsa.recover_nonce_reuse reference_imports ec_13_negated ec_11
  = (Ecdsa.set_recovered (ecdsa_signing_key reference_imports toy_group 7) 3 7 ec_11,
     Returned tt).
Proof.
  assert (S1 : ecdsa_sign reference_imports toy_group 7 3 11 = Returned (10, 8))
    by (vm_compute; reflexivity).
  assert (S2 : ecdsa_sign reference_imports toy_group 7 (19 - 3) 13 = Returned (10, 4))
    by (vm_compute; reflexivity).
  split; [exact S2|].
  apply (ecdsa_recovery_negated_nonce reference_imports toy_group 7 3 11 13 10 8 4 2
           ec_11 ec_13_negated reference_inverse_mod toy_group_law prime_19);
    try reflexivity; try exact S1; try exact S2.
  - toy_range.
  - toy_range.
  - apply Z.eqb_neq. vm_compute. reflexivity.
  - exists 9, 8, (ecdsa_signing_key reference_imports toy_group 8). toy_trial 5.
Qed.

(** The three ways in which the loop ends: on the first accepted
    candidate, after the last candidate with all of them rejected, or on
    the first trial that raises. *)
Lemma try_candidates_outcomes env z r_inv cands (self : Ecdsa.EcDsaSignature) :
  (exists before c after k d sk,
     cands = before ++ c :: after /\
     Forall (rejected env self z r_inv) before /\
     accepted env self z r_inv c k d sk /\
     Ecdsa.try_candidates env z r_inv cands self
     = (Ecdsa.set_recovered sk k d self, Returned tt)) \/
  (Forall (rejected env self z r_inv) cands /\
   Ecdsa.try_candidates env z r_inv cands self
   = (self, Raised (AssertionError "False"))) \/
  (exists before c after e,
     cands = before ++ c :: after /\
     Forall (rejected env self z r_inv) before /\
     Ecdsa.trial env self z r_inv c = Raised e /\
     Ecdsa.try_candidates env z r_inv cands self = (self, Raised e)).
Proof.
  induction cands as [|c rest IH].
  - right. left. split; [constructor | reflexivity].
  - rewrite try_candidates_cons.
    destruct (Ecdsa.trial env self z r_inv c) as [[[[k d] sk] [|]]|e] eqn:T.
    + left. exists [], c, rest, k, d, sk.
      split; [reflexivity|]. split; [constructor|]. split; [exact T | reflexivity].
    + assert (Rj : rejected env self z r_inv c) by (exists k, d, sk; exact T).
      destruct IH as [(before & c' & after & k' & d' & sk' & E & Hb & Ha & R)
                     |[(Hall & R)|(before & c' & after & e & E & Hb & Ht & R)]].
      * left. exists (c :: before), c', after, k', d', sk'.
        split; [rewrite E; reflexivity|].
        split; [constructor; assumption|]. split; assumption.
      * right. left. split; [constructor; assumption | exact R].
      * right. right. exists (c :: before), c', after, e.
        split; [rewrite E; reflexivity|].
        split; [constructor; assumption|]. split; assumption.
    + right. right. exists [], c, rest, e.
      split; [reflexivity|]. split; [constructor|]. split; [exact T | reflexivity].
Qed.

Lemma rejected_is_not_accepted env self z r_inv c k d sk :
  rejected env self z r_inv c -> ~ accepted env self z r_inv c k d sk.
Proof.
  intros (k' & d' & sk' & T) A. unfold accepted in A. congruence.
Qed.

(** C3 (candidate search without a verifying candidate), as amended: the
    failure is the exception of the step that failed.  If none of the four
    candidates gives a trial key that verifies the signature of [self], the
    call never returns and leaves [self] as it was.  It raises the
    [AssertionError] of the final [assert False] exactly when the inverse
    of r exists and each of the four trials runs to its end and is
    rejected.  Otherwise a call of the package has raised, of
    [inverse_mod] on r or inside the trial of a candidate before which all
    were rejected, and the call raises that exception: the candidates after
    it are not tried. *)
Theorem C3_ecdsa_exhausted_search_raises (env : Imports)
    (self other : Ecdsa.EcDsaSignature) :
  let z := Ecdsa.self_h self - Ecdsa.self_h other in
  let cands :=
    [sig_s (Ecdsa.self_sig self) - sig_s (Ecdsa.self_sig other);
     sig_s (Ecdsa.self_sig self) + sig_s (Ecdsa.self_sig other);
     - sig_s (Ecdsa.self_sig self) - sig_s (Ecdsa.self_sig other);
     - sig_s (Ecdsa.self_sig self) + sig_s (Ecdsa.self_sig other)] in
  ((forall r_inv,
      inverse_mod env (sig_r (Ecdsa.self_sig self)) (Ecdsa.self_n self)
      = Returned r_inv ->
      forall c k d sk, In c cands -> ~ accepted env self z r_inv c k d sk) ->
   (exists r_inv,
      inverse_mod env (sig_r (Ecdsa.self_sig self)) (Ecdsa.self_n self)
      = Returned r_inv /\
      Forall (rejected env self z r_inv) cands /\
      Ecdsa.recover_nonce_reuse env other self
      = (self, Raised (AssertionError "False"))) \/
   (exists e,
      inverse_mod env (sig_r (Ecdsa.self_sig self)) (Ecdsa.self_n self)
      = Raised e /\
      Ecdsa.recover_nonce_reuse env other self = (self, Raised e)) \/
   (exists r_inv before c after e,
      inverse_mod env (sig_r (Ecdsa.self_sig self)) (Ecdsa.self_n self)
      = Returned r_inv /\
      cands = before ++ c :: after /\
      Forall (rejected env self z r_inv) before /\
      Ecdsa.trial env self z r_inv c = Raised e /\
      Ecdsa.recover_nonce_reuse env other self = (self, Raised e))) /\
  (forall r_inv,
     inverse_mod env (sig_r (Ecdsa.self_sig self)) (Ecdsa.self_n self)
     = Returned r_inv ->
     Forall (rejected env self z r_inv) cands ->
     Ecdsa.recover_nonce_reuse env other self
     = (self, Raised (AssertionError "False"))).
Proof.
  intros z cands. split.
  - intros Hno. rewrite ecdsa_recover_unfold.
    destruct (inverse_mod env _ _) as [r_inv|e] eqn:Hr.
    + fold z. change (Ecdsa.candidates _ _) with cands.
      destruct (try_candidates_outcomes env z r_inv cands self)
        as [(before & c & after & k & d & sk & E & _ & Ha & _)
           |[(Hall & R)|(before & c & after & e & E & Hb & Ht & R)]].
      * exfalso. apply (Hno r_inv eq_refl c k d sk); [|exact Ha].
        rewrite E. apply in_elt.
      * left. exists r_inv. split; [reflexivity|]. split; assumption.
      * right. right. exists r_inv, before, c, after, e.
        split; [reflexivity|]. repeat (split; [assumption|]). exact R.
    + right. left. exists e. split; reflexivity.
  - intros r_inv Hr Hall. rewrite ecdsa_recover_unfold, Hr.
    apply try_candidates_all_rejected. exact Hall.
Qed.

Lemma C3_ecdsa_exhausted_search_raises_witness :
  inverse_mod reference_imports 10 19 = Returned 2 /\
  Forall (rejected reference_imports ec_11 (11 - 1) 2) [8 - 12; 8 + 12; - 8 - 12; - 8 + 12] /\
  Ecdsa.recover_nonce_reuse reference_imports ec_1 ec_11
  = (ec_11, Raised (AssertionError "False")) /\
  ((exists r_inv,
      inverse_mod reference_imports 10 19 = Returned r_inv /\
      Forall (rejected reference_imports ec_11 (11 - 1) r_inv)
        [8 - 12; 8 + 12; - 8 - 12; - 8 + 12] /\
      Ecdsa.recover_nonce_reuse reference_imports ec_1 ec_11
      = (ec_11, Raised (AssertionError "False"))) \/
   (exists e,
      inverse_mod reference_imports 10 19 = Raised e /\
      Ecdsa.recover_nonce_reuse reference_imports ec_1 ec_11
      = (ec_11, Raised e)) \/
   (exists r_inv before c after e,
      inverse_mod reference_imports 10 19 = Returned r_inv /\
      [8 - 12; 8 + 12; - 8 - 12; - 8 + 12] = before ++ c :: after /\
      Forall (rejected reference_imports ec_11 (11 - 1) r_inv) before /\
      Ecdsa.trial reference_imports ec_11 (11 - 1) r_inv c = Raised e /\
      Ecdsa.recover_nonce_reuse reference_imports ec_1 ec_11
      = (ec_11, Raised e))).
Proof.
  assert (Hr : inverse_mod reference_imports 10 19 = Returned 2)
    by (vm_compute; reflexivity).
  assert (Hall : Forall (rejected reference_imports ec_11 (11 - 1) 2)
                   [8 - 12; 8 + 12; - 8 - 12; - 8 + 12]).
  { repeat constructor.
    - exists 7, 14, (ecdsa_signing_key reference_imports toy_group 14). toy_trial 14.
    - exists 10, 5, (ecdsa_signing_key reference_imports toy_group 5). toy_trial 1.
    - exists 9, 8, (ecdsa_signing_key reference_imports toy_group 8). toy_trial 18.
    - exists 12, 18, (ecdsa_signing_key reference_imports toy_group 18). toy_trial 5. }
  split; [exact Hr|]. split; [exact Hall|].
  destruct (C3_ecdsa_exhausted_search_raises reference_imports ec_11 ec_1)
    as [NoneAccepted AllRejected].
  split; [exact (AllRejected 2 Hr Hall)|].
  apply NoneAccepted.
  intros r_inv Hr' c k d sk Hin.
  change (inverse_mod reference_imports 10 19 = Returned r_inv) in Hr'.
  assert (r_inv = 2) as -> by congruence.
  apply rejected_is_not_accepted.
  exact (proj1 (Forall_forall _ _) Hall c Hin).
Defined.

(** C3, the claim as stated, fails on the pair of the digests 11 and 30: no
    candidate gives a trial key that verifies (every trial raises), and the
    call raises the [TypeError] of the first trial, not the
    [AssertionError] of the exhausted search. *)
Lemma C3_search_ends_in_TypeError_counterexample :
  Ecdsa.__init__ reference_imports (SigTuple [10; 8]) (HInt 11)
    (Ecdsa.PkObject toy_pubkey) toy_curve = Returned ec_11 /\
  Ecdsa.__init__ reference_imports (SigTuple [10; 8]) (HInt 30)
    (Ecdsa.PkObject toy_pubkey) toy_curve = Returned ec_30 /\
  inverse_mod reference_imports (sig_r (Ecdsa.self_sig ec_11))
    (Ecdsa.self_n ec_11) = Returned 2 /\
  (forall c k d sk,
     In c [8 - 8; 8 + 8; - 8 - 8; - 8 + 8] ->
     ~ accepted reference_imports ec_11 (11 - 30) 2 c k d sk) /\
  Ecdsa.recover_nonce_reuse reference_imports ec_30 ec_11
  = (ec_11, Raised (TypeError "unsupported operand type(s) for %")) /\
  Ecdsa.recover_nonce_reuse reference_imports ec_30 ec_11
  <> (ec_11, Raised (AssertionError "False")).
Proof.
  split; [apply ec_instance_constructed; vm_compute; reflexivity|].
  split; [apply ec_instance_constructed; vm_compute; reflexivity|].
  split; [vm_compute; reflexivity|].
  split.
  - intros c k d sk Hin A. unfold accepted in A.
    rewrite (equal_s_trial c Hin) in A. discriminate A.
  - rewrite equal_s_recovery_run. split; [reflexivity|].
    intros H. apply (f_equal snd) in H. discriminate H.
Qed.


(* ------------------------------------------------------------------ *)
(** ** DSA recovery *)

Lemma dsa_init_accepts env pk r s h :
  Dsa.pubkey_verify pk h (r, s) = Returned true ->
  Dsa.__init__ env (SigTuple [r; s]) (HInt h) pk = Returned (dsa_instance pk r s h).
Proof.
  intros V. unfold Dsa.__init__, Dsa._load_pubkey. simpl. rewrite V. reflexivity.
Qed.

(** The signing equation of DSA, in the form that the recovery uses. *)
Lemma dsa_sign_equation (p q g x k h r s : Z) :
  Z.prime q -> 0 < k < q ->
  dsa_sign p q g x k h = (r, s) ->
  cong q (k * s) (h + x * r).
Proof.
  intros Hq Hk H. unfold dsa_sign in H. injection H as <- <-.
  set (r := (g ^ k mod p) mod q).
  assert (Hi : cong q (Z.invmod k q * k) 1).
  { apply cong_of_eq_mod. apply Z.invmod_prime; [assumption|].
    rewrite Z.mod_small by lia. lia. }
  rewrite cong_mod, Z.mul_assoc, (Z.mul_comm k), Hi, Z.mul_1_l. reflexivity.
Qed.

(** DSA recovery on a signed pair: it returns the nonce and the secret
    whenever s1 exceeds s2. *)
Lemma dsa_recovery_of_signed_pair (p q g x k h1 h2 r s1 s2 : Z)
    (self other : Dsa.DsaSignature) :
  Z.prime q -> 0 < k < q -> 0 <= x < q -> 0 < r ->
  dsa_sign p q g x k h1 = (r, s1) -> dsa_sign p q g x k h2 = (r, s2) ->
  s2 < s1 ->
  Dsa.pubkey_q (Dsa.self_pubkey self) = q ->
  Dsa.pubkey_q (Dsa.self_pubkey other) = q ->
  sig_r (Dsa.self_sig self) = r -> sig_r (Dsa.self_sig other) = r ->
  sig_s (Dsa.self_sig self) = s1 -> sig_s (Dsa.self_sig other) = s2 ->
  Dsa.self_h self = h1 -> Dsa.self_h other = h2 ->
  Dsa.recover_nonce_reuse other self
  = (Dsa.set_x x (Dsa.set_k k self), Returned tt).
Proof.
  intros Hq Hk Hx Hr S1 S2 Hlt.
  pose proof (Z.prime_ge_2 q Hq) as Hq2.
  pose proof (dsa_sign_equation p q g x k h1 r s1 Hq Hk S1) as E1.
  pose proof (dsa_sign_equation p q g x k h2 r s2 Hq Hk S2) as E2.
  unfold dsa_sign in S1, S2. injection S1 as Hr1 Hs1. injection S2 as _ Hs2.
  pose proof (Z.mod_pos_bound (g ^ k mod p) q ltac:(lia)).
  pose proof (Z.mod_pos_bound (Z.invmod k q * (h1 + x * ((g ^ k mod p) mod q))) q
                ltac:(lia)).
  pose proof (Z.mod_pos_bound (Z.invmod k q * (h2 + x * ((g ^ k mod p) mod q))) q
                ltac:(lia)).
  apply (dsa_recovery_when_s1_exceeds_s2 q r s1 s2 h1 h2 k x); try assumption; lia.
Qed.

(** The lemma at work on the small group: 9 exceeds 6. *)
Lemma dsa_recovery_of_signed_pair_example :
  Dsa.recover_nonce_reuse dsa_13 dsa_11
  = (Dsa.set_x 7 (Dsa.set_k 3 dsa_11), Returned tt).
Proof.
  apply (dsa_recovery_of_signed_pair 23 11 4 7 3 11 13 7 9 6);
    try reflexivity; try lia.
  exact prime_11.
Qed.

(** C2 (DSA recovery).  The claim: for two signatures made with the same
    secret and the same nonce, [recover_nonce_reuse] returns that nonce and
    that secret.  With p = 23, q = 11, g = 4, the secret 7 and the nonce 3,
    the digests 11 and 13 are signed (7, 9) and (7, 6).  Called on the
    instance of 11 with the instance of 13, the method returns k = 3 and
    x = 7.  Called on the instance of 13 with the instance of 11, it raises:
    s1 - s2 is -3, on which [inverse] raises although -3 is invertible
    modulo 11, and neither attribute is set. *)
Theorem C2_dsa_recovery_raises_when_s1_is_below_s2 :
  dsa_sign 23 11 4 7 3 11 = (7, 9) /\
  dsa_sign 23 11 4 7 3 13 = (7, 6) /\
  Dsa.__init__ reference_imports (SigTuple [7; 9]) (HInt 11) toy_dsa_pubkey
  = Returned dsa_11 /\
  Dsa.__init__ reference_imports (SigTuple [7; 6]) (HInt 13) toy_dsa_pubkey
  = Returned dsa_13 /\
  Dsa.recover_nonce_reuse dsa_13 dsa_11
  = (Dsa.set_x 7 (Dsa.set_k 3 dsa_11), Returned tt) /\
  Dsa.recover_nonce_reuse dsa_11 dsa_13
  = (dsa_13, Raised (ValueError no_inverse)).
Proof.
  split; [vm_compute; reflexivity|]. split; [vm_compute; reflexivity|].
  split; [apply dsa_init_accepts; vm_compute; reflexivity|].
  split; [apply dsa_init_accepts; vm_compute; reflexivity|].
  split.
  - rewrite dsa_recover_unfold.
    replace (inverse (sig_s (Dsa.self_sig dsa_11) - sig_s (Dsa.self_sig dsa_13))
               (Dsa.pubkey_q (Dsa.self_pubkey dsa_11)))
      with (Returned (A:=Z) 4) by (vm_compute; reflexivity).
    replace (inverse (sig_r (Dsa.self_sig dsa_11))
               (Dsa.pubkey_q (Dsa.self_pubkey dsa_11)))
      with (Returned (A:=Z) 8) by (vm_compute; reflexivity).
    reflexivity.
  - rewrite dsa_recover_unfold.
    replace (inverse (sig_s (Dsa.self_sig dsa_13) - sig_s (Dsa.self_sig dsa_11))
               (Dsa.pubkey_q (Dsa.self_pubkey dsa_13)))
      with (Raised (A:=Z) (ValueError no_inverse)) by (vm_compute; reflexivity).
    reflexivity.
Qed.

(** The three ways a DSA recovery can end: before any assignment, between
    the two assignments, or after both. *)
Lemma dsa_recover_outcomes (self other self' : Dsa.DsaSignature) (out : outcome unit) :
  Dsa.recover_nonce_reuse other self = (self', out) ->
  (self' = self /\ exists e, out = Raised e) \/
  (exists k e, self' = Dsa.set_k k self /\ out = Raised e) \/
  (exists k x, self' = Dsa.set_x x (Dsa.set_k k self) /\ out = Returned tt).
Proof.
  rewrite dsa_recover_unfold. cbv zeta.
  destruct (negb _); [intros [= <- <-]; eauto|].
  destruct (negb _); [intros [= <- <-]; eauto|].
  destruct (inverse _ _) as [i|e]; [|intros [= <- <-]; eauto].
  destruct (pymod _ _) as [k|e]; [|intros [= <- <-]; eauto].
  destruct (inverse _ _) as [j|e]; [|intros [= <- <-]; right; left; eauto].
  destruct (pymod _ _) as [x|e]; intros [= <- <-]; right; [right|left]; eauto.
Qed.

(** The precondition of the DSA variant: a pair that differs in [q] or in
    [r] is refused by an assertion, and [self] is left as it was. *)
Lemma dsa_recover_checks_the_pair (self other : Dsa.DsaSignature) :
  Dsa.pubkey_q (Dsa.self_pubkey self) <> Dsa.pubkey_q (Dsa.self_pubkey other) \/
  sig_r (Dsa.self_sig self) <> sig_r (Dsa.self_sig other) ->
  Dsa.recover_nonce_reuse other self = (self, Raised (AssertionError Dsa.same_q)) \/
  Dsa.recover_nonce_reuse other self = (self, Raised (AssertionError Dsa.same_r)).
Proof.
  intros H. rewrite dsa_recover_unfold. cbv zeta.
  destruct (Z.eqb_spec (Dsa.pubkey_q (Dsa.self_pubkey self))
                       (Dsa.pubkey_q (Dsa.self_pubkey other))) as [Eq|Nq];
    simpl; [|left; reflexivity].
  destruct (Z.eqb_spec (sig_r (Dsa.self_sig self)) (sig_r (Dsa.self_sig other)))
    as [Er|Nr]; simpl; [|right; reflexivity].
  destruct H; contradiction.
Qed.

(** The ECDSA variant reads nothing of [other] but its [s] and its digest:
    neither its [r] nor its group order can make a difference. *)
Lemma ecdsa_recover_reads_s_and_h env (self other other' : Ecdsa.EcDsaSignature) :
  sig_s (Ecdsa.self_sig other) = sig_s (Ecdsa.self_sig other') ->
  Ecdsa.self_h other = Ecdsa.self_h other' ->
  Ecdsa.recover_nonce_reuse env other self = Ecdsa.recover_nonce_reuse env other' self.
Proof.
  intros Hs Hh. rewrite !ecdsa_recover_unfold, Hs, Hh. reflexivity.
Qed.

(** The ECDSA variant sets its result all at once or not at all. *)
Lemma ecdsa_recover_atomic env (self other self' : Ecdsa.EcDsaSignature)
    (out : outcome unit) :
  Ecdsa.recover_nonce_reuse env other self = (self', out) ->
  (self' = self /\ exists e, out = Raised e) \/
  (exists k d sk, self' = Ecdsa.set_recovered sk k d self /\ out = Returned tt).
Proof.
  intros H. destruct out as [[]|e].
  - apply ecdsa_recover_returned in H
      as (_ & _ & _ & _ & k & d & sk & _ & _ & _ & _ & ->).
    right. eauto.
  - apply ecdsa_recover_raised in H as ->. left. eauto.
Qed.

(** C5 (compatibility of the pair).  The claim: both variants refuse a pair
    that differs in the group parameter or in r, before any arithmetic.
    The DSA variant does ([dsa_recover_checks_the_pair]).  The ECDSA variant
    has no such check: on the small curve, [ec_11] has r = 10 and [ec_6] has
    r = 5, both were accepted by the constructor under the key of the
    secret 7, and the call returns.  Its first candidate is rejected, its
    second one is accepted, and the secret it stores is 6. *)
Theorem C5_ecdsa_recovery_accepts_mismatched_r :
  Ecdsa.__init__ reference_imports (SigTuple [10; 8]) (HInt 11)
    (Ecdsa.PkObject toy_pubkey) toy_curve = Returned ec_11 /\
  Ecdsa.__init__ reference_imports (SigTuple [5; 3]) (HInt 6)
    (Ecdsa.PkObject toy_pubkey) toy_curve = Returned ec_6 /\
  sig_r (Ecdsa.self_sig ec_11) <> sig_r (Ecdsa.self_sig ec_6) /\
  Ecdsa.recover_nonce_reuse reference_imports ec_6 ec_11
  = (Ecdsa.set_recovered (ecdsa_signing_key reference_imports toy_group 6) 16 6 ec_11,
     Returned tt).
Proof.
  split; [apply ec_instance_constructed; vm_compute; reflexivity|].
  split; [apply ec_instance_constructed; vm_compute; reflexivity|].
  split; [discriminate|].
  rewrite ecdsa_recover_unfold.
  replace (inverse_mod reference_imports (sig_r (Ecdsa.self_sig ec_11))
             (Ecdsa.self_n ec_11))
    with (Returned (A:=Z) 2) by (vm_compute; reflexivity).
  apply (try_candidates_first_accepted reference_imports (11 - 6) 2
           [8 - 3] (8 + 3) [- 8 - 3; - 8 + 3]).
  - repeat constructor.
    exists 1, 13, (ecdsa_signing_key reference_imports toy_group 13). toy_trial 4.
  - unfold accepted. toy_trial 7.
Qed.

(** C6 (atomic population of the results).  The claim: [k] and [x] are set
    together or not at all, whatever makes the call fail.  The ECDSA
    variant does so ([ecdsa_recover_atomic]).  The DSA variant assigns
    [self.k] before it computes [self.x]: under the key with p = 31,
    q = 15, g = 7, y = 18, the signatures (3, 11) of the digest 1 and
    (3, 4) of the digest 2 are both accepted by the constructor, the first
    inverse exists (s1 - s2 = 7), the second does not (r = 3 divides 15),
    and the call raises with [self.k] set to 2 and [self.x] still unset. *)
Theorem C6_dsa_failure_leaves_k_assigned :
  Dsa.__init__ reference_imports (SigTuple [3; 11]) (HInt 1) composite_dsa_pubkey
  = Returned composite_1 /\
  Dsa.__init__ reference_imports (SigTuple [3; 4]) (HInt 2) composite_dsa_pubkey
  = Returned composite_2 /\
  Dsa.self_k composite_1 = None /\ Dsa.self_x composite_1 = None /\
  Dsa.recover_nonce_reuse composite_2 composite_1
  = (Dsa.set_k 2 composite_1, Raised (ValueError no_inverse)) /\
  Dsa.self_k (Dsa.set_k 2 composite_1) = Some 2 /\
  Dsa.self_x (Dsa.set_k 2 composite_1) = None.
Proof.
  split; [apply dsa_init_accepts; vm_compute; reflexivity|].
  split; [apply dsa_init_accepts; vm_compute; reflexivity|].
  split; [reflexivity|]. split; [reflexivity|].
  split; [|split; reflexivity].
  rewrite dsa_recover_unfold.
  replace (inverse (sig_s (Dsa.self_sig composite_1) - sig_s (Dsa.self_sig composite_2))
             (Dsa.pubkey_q (Dsa.self_pubkey composite_1)))
    with (Returned (A:=Z) 13) by (vm_compute; reflexivity).
  replace (inverse (sig_r (Dsa.self_sig composite_1))
             (Dsa.pubkey_q (Dsa.self_pubkey composite_1)))
    with (Raised (A:=Z) (ValueError no_inverse)) by (vm_compute; reflexivity).
  reflexivity.
Qed.

(* ================================================================== *)
(** * Part III: further properties of the code *)

(* ------------------------------------------------------------------ *)
(** ** [extended_gcd] and [inverse] on all integers *)

(** X1.  For all integers a and b, [extended_gcd a b] returns (g, x, y)
    with a * x + b * y = g, where g is b when a is 0 and otherwise the
    greatest common divisor of a and b carrying the sign of a. *)
Theorem X1_extended_gcd_bezout_and_sign (a b : Z) :
  exists g x y,
    extended_gcd a b = (g, x, y) /\
    a * x + b * y = g /\
    g = (if a =? 0 then b else Z.sgn a * Z.gcd a b).
Proof.
  pose proof (extended_gcd_bezout a b) as B.
  pose proof (extended_gcd_value a b) as V.
  destruct (extended_gcd a b) as [[g x] y]. simpl in V.
  exists g, x, y. repeat split; assumption.
Qed.

(** X2.  On a non-negative argument and a modulus above 1, [inverse]
    returns exactly when the two are coprime; the value returned lies in
    [0, n) and is the inverse of a modulo n; otherwise [ValueError] is
    raised. *)
Theorem X2_inverse_on_nonnegative (a n : Z) :
  0 <= a -> 1 < n ->
  (Z.gcd a n = 1 ->
   exists x, inverse a n = Returned x /\ 0 <= x < n /\ (a * x) mod n = 1) /\
  (Z.gcd a n <> 1 -> inverse a n = Raised (ValueError no_inverse)).
Proof.
  intros Ha Hn. pose proof (inverse_nonneg a n Ha Hn) as H.
  destruct (Z.eqb_spec (Z.gcd a n) 1) as [E|E]; split; intros G;
    try contradiction; exact H.
Qed.

Lemma X2_inverse_on_nonnegative_witness :
  0 <= 3 /\ 1 < 11 /\ Z.gcd 3 11 = 1 /\ Z.gcd 6 15 <> 1 /\
  (exists x, inverse 3 11 = Returned x /\ 0 <= x < 11 /\ (3 * x) mod 11 = 1) /\
  inverse 6 15 = Raised (ValueError no_inverse).
Proof.
  split; [lia|]. split; [lia|]. split; [reflexivity|].
  split; [vm_compute; discriminate|]. split.
  - apply (proj1 (X2_inverse_on_nonnegative 3 11 ltac:(lia) ltac:(lia))).
    reflexivity.
  - apply (proj2 (X2_inverse_on_nonnegative 6 15 ltac:(lia) ltac:(lia))).
    vm_compute. discriminate.
Defined.

(** X3.  [inverse] raises [ValueError] on every negative argument,
    whatever the modulus: the gcd that [extended_gcd] returns is then
    negative or zero, never 1. *)
Theorem X3_inverse_raises_on_negative (a n : Z) :
  a < 0 -> inverse a n = Raised (ValueError no_inverse).
Proof. apply inverse_negative. Qed.

Lemma X3_inverse_raises_on_negative_witness :
  -1 < 0 /\ (-1 * 4) mod 5 = 1 /\ inverse (-1) 5 = Raised (ValueError no_inverse).
Proof.
  split; [lia|]. split; [reflexivity|].
  apply (X3_inverse_raises_on_negative (-1) 5). lia.
Defined.

(** X4.  The degenerate moduli.  With the modulus 0, [inverse] raises
    [ZeroDivisionError] on 1 (the gcd is 1 and the final [x % n] divides by
    zero) and [ValueError] on every other argument.  With the modulus 1 it
    returns 0 on every non-negative argument. *)
Theorem X4_inverse_degenerate_moduli (a : Z) :
  inverse a 0 = (if a =? 1 then Raised ZeroDivisionError
                 else Raised (ValueError no_inverse)) /\
  (0 <= a -> inverse a 1 = Returned 0).
Proof.
  split.
  - unfold inverse. pose proof (extended_gcd_value a 0) as V.
    pose proof (extended_gcd_bezout a 0) as B.
    destruct (extended_gcd a 0) as [[g x] y]. simpl in V.
    rewrite Z.gcd_0_r in V.
    destruct (Z.eqb_spec a 0) as [->|Ha].
    + subst g. reflexivity.
    + assert (E : g = a) by (rewrite V; rewrite Z.mul_comm; apply Z.abs_sgn).
      clear V. rewrite E in *.
      destruct (Z.eqb_spec a 1) as [A1|A1]; simpl; reflexivity.
  - intros Ha. unfold inverse. pose proof (extended_gcd_value a 1) as V.
    destruct (extended_gcd a 1) as [[g x] y]. simpl in V.
    assert (E : g = 1).
    { destruct (Z.eqb_spec a 0) as [->|Hne]; [assumption|].
      rewrite V, Z.gcd_1_r. lia. }
    clear V. rewrite E. simpl. unfold pymod. simpl. rewrite Z.mod_1_r.
    reflexivity.
Qed.

Lemma X4_inverse_degenerate_moduli_witness :
  inverse 1 0 = Raised ZeroDivisionError /\
  inverse 7 0 = Raised (ValueError no_inverse) /\
  inverse 7 1 = Returned 0.
Proof.
  split; [exact (proj1 (X4_inverse_degenerate_moduli 1))|].
  split; [exact (proj1 (X4_inverse_degenerate_moduli 7))|].
  apply (proj2 (X4_inverse_degenerate_moduli 7)). lia.
Defined.

(* ------------------------------------------------------------------ *)
(** ** DSA: signing, the gate and the recovery together *)





(* ------------------------------------------------------------------ *)
(** ** DSA: what the recovery refuses, and what it guarantees *)

(** X6.  The DSA recovery checks the pair first: when the two keys differ
    in [q], or agree in [q] and the signatures differ in [r], it raises the
    [AssertionError] of the check that fails and leaves [self] as it
    was. *)
Theorem X6_dsa_recovery_refuses_mismatched_pair (self other : Dsa.DsaSignature) :
  (Dsa.pubkey_q (Dsa.self_pubkey self) <> Dsa.pubkey_q (Dsa.self_pubkey other) ->
   Dsa.recover_nonce_reuse other self
   = (self, Raised (AssertionError Dsa.same_q))) /\
  (Dsa.pubkey_q (Dsa.self_pubkey self) = Dsa.pubkey_q (Dsa.self_pubkey other) ->
   sig_r (Dsa.self_sig self) <> sig_r (Dsa.self_sig other) ->
   Dsa.recover_nonce_reuse other self
   = (self, Raised (AssertionError Dsa.same_r))).
Proof.
  split.
  - intros Hq. rewrite dsa_recover_unfold. cbv zeta.
    destruct (Z.eqb_spec (Dsa.pubkey_q (Dsa.self_pubkey self))
                         (Dsa.pubkey_q (Dsa.self_pubkey other)));
      [contradiction | reflexivity].
  - intros Hq Hr. rewrite dsa_recover_unfold. cbv zeta.
    rewrite Hq, Z.eqb_refl. simpl.
    destruct (Z.eqb_spec (sig_r (Dsa.self_sig self)) (sig_r (Dsa.self_sig other)));
      [contradiction | reflexivity].
Qed.

Lemma X6_dsa_recovery_refuses_mismatched_pair_witness :
  Dsa.pubkey_q (Dsa.self_pubkey dsa_11)
  <> Dsa.pubkey_q (Dsa.self_pubkey composite_1) /\
  Dsa.recover_nonce_reuse composite_1 dsa_11
  = (dsa_11, Raised (AssertionError Dsa.same_q)).
Proof.
  assert (H : Dsa.pubkey_q (Dsa.self_pubkey dsa_11)
              <> Dsa.pubkey_q (Dsa.self_pubkey composite_1))
    by (simpl; lia).
  split; [exact H|].
  exact (proj1 (X6_dsa_recovery_refuses_mismatched_pair dsa_11 composite_1) H).
Defined.

(** X7.  On a pair that passes the two checks, the DSA recovery raises
    [ValueError] and leaves [self] as it was whenever s1 is below s2, and
    also when s1 equals s2 unless [q] is 1: the difference s1 - s2 goes to
    [inverse], which rejects every negative argument and rejects 0. *)
Theorem X7_dsa_recovery_needs_s1_above_s2 (self other : Dsa.DsaSignature) :
  Dsa.pubkey_q (Dsa.self_pubkey self) = Dsa.pubkey_q (Dsa.self_pubkey other) ->
  sig_r (Dsa.self_sig self) = sig_r (Dsa.self_sig other) ->
  sig_s (Dsa.self_sig self) < sig_s (Dsa.self_sig other) \/
  (sig_s (Dsa.self_sig self) = sig_s (Dsa.self_sig other) /\
   Dsa.pubkey_q (Dsa.self_pubkey self) <> 1) ->
  Dsa.recover_nonce_reuse other self = (self, Raised (ValueError no_inverse)).
Proof.
  intros Hq Hr Hs. rewrite dsa_recover_unfold. cbv zeta.
  rewrite Hq, Hr, !Z.eqb_refl. simpl.
  assert (E : inverse (sig_s (Dsa.self_sig self) - sig_s (Dsa.self_sig other))
                (Dsa.pubkey_q (Dsa.self_pubkey other))
              = Raised (ValueError no_inverse)).
  { destruct Hs as [Hlt|[Heq Hq1]].
    - apply inverse_negative. lia.
    - rewrite Heq, Z.sub_diag. unfold inverse.
      pose proof (extended_gcd_value 0 (Dsa.pubkey_q (Dsa.self_pubkey other))) as V.
      destruct (extended_gcd 0 _) as [[g x] y]. simpl in V. rewrite V.
      destruct (Z.eqb_spec (Dsa.pubkey_q (Dsa.self_pubkey other)) 1);
        [congruence | reflexivity]. }
  rewrite E. reflexivity.
Qed.

Lemma X7_dsa_recovery_needs_s1_above_s2_witness :
  Dsa.pubkey_q (Dsa.self_pubkey dsa_13) = Dsa.pubkey_q (Dsa.self_pubkey dsa_11) /\
  sig_r (Dsa.self_sig dsa_13) = sig_r (Dsa.self_sig dsa_11) /\
  sig_s (Dsa.self_sig dsa_13) < sig_s (Dsa.self_sig dsa_11) /\
  Dsa.recover_nonce_reuse dsa_11 dsa_13 = (dsa_13, Raised (ValueError no_inverse)).
Proof.
  assert (Hs : sig_s (Dsa.self_sig dsa_13) < sig_s (Dsa.self_sig dsa_11))
    by (simpl; lia).
  split; [reflexivity|]. split; [reflexivity|]. split; [exact Hs|].
  exact (X7_dsa_recovery_needs_s1_above_s2 dsa_13 dsa_11 eq_refl eq_refl
           (or_introl Hs)).
Defined.

(** What a returning [inverse] has established. *)
Lemma inverse_returned (a n i : Z) :
  inverse a n = Returned i ->
  n <> 0 /\ 0 <= a /\ Z.gcd a n = 1 /\ i mod n = i /\ cong n (a * i) 1.
Proof.
  unfold inverse. intros H.
  pose proof (extended_gcd_value a n) as V.
  pose proof (extended_gcd_bezout a n) as B.
  destruct (extended_gcd a n) as [[g x] y]. simpl in V.
  destruct (Z.eqb_spec g 1) as [G1|G1]; [|discriminate]. simpl in H.
  unfold pymod in H. destruct (Z.eqb_spec n 0) as [|Hn]; [discriminate|].
  injection H as <-. rewrite G1 in V, B. clear G1 g.
  assert (Ha : 0 <= a).
  { destruct (Z.eqb_spec a 0); [lia|]. pose proof (Z.gcd_nonneg a n). nia. }
  assert (Hg : Z.gcd a n = 1).
  { destruct (Z.eqb_spec a 0) as [->|Hne].
    - rewrite Z.gcd_0_l. lia.
    - replace (Z.sgn a) with 1 in V by lia. lia. }
  repeat split; try assumption.
  - apply Z.mod_mod. assumption.
  - rewrite cong_mod. unfold cong.
    replace (a * x) with (1 + (- y) * n) by lia.
    apply Z.mod_add. assumption.
Qed.

(** X8.  What a returning DSA recovery guarantees, whatever the pair.  It
    has changed nothing of [self] but [k] and [x], both of which are now
    set, reduced modulo [q], and solve the two signing equations for the
    signature of [self]:  k * (s1 - s2) = h1 - h2  and  x * r = k * s1 - h1
    modulo [q]. *)
Theorem X8_dsa_recovery_result_solves_equations
    (self other self' : Dsa.DsaSignature) (u : unit) :
  Dsa.recover_nonce_reuse other self = (self', Returned u) ->
  Dsa.self_sig self' = Dsa.self_sig self /\
  Dsa.self_h self' = Dsa.self_h self /\
  Dsa.self_pubkey self' = Dsa.self_pubkey self /\
  exists k x,
    Dsa.self_k self' = Some k /\ Dsa.self_x self' = Some x /\
    let q := Dsa.pubkey_q (Dsa.self_pubkey self) in
    k mod q = k /\ x mod q = x /\
    (k * (sig_s (Dsa.self_sig self) - sig_s (Dsa.self_sig other))) mod q
    = (Dsa.self_h self - Dsa.self_h other) mod q /\
    (x * sig_r (Dsa.self_sig self)) mod q
    = (k * sig_s (Dsa.self_sig self) - Dsa.self_h self) mod q.
Proof.
  rewrite dsa_recover_unfold. cbv zeta.
  set (q := Dsa.pubkey_q (Dsa.self_pubkey self)).
  destruct (q =? Dsa.pubkey_q (Dsa.self_pubkey other)); cbn [negb];
    [|intros H; exfalso; congruence].
  destruct (sig_r (Dsa.self_sig self) =? sig_r (Dsa.self_sig other)); cbn [negb];
    [|intros H; exfalso; congruence].
  destruct (inverse _ q) as [i|] eqn:Hi; [|intros H; exfalso; congruence].
  destruct (pymod _ q) as [k|] eqn:Hk; [|intros H; exfalso; congruence].
  destruct (inverse (sig_r _) q) as [j|] eqn:Hj; [|intros H; exfalso; congruence].
  destruct (pymod ((k * _ - _) * j) q) as [x|] eqn:Hx;
    [|intros H; exfalso; congruence].
  intros H. apply (f_equal fst) in H. simpl in H. subst self'.
  apply inverse_returned in Hi as (Hq & _ & _ & _ & Ci).
  apply inverse_returned in Hj as (_ & _ & _ & _ & Cj).
  rewrite pymod_nonzero in Hk, Hx by assumption.
  injection Hk as <-. injection Hx as <-.
  repeat split.
  exists (((Dsa.self_h self - Dsa.self_h other) * i) mod q),
         (((((Dsa.self_h self - Dsa.self_h other) * i) mod q
            * sig_s (Dsa.self_sig self) - Dsa.self_h self) * j) mod q).
  split; [reflexivity|]. split; [reflexivity|]. cbv zeta.
  split; [apply Z.mod_mod; assumption|].
  split; [apply Z.mod_mod; assumption|].
  split.
  - change (cong q ((((Dsa.self_h self - Dsa.self_h other) * i) mod q)
                    * (sig_s (Dsa.self_sig self) - sig_s (Dsa.self_sig other)))
                   (Dsa.self_h self - Dsa.self_h other)).
    rewrite cong_mod, <- Z.mul_assoc, (Z.mul_comm i), Ci, Z.mul_1_r. reflexivity.
  - set (k := ((Dsa.self_h self - Dsa.self_h other) * i) mod q).
    change (cong q ((((k * sig_s (Dsa.self_sig self) - Dsa.self_h self) * j) mod q)
                    * sig_r (Dsa.self_sig self))
                   (k * sig_s (Dsa.self_sig self) - Dsa.self_h self)).
    rewrite cong_mod, <- Z.mul_assoc, (Z.mul_comm j), Cj, Z.mul_1_r. reflexivity.
Qed.

Lemma X8_dsa_recovery_result_solves_equations_witness :
  Dsa.recover_nonce_reuse dsa_13 dsa_11
  = (Dsa.set_x 7 (Dsa.set_k 3 dsa_11), Returned tt) /\
  (3 * (9 - 6)) mod 11 = (11 - 13) mod 11 /\
  (7 * 7) mod 11 = (3 * 9 - 11) mod 11.
Proof.
  pose proof dsa_recovery_of_signed_pair_example as R.
  split; [exact R|].
  destruct (X8_dsa_recovery_result_solves_equations dsa_11 dsa_13 _ tt R)
    as (_ & _ & _ & k & x & Hk & Hx & _ & _ & E1 & E2).
  injection Hk as <-. injection Hx as <-. split; [exact E1 | exact E2].
Defined.

(** X9.  The DSA recovery is idempotent: once a call has returned, the
    same call on the updated object returns again and leaves it as it
    is. *)
Theorem X9_dsa_recovery_idempotent (self other self' : Dsa.DsaSignature) (u : unit) :
  Dsa.recover_nonce_reuse other self = (self', Returned u) ->
  Dsa.recover_nonce_reuse other self' = (self', Returned tt).
Proof.
  rewrite !dsa_recover_unfold. cbv zeta.
  destruct (Dsa.pubkey_q (Dsa.self_pubkey self)
            =? Dsa.pubkey_q (Dsa.self_pubkey other)) eqn:N1; cbn [negb];
    [|intros H; exfalso; congruence].
  destruct (sig_r (Dsa.self_sig self) =? sig_r (Dsa.self_sig other)) eqn:N2;
    cbn [negb]; [|intros H; exfalso; congruence].
  destruct (inverse _ _) as [i|] eqn:Hi; [|intros H; exfalso; congruence].
  destruct (pymod _ _) as [k|] eqn:Hk; [|intros H; exfalso; congruence].
  destruct (inverse (sig_r _) _) as [j|] eqn:Hj; [|intros H; exfalso; congruence].
  destruct (pymod ((k * _ - _) * j) _) as [x|] eqn:Hx; [|intros H; exfalso; congruence].
  intros H. apply (f_equal fst) in H. simpl in H. subst self'.
  destruct self as [sg h pk k0 x0]. simpl in *.
  rewrite N1, N2. cbn [negb]. rewrite Hi, Hk, Hj, Hx. reflexivity.
Qed.

Lemma X9_dsa_recovery_idempotent_witness :
  Dsa.recover_nonce_reuse dsa_13 dsa_11
  = (Dsa.set_x 7 (Dsa.set_k 3 dsa_11), Returned tt) /\
  Dsa.recover_nonce_reuse dsa_13 (Dsa.set_x 7 (Dsa.set_k 3 dsa_11))
  = (Dsa.set_x 7 (Dsa.set_k 3 dsa_11), Returned tt).
Proof.
  pose proof dsa_recovery_of_signed_pair_example as R.
  split; [exact R|].
  exact (X9_dsa_recovery_idempotent dsa_11 dsa_13 _ tt R).
Defined.

(* ------------------------------------------------------------------ *)
(** ** ECDSA: what the recovery touches, reads and guarantees *)

(** X10.  The ECDSA recovery is all or nothing.  If the call raises,
    [self] is exactly as it was.  If it returns, [k], [x] and [signingkey]
    are all set, [signingkey] is the key that the curve builds from [x],
    its public key verifies the signature of [self], and nothing else of
    [self] has changed. *)
Theorem X10_ecdsa_recovery_all_or_nothing (env : Imports)
    (self other : Ecdsa.EcDsaSignature) :
  match Ecdsa.recover_nonce_reuse env other self with
  | (self', Raised _) => self' = self
  | (self', Returned _) =>
      exists k d sk,
        Ecdsa.self_k self' = Some k /\ Ecdsa.self_x self' = Some d /\
        Ecdsa.self_signingkey self' = Some sk /\
        Ecdsa.from_secret_exponent (Ecdsa.self_curve self) d = Returned sk /\
        Ecdsa.verifies (Ecdsa.verifying_pubkey sk) (Ecdsa.self_h self)
          (Ecdsa.self_sig self) = Returned true /\
        Ecdsa.self_curve self' = Ecdsa.self_curve self /\
        Ecdsa.self_sig self' = Ecdsa.self_sig self /\
        Ecdsa.self_h self' = Ecdsa.self_h self /\
        Ecdsa.self_pubkey self' = Ecdsa.self_pubkey self /\
        Ecdsa.self_n self' = Ecdsa.self_n self
  end.
Proof.
  destruct (Ecdsa.recover_nonce_reuse env other self) as [self' [u|e]] eqn:R.
  - apply ecdsa_recover_returned in R
      as (r_inv & before & c & after & k & d & sk & _ & _ & _ & Ha & ->).
    destruct (accepted_verifies _ _ _ _ _ _ _ _ Ha) as [Hsk Hv].
    exists k, d, sk. repeat split; assumption.
  - apply ecdsa_recover_raised in R. exact R.
Qed.

(** The trial of a candidate reads the order, the signature, the digest
    and the curve of [self], nothing else. *)
Lemma trial_reads env (self self' : Ecdsa.EcDsaSignature) z r_inv c :
  Ecdsa.self_n self' = Ecdsa.self_n self ->
  Ecdsa.self_sig self' = Ecdsa.self_sig self ->
  Ecdsa.self_h self' = Ecdsa.self_h self ->
  Ecdsa.self_curve self' = Ecdsa.self_curve self ->
  Ecdsa.trial env self' z r_inv c = Ecdsa.trial env self z r_inv c.
Proof.
  intros Hn Hs Hh Hc. unfold Ecdsa.trial. rewrite Hn, Hs, Hh, Hc. reflexivity.
Qed.

Lemma try_candidates_with_pubkey env pk z r_inv cands :
  forall self,
  Ecdsa.try_candidates env z r_inv cands (with_pubkey pk self)
  = (let '(self', out) := Ecdsa.try_candidates env z r_inv cands self in
     (with_pubkey pk self', out)).
Proof.
  induction cands as [|c rest IH]; intros self.
  - reflexivity.
  - rewrite !try_candidates_cons.
    rewrite (trial_reads env self (with_pubkey pk self)) by reflexivity.
    destruct (Ecdsa.trial env self z r_inv c) as [[[[k d] sk] [|]]|e];
      try reflexivity.
    apply IH.
Qed.

(** X11.  What the ECDSA recovery reads.  Of [other] it reads the [s] of
    the signature and the digest only: two objects that agree on these give
    the same result, whatever their [r], order, curve and key.  Of [self]
    it never reads the bound public key: with any other object in
    [self.pubkey] the call ends the same way and stores the same nonce,
    secret and signing key. *)
Theorem X11_ecdsa_recovery_reads (env : Imports)
    (self other other' : Ecdsa.EcDsaSignature) (pk : Ecdsa.PublicKey) :
  (sig_s (Ecdsa.self_sig other) = sig_s (Ecdsa.self_sig other') ->
   Ecdsa.self_h other = Ecdsa.self_h other' ->
   Ecdsa.recover_nonce_reuse env other self
   = Ecdsa.recover_nonce_reuse env other' self) /\
  Ecdsa.recover_nonce_reuse env other (with_pubkey pk self)
  = (let '(self', out) := Ecdsa.recover_nonce_reuse env other self in
     (with_pubkey pk self', out)).
Proof.
  split.
  - intros Hs Hh. apply ecdsa_recover_reads_s_and_h; assumption.
  - rewrite !ecdsa_recover_unfold. cbn [with_pubkey Ecdsa.self_sig Ecdsa.self_n
                                         Ecdsa.self_h].
    destruct (inverse_mod env _ _) as [r_inv|e]; [|reflexivity].
    apply try_candidates_with_pubkey.
Qed.

Lemma X11_ecdsa_recovery_reads_witness :
  sig_s (Ecdsa.self_sig ec_13) = sig_s (Ecdsa.self_sig (ec_instance 9 15 13)) /\
  Ecdsa.self_h ec_13 = Ecdsa.self_h (ec_instance 9 15 13) /\
  Ecdsa.recover_nonce_reuse reference_imports ec_13 ec_11
  = Ecdsa.recover_nonce_reuse reference_imports (ec_instance 9 15 13) ec_11.
Proof.
  split; [reflexivity|]. split; [reflexivity|].
  exact (proj1 (X11_ecdsa_recovery_reads reference_imports ec_11 ec_13
                  (ec_instance 9 15 13) not_a_key) eq_refl eq_refl).
Defined.

(** X12.  The ECDSA recovery is idempotent: once a call has returned, the
    same call on the updated object returns again and leaves it as it
    is. *)
Theorem X12_ecdsa_recovery_idempotent (env : Imports)
    (self other self' : Ecdsa.EcDsaSignature) (u : unit) :
  Ecdsa.recover_nonce_reuse env other self = (self', Returned u) ->
  Ecdsa.recover_nonce_reuse env other self' = (self', Returned tt).
Proof.
  intros R.
  apply ecdsa_recover_returned in R
    as (r_inv & before & c & after & k & d & sk & Hr & Hc & Hb & Ha & ->).
  rewrite ecdsa_recover_unfold.
  cbn [Ecdsa.set_recovered Ecdsa.self_sig Ecdsa.self_n Ecdsa.self_h].
  rewrite Hr, Hc.
  assert (T : forall c', Ecdsa.trial env (Ecdsa.set_recovered sk k d self)
                           (Ecdsa.self_h self - Ecdsa.self_h other) r_inv c'
                         = Ecdsa.trial env self
                             (Ecdsa.self_h self - Ecdsa.self_h other) r_inv c')
    by (intros c'; apply trial_reads; reflexivity).
  rewrite (try_candidates_first_accepted env _ r_inv before c after
             (Ecdsa.set_recovered sk k d self) k d sk).
  - reflexivity.
  - apply Forall_forall. intros c' Hin. rewrite Forall_forall in Hb.
    destruct (Hb c' Hin) as (k' & d' & sk' & E).
    exists k', d', sk'. rewrite T. exact E.
  - unfold accepted. rewrite T. exact Ha.
Qed.

Lemma X12_ecdsa_recovery_idempotent_witness :
  Ecdsa.recover_nonce_reuse reference_imports ec_13 ec_11
  = (Ecdsa.set_recovered (ecdsa_signing_key reference_imports toy_group 7) 3 7 ec_11,
     Returned tt) /\
  Ecdsa.recover_nonce_reuse reference_imports ec_13
    (Ecdsa.set_recovered (ecdsa_signing_key reference_imports toy_group 7) 3 7 ec_11)
  = (Ecdsa.set_recovered (ecdsa_signing_key reference_imports toy_group 7) 3 7 ec_11,
     Returned tt).
Proof.
  assert (R : Ecdsa.recover_nonce_reuse reference_imports ec_13 ec_11
              = (Ecdsa.set_recovered
                   (ecdsa_signing_key reference_imports toy_group 7) 3 7 ec_11,
                 Returned tt)).
  { rewrite ecdsa_recover_unfold.
    replace (inverse_mod reference_imports (sig_r (Ecdsa.self_sig ec_11))
               (Ecdsa.self_n ec_11))
      with (Returned (A:=Z) 2) by (vm_compute; reflexivity).
    apply (try_candidates_first_accepted reference_imports (11 - 13) 2
             [] (8 - 15) [8 + 15; - 8 - 15; - 8 + 15]).
    - constructor.
    - unfold accepted. toy_trial 8. }
  split; [exact R|].
  exact (X12_ecdsa_recovery_idempotent reference_imports ec_11 ec_13 _ tt R).
Defined.

(** X13.  The second branch of the search.  On a curve group of prime
    order, let [self] hold a signature made with the nonce k and [other]
    one made with the negated nonce n - k, with the same [r].  If the first
    candidate s1 - s2 is tried and rejected and s1 + s2 is not a multiple
    of n, the second candidate s1 + s2 is accepted and the call returns
    with [self.k = k], the nonce of [self], [self.x = d], the secret, and
    the key of [d] in [self.signingkey]. *)
Theorem X13_ecdsa_recovery_second_branch (env : Imports) (grp : Group)
    (d k h1 h2 r s1 s2 r_inv : Z) (A B : Ecdsa.EcDsaSignature) :
  inverse_mod_contract env -> group_law grp -> Z.prime (order grp) ->
  1 <= d < order grp -> 1 <= k < order grp ->
  ecdsa_sign env grp d k h1 = Returned (r, s1) ->
  ecdsa_sign env grp d (order grp - k) h2 = Returned (r, s2) ->
  (s1 + s2) mod order grp <> 0 ->
  Ecdsa.self_curve A = ecdsa_curve env grp -> Ecdsa.self_n A = order grp ->
  sig_r (Ecdsa.self_sig A) = r -> sig_s (Ecdsa.self_sig A) = s1 ->
  Ecdsa.self_h A = h1 ->
  sig_s (Ecdsa.self_sig B) = s2 -> Ecdsa.self_h B = h2 ->
  inverse_mod env r (order grp) = Returned r_inv ->
  rejected env A (h1 - h2) r_inv (s1 - s2) ->
  accepted env A (h1 - h2) r_inv (s1 + s2) k d (ecdsa_signing_key env grp d) /\
  exists self',
    Ecdsa.recover_nonce_reuse env B A = (self', Returned tt) /\
    Ecdsa.self_k self' = Some k /\
    Ecdsa.self_x self' = Some d /\
    Ecdsa.self_signingkey self' = Some (ecdsa_signing_key env grp d) /\
    Ecdsa.self_sig self' = Ecdsa.self_sig A /\
    Ecdsa.self_h self' = Ecdsa.self_h A /\
    Ecdsa.self_pubkey self' = Ecdsa.self_pubkey A.
Proof.
  intros Hinv Hlaw Hprime Hd Hk S1 S2 Hne Ec En Er Es Eh Es2 Eh2 Hri Rej.
  destruct (ecdsa_recovery_negated_nonce env grp d k h1 h2 r s1 s2 r_inv A B
              Hinv Hlaw Hprime Hd Hk S1 S2 Hne Ec En Er Es Eh Es2 Eh2 Hri Rej)
    as [Acc R].
  split; [exact Acc|].
  exists (Ecdsa.set_recovered (ecdsa_signing_key env grp d) k d A).
  split; [exact R|].
  split; [reflexivity|]. split; [reflexivity|]. split; [reflexivity|].
  split; [reflexivity|]. split; reflexivity.
Qed.

Lemma X13_ecdsa_recovery_second_branch_witness :
  ecdsa_sign reference_imports toy_group 7 3 11 = Returned (10, 8) /\
  ecdsa_sign reference_imports toy_group 7 (19 - 3) 13 = Returned (10, 4) /\
  rejected reference_imports ec_11 (11 - 13) 2 (8 - 4) /\
  exists self',
    Ecdsa.recover_nonce_reuse reference_imports ec_13_negated ec_11
    = (self', Returned tt) /\
    Ecdsa.self_k self' = Some 3 /\
    Ecdsa.self_x self' = Some 7 /\
    Ecdsa.self_signingkey self'
    = Some (ecdsa_signing_key reference_imports toy_group 7).
Proof.
  assert (S1 : ecdsa_sign reference_imports toy_group 7 3 11 = Returned (10, 8))
    by (vm_compute; reflexivity).
  assert (S2 : ecdsa_sign reference_imports toy_group 7 (19 - 3) 13 = Returned (10, 4))
    by (vm_compute; reflexivity).
  assert (Rj : rejected reference_imports ec_11 (11 - 13) 2 (8 - 4)).
  { exists 9, 8, (ecdsa_signing_key reference_imports toy_group 8). toy_trial 5. }
  split; [exact S1|]. split; [exact S2|]. split; [exact Rj|].
  destruct (X13_ecdsa_recovery_second_branch reference_imports toy_group
              7 3 11 13 10 8 4 2 ec_11 ec_13_negated
              reference_inverse_mod toy_group_law prime_19)
    as (_ & self' & R & Hk & Hx & Hsk & _).
  - toy_range.
  - toy_range.
  - exact S1.
  - exact S2.
  - apply Z.eqb_neq. vm_compute. reflexivity.
  - reflexivity.
  - reflexivity.
  - reflexivity.
  - reflexivity.
  - reflexivity.
  - reflexivity.
  - reflexivity.
  - vm_compute. reflexivity.
  - exact Rj.
  - exists self'. split; [exact R|]. split; [exact Hk|].
    split; [exact Hx | exact Hsk].
Defined.

(** X14.  What the self-verification of a candidate tests.  On a curve
    group of prime order, for an instance whose [r] and [s] are in range,
    a candidate with the nonce k and the non-zero secret d that the loop
    derives from it is accepted exactly when the x-coordinate of the point
    k * G, reduced modulo n, is [r].  Neither the bound public key nor the
    secret d enters the test: any candidate whose nonce maps to [r] is
    accepted, whatever secret it yields. *)
Theorem X14_trial_accepts_iff_nonce_maps_to_r (env : Imports) (grp : Group)
    (self : Ecdsa.EcDsaSignature) (z r_inv c i xk : Z) :
  inverse_mod_contract env -> group_law grp -> Z.prime (order grp) ->
  Ecdsa.self_curve self = ecdsa_curve env grp ->
  Ecdsa.self_n self = order grp ->
  1 <= sig_r (Ecdsa.self_sig self) < order grp ->
  1 <= sig_s (Ecdsa.self_sig self) < order grp ->
  (sig_r (Ecdsa.self_sig self) * r_inv) mod order grp = 1 ->
  inverse_mod env c (order grp) = Returned i ->
  let k := (z * i) mod order grp in
  let d := (((sig_s (Ecdsa.self_sig self) * k - Ecdsa.self_h self) mod order grp)
            * r_inv) mod order grp in
  d <> 0 ->
  x_coord grp (base_mul grp k) = Returned xk ->
  Ecdsa.trial env self z r_inv c
  = Returned (k, d, ecdsa_signing_key env grp d,
              xk mod order grp =? sig_r (Ecdsa.self_sig self)).
Proof.
  intros Hinv Hlaw Hprime Ec En Rr Rs Hri Hi k d Hd Hx.
  set (n := order grp) in *.
  pose proof (Z.prime_ge_2 n Hprime) as Hn2.
  set (r := sig_r (Ecdsa.self_sig self)) in *.
  set (s := sig_s (Ecdsa.self_sig self)) in *.
  set (h := Ecdsa.self_h self) in *.
  assert (Rk : 0 <= k < n) by (apply Z.mod_pos_bound; lia).
  assert (Rd : 1 <= d < n)
    by (pose proof (Z.mod_pos_bound (((s * k - h) mod n) * r_inv) n ltac:(lia));
        fold d in H; lia).
  assert (Cr : cong n (r * r_inv) 1) by (apply cong_of_eq_mod; exact Hri).
  assert (Cd : cong n (r * d) (s * k - h)).
  { unfold d. rewrite !cong_mod.
    replace (r * ((s * k - h) * r_inv)) with ((s * k - h) * (r * r_inv)) by ring.
    rewrite Cr, Z.mul_1_r. reflexivity. }
  apply (trial_on_curve env grp self z r_inv c i); try assumption.
  - rewrite En. fold n. lia.
  - rewrite En. exact Hi.
  - rewrite En. reflexivity.
  - rewrite En. reflexivity.
  - unfold ecdsa_verifies. fold n r s h.
    destruct (Z.ltb_spec r 1); [lia|]. destruct (Z.ltb_spec (n - 1) r); [lia|].
    destruct (Z.ltb_spec s 1); [lia|]. destruct (Z.ltb_spec (n - 1) s); [lia|].
    cbn [orb].
    destruct (inverse_mod_of_unit env grp Hinv Hprime s
                (not_divisible_in_range grp s ltac:(fold n; lia)))
      as (c' & Hc' & _ & Cc).
    fold n in Hc', Cc. rewrite Hc'. cbn [bind].
    unfold group_law in Hlaw. fold n in Hlaw.
    rewrite Hlaw; try (apply Z.mod_pos_bound; lia); try lia.
    assert (Ek : ((h * c') mod n + (r * c') mod n * d) mod n = k).
    { apply cong_small; [|exact Rk]. rewrite !cong_mod.
      replace (h * c' + r * c' * d) with ((h + r * d) * c') by ring.
      rewrite Cd. replace (h + (s * k - h)) with (k * s) by ring.
      rewrite <- Z.mul_assoc, Cc, Z.mul_1_r. reflexivity. }
    rewrite Ek, Hx. reflexivity.
Qed.

Lemma X14_trial_accepts_iff_nonce_maps_to_r_witness :
  inverse_mod reference_imports (- 8 + 15) 19 = Returned 11 /\
  x_coord toy_group (base_mul toy_group 16) = Returned 10 /\
  Ecdsa.trial reference_imports ec_11 (11 - 13) 2 (- 8 + 15)
  = Returned (16, 6, ecdsa_signing_key reference_imports toy_group 6, true).
Proof.
  assert (Hi : inverse_mod reference_imports (- 8 + 15) 19 = Returned 11)
    by (vm_compute; reflexivity).
  assert (Hx : x_coord toy_group (base_mul toy_group 16) = Returned 10)
    by (vm_compute; reflexivity).
  split; [exact Hi|]. split; [exact Hx|].
  apply (X14_trial_accepts_iff_nonce_maps_to_r reference_imports toy_group ec_11
           (11 - 13) 2 (- 8 + 15) 11 10
           reference_inverse_mod toy_group_law prime_19 eq_refl eq_refl).
  - change (order toy_group) with 19. simpl. lia.
  - change (order toy_group) with 19. simpl. lia.
  - vm_compute. reflexivity.
  - exact Hi.
  - apply Z.eqb_neq. vm_compute. reflexivity.
  - exact Hx.
Defined.

(** X15.  An exception inside a trial ends the search.  If the candidates
    before [c] are rejected and the trial of [c] raises (the inverse of the
    candidate does not exist, or the curve refuses the secret), the call
    raises that exception with [self] unchanged, and the candidates after
    [c] are never tried, even one that would be accepted. *)
Theorem X15_exception_in_a_trial_ends_the_search (env : Imports)
    (self other : Ecdsa.EcDsaSignature) (r_inv c : Z) (before after : list Z)
    (e : exn) :
  inverse_mod env (sig_r (Ecdsa.self_sig self)) (Ecdsa.self_n self)
  = Returned r_inv ->
  Ecdsa.candidates (sig_s (Ecdsa.self_sig self)) (sig_s (Ecdsa.self_sig other))
  = before ++ c :: after ->
  Forall (rejected env self (Ecdsa.self_h self - Ecdsa.self_h other) r_inv) before ->
  Ecdsa.trial env self (Ecdsa.self_h self - Ecdsa.self_h other) r_inv c = Raised e ->
  Ecdsa.recover_nonce_reuse env other self = (self, Raised e).
Proof.
  intros Hr Hc Hb Ht. rewrite ecdsa_recover_unfold, Hr, Hc.
  clear Hc. induction Hb as [|c' rest (k & d & sk & T) _ IH].
  - simpl app. rewrite try_candidates_cons, Ht. reflexivity.
  - rewrite <- app_comm_cons, try_candidates_cons, T. exact IH.
Qed.

(** On the small curve: [ec_k1] and [ec_k18] hold signatures made with the
    nonces 1 and 19 - 1, which have the same [r].  The first candidate
    yields the secret 0, which the curve refuses; the second one would have
    been accepted with the signer's secret 7. *)
Lemma X15_exception_in_a_trial_ends_the_search_witness :
  ecdsa_sign reference_imports toy_group 7 1 1 = Returned (5, 17) /\
  ecdsa_sign reference_imports toy_group 7 (19 - 1) 16 = Returned (5, 6) /\
  Ecdsa.trial reference_imports ec_k1 (1 - 16) 4 (17 - 6)
  = Raised (LibraryError "MalformedPointError") /\
  accepted reference_imports ec_k1 (1 - 16) 4 (17 + 6) 1 7
    (ecdsa_signing_key reference_imports toy_group 7) /\
  Ecdsa.recover_nonce_reuse reference_imports ec_k18 ec_k1
  = (ec_k1, Raised (LibraryError "MalformedPointError")).
Proof.
  assert (T : Ecdsa.trial reference_imports ec_k1 (1 - 16) 4 (17 - 6)
              = Raised (LibraryError "MalformedPointError")).
  { unfold Ecdsa.trial.
    replace (inverse_mod reference_imports (17 - 6) (Ecdsa.self_n ec_k1))
      with (Returned (A:=Z) 7) by (vm_compute; reflexivity).
    reflexivity. }
  split; [vm_compute; reflexivity|]. split; [vm_compute; reflexivity|].
  split; [exact T|]. split; [unfold accepted; toy_trial 5|].
  apply (X15_exception_in_a_trial_ends_the_search reference_imports ec_k1 ec_k18
           4 (17 - 6) [] [17 + 6; - 17 - 6; - 17 + 6]).
  - vm_compute. reflexivity.
  - reflexivity.
  - constructor.
  - exact T.
Defined.

(* ------------------------------------------------------------------ *)
(** ** [bignum_to_hex] and [bytes_fromhex] *)

Lemma hex_digit_cases (d : Z) :
  0 <= d < 16 ->
  d = 0 \/ d = 1 \/ d = 2 \/ d = 3 \/ d = 4 \/ d = 5 \/ d = 6 \/ d = 7 \/
  d = 8 \/ d = 9 \/ d = 10 \/ d = 11 \/ d = 12 \/ d = 13 \/ d = 14 \/ d = 15.
Proof. lia. Qed.

Ltac each_digit d H :=
  destruct (hex_digit_cases d H)
    as [->|[->|[->|[->|[->|[->|[->|[->|[->|[->|[->|[->|[->|[->|[->| ->]]]]]]]]]]]]]]].

Lemma digit_value_hex_digit (d : Z) :
  0 <= d < 16 -> Hex.digit_value (Hex.hex_digit d) = Some d.
Proof. intros H. each_digit d H; reflexivity. Qed.

Lemma hex_digit_is_not_L (d : Z) :
  0 <= d < 16 -> Hex.char_in (Hex.hex_digit d) "L" = false.
Proof. intros H. each_digit d H; reflexivity. Qed.

Lemma hex_digit_is_kept (d : Z) :
  1 <= d < 16 -> Hex.char_in (Hex.hex_digit d) "0x" = false.
Proof.
  intros H. assert (H' : 0 <= d < 16) by lia.
  each_digit d H'; try reflexivity. lia.
Qed.

Lemma digit_value_range (c : ascii) (d : Z) :
  Hex.digit_value c = Some d -> 0 <= d < 16 /\ Hex.is_space c = false.
Proof.
  destruct c as [[] [] [] [] [] [] [] []]; intros H; vm_compute in H;
    try discriminate H; injection H as <-; split; try lia; reflexivity.
Qed.

Lemma rstrip_cons (chars : string) (c : ascii) (rest : string) :
  Hex.char_in c chars = false -> Hex.rstrip chars rest = rest ->
  Hex.rstrip chars (String c rest) = String c rest.
Proof.
  intros Hc Hr. simpl. rewrite Hr, Hc. destruct rest; reflexivity.
Qed.

Lemma hex_digits_lt_16 (fuel : nat) (n : Z) (acc : string) :
  n < 16 ->
  Hex.hex_digits (S fuel) n acc = String (Hex.hex_digit n) acc.
Proof.
  intros H. simpl. destruct (Z.ltb_spec n 16); [reflexivity | lia].
Qed.

Lemma hex_digits_ge_16 (fuel : nat) (n : Z) (acc : string) :
  16 <= n ->
  Hex.hex_digits (S fuel) n acc
  = Hex.hex_digits fuel (n / 16) (String (Hex.hex_digit (n mod 16)) acc).
Proof.
  intros H. simpl. destruct (Z.ltb_spec n 16); [lia | reflexivity].
Qed.

Lemma rstrip_hex_digits (fuel : nat) :
  forall n acc,
    0 <= n -> Hex.rstrip "L" acc = acc ->
    Hex.rstrip "L" (Hex.hex_digits fuel n acc) = Hex.hex_digits fuel n acc.
Proof.
  induction fuel as [|fuel IH]; intros n acc Hn Hacc; [exact Hacc|].
  destruct (Z.lt_ge_cases n 16) as [Hlt|Hge].
  - rewrite hex_digits_lt_16 by exact Hlt.
    apply rstrip_cons; [apply hex_digit_is_not_L; lia | exact Hacc].
  - rewrite hex_digits_ge_16 by exact Hge.
    apply IH; [apply Z.div_pos; lia|].
    apply rstrip_cons; [|exact Hacc].
    apply hex_digit_is_not_L. apply Z.mod_pos_bound. lia.
Qed.

Lemma lstrip_hex_digits (fuel : nat) :
  forall n acc,
    0 < n < 16 ^ Z.of_nat fuel ->
    Hex.lstrip "0x" (Hex.hex_digits fuel n acc) = Hex.hex_digits fuel n acc.
Proof.
  induction fuel as [|fuel IH]; intros n acc Hn.
  - simpl in Hn. lia.
  - destruct (Z.lt_ge_cases n 16) as [Hlt|Hge].
    + rewrite hex_digits_lt_16 by exact Hlt.
      change (Hex.lstrip "0x" (String ?c ?r))
        with (if Hex.char_in c "0x" then Hex.lstrip "0x" r else String c r).
      rewrite hex_digit_is_kept by lia. reflexivity.
    + rewrite hex_digits_ge_16 by exact Hge.
      apply IH. rewrite Nat2Z.inj_succ, Z.pow_succ_r in Hn by lia.
      split.
      * apply Z.div_str_pos. lia.
      * apply Z.div_lt_upper_bound; lia.
Qed.

Lemma hex_value_hex_digits (fuel : nat) :
  forall n acc,
    0 <= n < 16 ^ Z.of_nat fuel ->
    Hex.hex_value_from 0 (Hex.hex_digits fuel n acc) = Hex.hex_value_from n acc.
Proof.
  induction fuel as [|fuel IH]; intros n acc Hn.
  - simpl in Hn. assert (n = 0) as -> by lia. reflexivity.
  - destruct (Z.lt_ge_cases n 16) as [Hlt|Hge].
    + rewrite hex_digits_lt_16 by exact Hlt.
      cbn [Hex.hex_value_from]. rewrite digit_value_hex_digit by lia.
      reflexivity.
    + rewrite hex_digits_ge_16 by exact Hge.
      rewrite Nat2Z.inj_succ, Z.pow_succ_r in Hn by lia.
      rewrite IH.
      * cbn [Hex.hex_value_from].
        rewrite digit_value_hex_digit by (apply Z.mod_pos_bound; lia).
        f_equal. pose proof (Z.div_mod n 16). lia.
      * split; [apply Z.div_pos; lia | apply Z.div_lt_upper_bound; lia].
Qed.

Lemma hex_fuel (m : Z) :
  0 <= m -> m < 16 ^ Z.of_nat (S (Z.to_nat (Z.log2 m))).
Proof.
  intros Hm. rewrite Nat2Z.inj_succ, Z2Nat.id by apply Z.log2_nonneg.
  destruct (Z.eq_dec m 0) as [->|Hz]; [reflexivity|].
  pose proof (Z.log2_spec m ltac:(lia)) as [_ Hlt].
  pose proof (Z.log2_nonneg m).
  eapply Z.lt_le_trans; [exact Hlt|].
  apply Z.pow_le_mono_l. lia.
Qed.

(** What is left of [hex(m)] once both strips are done. *)
Lemma stripped_hex (m : Z) :
  0 <= m ->
  Hex.lstrip "0x" (Hex.rstrip "L" (Hex.hex m))
  = if m =? 0 then EmptyString
    else Hex.hex_digits (S (Z.to_nat (Z.log2 m))) m EmptyString.
Proof.
  intros Hm. unfold Hex.hex.
  destruct (Z.ltb_spec m 0) as [|_]; [lia|].
  rewrite Z.abs_eq by exact Hm.
  change (String.append "0x" ?d) with (String "0" (String "x" d)).
  rewrite rstrip_cons;
    [ | reflexivity
      | apply rstrip_cons;
        [reflexivity | apply rstrip_hex_digits; [exact Hm | reflexivity]] ].
  change (Hex.lstrip "0x" (String "0" (String "x" ?d))) with (Hex.lstrip "0x" d).
  destruct (Z.eqb_spec m 0) as [->|Hz]; [reflexivity|].
  apply lstrip_hex_digits. split; [lia | apply hex_fuel; exact Hm].
Qed.

Lemma shiftl_one (nbits : Z) : 0 <= nbits -> Z.shiftl 1 nbits = 2 ^ nbits.
Proof. intros H. rewrite Z.shiftl_mul_pow2 by exact H. lia. Qed.

Lemma bignum_to_hex_returned (val nbits : Z) :
  0 <= nbits ->
  let v := val mod 2 ^ nbits in
  let ret := if v =? 0 then EmptyString
             else Hex.hex_digits (S (Z.to_nat (Z.log2 v))) v EmptyString in
  Hex.bignum_to_hex val nbits
  = Returned (if (Nat.modulo (String.length ret) 2 =? 1)%nat
              then String "0" ret else ret).
Proof.
  intros Hn v ret. unfold Hex.bignum_to_hex.
  destruct (Z.ltb_spec nbits 0) as [|_]; [lia|].
  rewrite shiftl_one by exact Hn.
  assert (Hp : 0 < 2 ^ nbits) by (apply Z.pow_pos_nonneg; lia).
  rewrite pymod_nonzero by lia. cbn [bind].
  replace ((val + 2 ^ nbits) mod 2 ^ nbits) with v
    by (unfold v; rewrite <- (Z.mul_1_l (2 ^ nbits)) at 2;
        rewrite Z.mod_add by lia; reflexivity).
  rewrite stripped_hex by (apply Z.mod_pos_bound; exact Hp).
  fold ret. destruct (Nat.modulo (String.length ret) 2 =? 1)%nat; reflexivity.
Qed.

Lemma even_mod_2 (n : nat) : Nat.even n = negb (Nat.modulo n 2 =? 1)%nat.
Proof.
  destruct (Nat.even n) eqn:E.
  - apply Nat.even_spec in E. destruct E as [k ->].
    rewrite Nat.mul_comm, Nat.Div0.mod_mul. reflexivity.
  - assert (O : Nat.odd n = true) by (rewrite <- Nat.negb_even, E; reflexivity).
    apply Nat.odd_spec in O. destruct O as [k ->].
    rewrite Nat.add_comm, Nat.mul_comm, Nat.Div0.mod_add. reflexivity.
Qed.

Lemma bignum_to_hex_digits (val nbits : Z) :
  0 <= nbits ->
  exists s,
    Hex.bignum_to_hex val nbits = Returned s /\
    Nat.even (String.length s) = true /\
    Hex.hex_value s = Some (val mod 2 ^ nbits) /\
    (s = EmptyString <-> val mod 2 ^ nbits = 0).
Proof.
  intros Hn. rewrite (bignum_to_hex_returned val nbits Hn).
  set (v := val mod 2 ^ nbits).
  assert (Hv : 0 <= v)
    by (apply Z.mod_pos_bound; apply Z.pow_pos_nonneg; lia).
  set (ret := if v =? 0 then EmptyString else _).
  assert (Hret : Hex.hex_value ret = Some v).
  { unfold ret. destruct (Z.eqb_spec v 0) as [->|Hz]; [reflexivity|].
    unfold Hex.hex_value. rewrite hex_value_hex_digits; [reflexivity|].
    split; [exact Hv | apply hex_fuel; exact Hv]. }
  assert (Hempty : ret = EmptyString <-> v = 0).
  { split.
    - intros E. rewrite E in Hret. unfold Hex.hex_value in Hret.
      simpl in Hret. congruence.
    - intros E. unfold ret. rewrite E. reflexivity. }
  destruct (Nat.eqb_spec (Nat.modulo (String.length ret) 2) 1) as [Ho|He];
    eexists; (split; [reflexivity|]); (split; [|split]).
  + cbn [String.length]. rewrite Nat.even_succ, <- Nat.negb_even, even_mod_2.
    rewrite Ho. reflexivity.
  + unfold Hex.hex_value in *. simpl. exact Hret.
  + split; [discriminate|].
    intros E. apply Hempty in E. rewrite E in Ho. simpl in Ho. discriminate.
  + rewrite even_mod_2. apply Nat.eqb_neq in He. rewrite He. reflexivity.
  + exact Hret.
  + exact Hempty.
Qed.

(** X16.  [bignum_to_hex(val, nbits)] with [nbits >= 0] returns a string of
    an even number of hexadecimal digits whose value is [val mod 2^nbits]
    (the two's complement of a negative [val]).  The string is not of fixed
    width: it is empty exactly when that value is zero.  A negative [nbits]
    raises ValueError. *)
Theorem X16_bignum_to_hex_encodes_val_mod_2_nbits (val nbits : Z) :
  (0 <= nbits ->
   exists s,
     Hex.bignum_to_hex val nbits = Returned s /\
     Nat.even (String.length s) = true /\
     Hex.hex_value s = Some (val mod 2 ^ nbits) /\
     (s = EmptyString <-> val mod 2 ^ nbits = 0)) /\
  (nbits < 0 ->
   Hex.bignum_to_hex val nbits = Raised (ValueError "negative shift count")).
Proof.
  split.
  - apply bignum_to_hex_digits.
  - intros Hn. unfold Hex.bignum_to_hex.
    destruct (Z.ltb_spec nbits 0); [reflexivity | lia].
Qed.

Lemma X16_bignum_to_hex_encodes_val_mod_2_nbits_witness :
  (0 <= 8 /\ -1 < 0) /\
  (exists s,
     Hex.bignum_to_hex (-1) 8 = Returned s /\
     Nat.even (String.length s) = true /\
     Hex.hex_value s = Some ((-1) mod 2 ^ 8) /\
     (s = EmptyString <-> (-1) mod 2 ^ 8 = 0)) /\
  Hex.bignum_to_hex 1 (-1) = Raised (ValueError "negative shift count").
Proof.
  split; [lia|]. split.
  - apply (proj1 (X16_bignum_to_hex_encodes_val_mod_2_nbits (-1) 8)). lia.
  - apply (proj2 (X16_bignum_to_hex_encodes_val_mod_2_nbits 1 (-1))). lia.
Defined.
Lemma byte_of_Z_value (v : Z) :
  0 <= v < 256 -> Z.of_N (Byte.to_N (Hex.byte_of_Z v)) = v.
Proof.
  intros Hv. unfold Hex.byte_of_Z.
  rewrite (Byte.to_of_N (N_of_ascii (ascii_of_N (Z.to_N v))))
    by (symmetry; apply byte_of_ascii_via_N).
  rewrite N_ascii_embedding by lia. lia.
Qed.

Lemma fromhex_of_digits (n : nat) :
  forall s a v,
    String.length s = (2 * n)%nat ->
    Hex.hex_value_from a s = Some v ->
    exists bs,
      Hex.fromhex s = Returned bs /\ List.length bs = n /\
      fold_left (fun acc b => acc * 256 + Z.of_N (Byte.to_N b)) bs a = v.
Proof.
  induction n as [|n IH]; intros s a v Hlen Hval.
  - destruct s; [|discriminate Hlen].
    exists []. simpl in Hval. injection Hval as <-. repeat split.
  - destruct s as [|c1 [|c2 rest]]; try (simpl in Hlen; lia).
    cbn [Hex.hex_value_from] in Hval.
    destruct (Hex.digit_value c1) as [hi|] eqn:E1; [|discriminate Hval].
    destruct (Hex.digit_value c2) as [lo|] eqn:E2; [|discriminate Hval].
    destruct (digit_value_range _ _ E1) as [Hhi Hs1].
    destruct (digit_value_range _ _ E2) as [Hlo _].
    destruct (IH rest ((a * 16 + hi) * 16 + lo) v) as (bs & Hbs & Hl & Hf);
      [simpl in Hlen; lia | exact Hval |].
    exists (Hex.byte_of_Z (hi * 16 + lo) :: bs).
    cbn [Hex.fromhex]. rewrite Hs1, E1, E2, Hbs. cbn [bind].
    split; [reflexivity|]. split; [simpl; lia|].
    cbn [fold_left]. rewrite byte_of_Z_value by lia.
    rewrite <- Hf. f_equal. ring.
Qed.

(** X17.  The two helpers compose: for [nbits >= 0], [bytes_fromhex]
    accepts what [bignum_to_hex(val, nbits)] returns, and the bytes it
    gives are the big-endian representation of [val mod 2^nbits], one byte
    for two digits. *)
Theorem X17_bytes_fromhex_decodes_bignum_to_hex (val nbits : Z) :
  0 <= nbits ->
  exists s bs,
    Hex.bignum_to_hex val nbits = Returned s /\
    Hex.bytes_fromhex s = Returned bs /\
    big_endian bs = val mod 2 ^ nbits /\
    (2 * List.length bs)%nat = String.length s.
Proof.
  intros Hn.
  destruct (bignum_to_hex_digits val nbits Hn) as (s & Hs & Heven & Hval & _).
  apply Nat.even_spec in Heven. destruct Heven as [n Hlen].
  destruct (fromhex_of_digits n s 0 _ Hlen Hval) as (bs & Hbs & Hl & Hf).
  exists s, bs. split; [exact Hs|]. split; [exact Hbs|].
  split; [exact Hf | lia].
Qed.

Lemma X17_bytes_fromhex_decodes_bignum_to_hex_witness :
  0 <= 16 /\
  exists s bs,
    Hex.bignum_to_hex (-2) 16 = Returned s /\
    Hex.bytes_fromhex s = Returned bs /\
    big_endian bs = (-2) mod 2 ^ 16 /\
    (2 * List.length bs)%nat = String.length s.
Proof.
  split; [lia|].
  apply (X17_bytes_fromhex_decodes_bignum_to_hex (-2) 16). lia.
Defined.

(* ------------------------------------------------------------------ *)
(** ** Export and import of keys *)

Lemma export_key_of_signingkey (lib : EcdsaKey.Library)
    (self : Ecdsa.EcDsaSignature) (sk : Ecdsa.SigningKey) :
  Ecdsa.self_signingkey self = Some sk ->
  EcdsaKey.export_key lib None self = EcdsaKey.to_pem lib sk /\
  EcdsaKey.export_key lib (Some "PEM"%string) self = EcdsaKey.to_pem lib sk /\
  EcdsaKey.export_key lib (Some "DER"%string) self = EcdsaKey.to_der lib sk.
Proof.
  intros H. unfold EcdsaKey.export_key. rewrite H. repeat split.
Qed.

(** X18.  After a recovery that returned, [export_key] gives the encoding
    of the signing key that the curve built from the stored secret [x]: PEM
    by default and for [format="PEM"], DER for [format="DER"].  [privkey]
    returns that key's secret unless [x] is 0, which [assert self.x] takes
    for a missing key; on a curve of the ecdsa package [x] is never 0 and
    [privkey] returns [x]. *)
Theorem X18_ecdsa_export_after_recovery (lib : EcdsaKey.Library)
    (env : Imports) (self other self' : Ecdsa.EcDsaSignature) (u : unit) :
  Ecdsa.recover_nonce_reuse env other self = (self', Returned u) ->
  exists d sk,
    Ecdsa.self_x self' = Some d /\
    Ecdsa.from_secret_exponent (Ecdsa.self_curve self) d = Returned sk /\
    EcdsaKey.export_key lib None self' = EcdsaKey.to_pem lib sk /\
    EcdsaKey.export_key lib (Some "PEM"%string) self' = EcdsaKey.to_pem lib sk /\
    EcdsaKey.export_key lib (Some "DER"%string) self' = EcdsaKey.to_der lib sk /\
    EcdsaKey.privkey self'
    = (if d =? 0 then Raised (AssertionError "self.x")
       else Returned (Ecdsa.secret_exponent sk)) /\
    (forall env' grp,
       Ecdsa.self_curve self = ecdsa_curve env' grp ->
       EcdsaKey.privkey self' = Returned d).
Proof.
  intros H.
  destruct (ecdsa_recover_returned _ _ _ _ _ H)
    as (r_inv & before & c & after & k & d & sk & _ & _ & _ & Hacc & ->).
  exists d, sk. split; [reflexivity|].
  assert (Hsk : Ecdsa.from_secret_exponent (Ecdsa.self_curve self) d
                = Returned sk).
  { unfold accepted, Ecdsa.trial in Hacc.
    repeat (apply bind_returned in Hacc; destruct Hacc as (? & ? & Hacc)).
    injection Hacc as -> -> -> ->. assumption. }
  split; [exact Hsk|].
  destruct (export_key_of_signingkey lib (Ecdsa.set_recovered sk k d self) sk
              eq_refl) as (E1 & E2 & E3).
  split; [exact E1|]. split; [exact E2|]. split; [exact E3|].
  assert (Hp : EcdsaKey.privkey (Ecdsa.set_recovered sk k d self)
               = if d =? 0 then Raised (AssertionError "self.x")
                 else Returned (Ecdsa.secret_exponent sk)).
  { unfold EcdsaKey.privkey. simpl. destruct (d =? 0); reflexivity. }
  split; [exact Hp|].
  intros env' grp Hc. rewrite Hp. rewrite Hc in Hsk. simpl in Hsk.
  destruct ((1 <=? d) && (d <? order grp)) eqn:R; [|discriminate Hsk].
  injection Hsk as <-. simpl.
  apply andb_true_iff in R. destruct R as [R _]. apply Z.leb_le in R.
  destruct (Z.eqb_spec d 0); [lia | reflexivity].
Qed.

Lemma toy_recovery_run :
  Ecdsa.recover_nonce_reuse reference_imports ec_13 ec_11
  = (ec_11_recovered, Returned tt).
Proof.
  rewrite ecdsa_recover_unfold.
  replace (inverse_mod reference_imports (sig_r (Ecdsa.self_sig ec_11))
             (Ecdsa.self_n ec_11))
    with (Returned (A:=Z) 2) by (vm_compute; reflexivity).
  apply (try_candidates_first_accepted reference_imports (11 - 13) 2
           [] (8 - 15) [8 + 15; - 8 - 15; - 8 + 15]).
  - constructor.
  - unfold accepted. toy_trial 8.
Qed.

Lemma X18_ecdsa_export_after_recovery_witness :
  Ecdsa.recover_nonce_reuse reference_imports ec_13 ec_11
  = (ec_11_recovered, Returned tt) /\
  EcdsaKey.export_key EcdsaKey.toy_library None ec_11_recovered
  = Returned (list_byte_of_string "-----" ++ [x07]) /\
  EcdsaKey.export_key EcdsaKey.toy_library (Some "DER"%string) ec_11_recovered
  = Returned [x30; x07] /\
  EcdsaKey.privkey ec_11_recovered = Returned 7.
Proof.
  split; [exact toy_recovery_run|].
  destruct (X18_ecdsa_export_after_recovery EcdsaKey.toy_library
              reference_imports ec_11 ec_13 ec_11_recovered tt
              toy_recovery_run)
    as (d & sk & Hx & Hsk & E1 & _ & E3 & _ & P).
  injection Hx as <-.
  change (Ecdsa.from_secret_exponent (Ecdsa.self_curve ec_11) 7)
    with (Returned (ecdsa_signing_key reference_imports toy_group 7)) in Hsk.
  injection Hsk as <-.
  split; [rewrite E1; reflexivity|].
  split; [rewrite E3; reflexivity|].
  exact (P reference_imports toy_group eq_refl).
Defined.

(** X19.  Before a successful recovery there is nothing to export.  On an
    instance as the constructor returns it, and still after a recovery
    that raised, [export_key] raises AttributeError (it calls a method of
    [self.signingkey], which is None) and [privkey] raises AssertionError.
    A format other than "PEM" and "DER" raises ValueError in any state,
    before the key is looked at. *)
Theorem X19_ecdsa_nothing_to_export_before_recovery (lib : EcdsaKey.Library)
    (env : Imports) (sig : sig_arg) (h : hash_arg) (pubkey : Ecdsa.pubkey_arg)
    (curve : Ecdsa.Curve) (inst : Ecdsa.EcDsaSignature) :
  Ecdsa.__init__ env sig h pubkey curve = Returned inst ->
  (forall self,
     self = inst \/
     (exists other e,
        Ecdsa.recover_nonce_reuse env other inst = (self, Raised e)) ->
     EcdsaKey.export_key lib None self = Raised (AttributeError "to_pem") /\
     EcdsaKey.export_key lib (Some "PEM"%string) self
     = Raised (AttributeError "to_pem") /\
     EcdsaKey.export_key lib (Some "DER"%string) self
     = Raised (AttributeError "to_der") /\
     EcdsaKey.privkey self = Raised (AssertionError "self.x")) /\
  (forall f self,
     f <> "PEM"%string -> f <> "DER"%string ->
     EcdsaKey.export_key lib (Some f) self
     = Raised (ValueError (EcdsaKey.unknown_format f))).
Proof.
  intros Hinit. split.
  - intros self Hself.
    assert (self = inst) as ->.
    { destruct Hself as [E|(other & e & R)]; [exact E|].
      exact (ecdsa_recover_raised _ _ _ _ _ R). }
    destruct (ecdsa_init_returned _ _ _ _ _ _ Hinit)
      as (sg & hh & pk & n & _ & _ & _ & _ & _ & ->).
    repeat split.
  - intros f self Hpem Hder. unfold EcdsaKey.export_key.
    destruct (String.eqb_spec f "PEM"); [contradiction|].
    destruct (String.eqb_spec f "DER"); [contradiction|].
    reflexivity.
Qed.

Lemma X19_ecdsa_nothing_to_export_before_recovery_witness :
  Ecdsa.__init__ reference_imports (SigTuple [10; 8]) (HInt 11)
    (Ecdsa.PkObject toy_pubkey) toy_curve = Returned ec_11 /\
  EcdsaKey.export_key EcdsaKey.toy_library None ec_11
  = Raised (AttributeError "to_pem") /\
  EcdsaKey.privkey ec_11 = Raised (AssertionError "self.x") /\
  EcdsaKey.export_key EcdsaKey.toy_library (Some "pem"%string) ec_11_recovered
  = Raised (ValueError "Unknown format 'pem'").
Proof.
  assert (I : Ecdsa.__init__ reference_imports (SigTuple [10; 8]) (HInt 11)
                (Ecdsa.PkObject toy_pubkey) toy_curve = Returned ec_11)
    by (apply ec_instance_constructed; vm_compute; reflexivity).
  split; [exact I|].
  destruct (X19_ecdsa_nothing_to_export_before_recovery EcdsaKey.toy_library
              reference_imports _ _ _ _ _ I) as [Fresh Unknown].
  destruct (Fresh ec_11 (or_introl eq_refl)) as (E & _ & _ & P).
  split; [exact E|]. split; [exact P|].
  apply (Unknown "pem"%string ec_11_recovered); discriminate.
Defined.

Lemma import_key_value (lib : EcdsaKey.Library) (s : string)
    (passphrase : option string) (sk : Ecdsa.SigningKey) :
  EcdsaKey.import_key lib (StrArg s) passphrase = Value sk ->
  (String.prefix "-----" s = true /\ EcdsaKey.from_pem lib s = Returned sk) \/
  (exists rest, s = String "0" rest /\ EcdsaKey.from_der lib s = Returned sk).
Proof.
  unfold EcdsaKey.import_key.
  destruct (String.prefix "-----" s).
  - destruct (EcdsaKey.from_pem lib s) as [k|e]; simpl; intros H;
      [injection H as <-; left; split; reflexivity | discriminate H].
  - destruct s as [|c rest]; [discriminate|].
    destruct (N.eqb_spec (N_of_ascii c) 48) as [E|_]; [|discriminate].
    assert (c = "0"%char) as ->
      by (rewrite <- (ascii_N_embedding c), E; reflexivity).
    destruct (EcdsaKey.from_der lib _) as [k|e]; simpl; intros H;
      [injection H as <-; right; eexists; split; reflexivity | discriminate H].
Qed.

(** X20.  [import_key] does not read back what [export_key] writes: the
    encodings are bytes, and on bytes [encoded.startswith('-----')] raises
    TypeError.  On text, the empty string raises IndexError, and a key is
    only ever returned by [from_pem] for text that starts with five dashes
    or by [from_der] for text whose first character is "0" (code 0x30);
    the passphrase is not used. *)
Theorem X20_ecdsa_import_key_refuses_exported_bytes (lib : EcdsaKey.Library) :
  (forall format self bs passphrase,
     EcdsaKey.export_key lib format self = Returned bs ->
     exists msg,
       EcdsaKey.import_key lib (BytesArg bs) passphrase
       = Error (Core (TypeError msg))) /\
  (forall passphrase,
     EcdsaKey.import_key lib (StrArg EmptyString) passphrase
     = Error (IndexError "string index out of range")) /\
  (forall s passphrase sk,
     EcdsaKey.import_key lib (StrArg s) passphrase = Value sk ->
     (String.prefix "-----" s = true /\ EcdsaKey.from_pem lib s = Returned sk) \/
     (exists rest, s = String "0" rest /\ EcdsaKey.from_der lib s = Returned sk)) /\
  (forall encoded passphrase passphrase',
     EcdsaKey.import_key lib encoded passphrase
     = EcdsaKey.import_key lib encoded passphrase').
Proof.
  split; [|split; [|split]].
  - intros format self bs passphrase _. eexists. reflexivity.
  - reflexivity.
  - apply import_key_value.
  - reflexivity.
Qed.

Lemma X20_ecdsa_import_key_refuses_exported_bytes_witness :
  EcdsaKey.export_key EcdsaKey.toy_library (Some "DER"%string) ec_11_recovered
  = Returned [x30; x07] /\
  (exists msg,
     EcdsaKey.import_key EcdsaKey.toy_library (BytesArg [x30; x07]) None
     = Error (Core (TypeError msg))) /\
  EcdsaKey.import_key EcdsaKey.toy_library (StrArg (String "0" (String "007" "")))
    None
  = Value (ecdsa_signing_key reference_imports toy_group 7) /\
  ((String.prefix "-----" (String "0" (String "007" "")) = true /\
    EcdsaKey.from_pem EcdsaKey.toy_library (String "0" (String "007" ""))
    = Returned (ecdsa_signing_key reference_imports toy_group 7)) \/
   (exists rest,
      String "0" (String "007" "") = String "0" rest /\
      EcdsaKey.from_der EcdsaKey.toy_library (String "0" (String "007" ""))
      = Returned (ecdsa_signing_key reference_imports toy_group 7))).
Proof.
  destruct (X20_ecdsa_import_key_refuses_exported_bytes EcdsaKey.toy_library)
    as (Bytes & _ & Text & _).
  assert (E : EcdsaKey.export_key EcdsaKey.toy_library (Some "DER"%string)
                ec_11_recovered = Returned [x30; x07]) by reflexivity.
  split; [exact E|].
  split; [exact (Bytes _ _ _ None E)|].
  assert (V : EcdsaKey.import_key EcdsaKey.toy_library
                (StrArg (String "0" (String "007" ""))) None
              = Value (ecdsa_signing_key reference_imports toy_group 7))
    by reflexivity.
  split; [exact V|].
  exact (Text _ None _ V).
Defined.

Lemma dsa_export_key_cases {K} (lib : DsaKey.Library K)
    (self : Dsa.DsaSignature) :
  DsaKey.export_key lib self
  = match DsaKey.privkey lib self with
    | Raised e => Error (Core e)
    | Returned _ => Error (NameError "Cryptodome")
    end.
Proof. reflexivity. Qed.

(** X21.  The DSA key export and import never return.  [export_key]
    evaluates [self.privkey], whose exception it passes on (AssertionError
    while [x] is None or 0), and then the name [Cryptodome], which the
    module does not bind: NameError.  [import_key] and [to_dsakey] raise
    that NameError on every argument. *)
Theorem X21_dsa_key_export_never_returns {K : Type} (lib : DsaKey.Library K)
    (self : Dsa.DsaSignature) :
  (forall bs, DsaKey.export_key lib self <> Value bs) /\
  (truthy (Dsa.self_x self) = false ->
   DsaKey.export_key lib self = Error (Core (AssertionError "self.x"))) /\
  (forall key,
     DsaKey.privkey lib self = Returned key ->
     DsaKey.export_key lib self = Error (NameError "Cryptodome")) /\
  (forall encoded : bytes_like,
     @DsaKey.import_key K encoded = Error (NameError "Cryptodome")) /\
  (forall secret_key : K,
     DsaKey.to_dsakey secret_key = Error (NameError "Cryptodome")).
Proof.
  rewrite dsa_export_key_cases.
  split; [|split; [|split; [|split]]].
  - intros bs. destruct (DsaKey.privkey lib self); discriminate.
  - intros Hx. unfold DsaKey.privkey. rewrite Hx. reflexivity.
  - intros key ->. reflexivity.
  - reflexivity.
  - reflexivity.
Qed.

Lemma X21_dsa_key_export_never_returns_witness :
  truthy (Dsa.self_x dsa_13) = false /\
  DsaKey.export_key DsaKey.toy_library dsa_13
  = Error (Core (AssertionError "self.x")) /\
  DsaKey.privkey DsaKey.toy_library (Dsa.set_x 7 (Dsa.set_k 3 dsa_13))
  = Returned [8; 4; 23; 11; 7] /\
  DsaKey.export_key DsaKey.toy_library (Dsa.set_x 7 (Dsa.set_k 3 dsa_13))
  = Error (NameError "Cryptodome").
Proof.
  split; [reflexivity|].
  split.
  - apply (X21_dsa_key_export_never_returns DsaKey.toy_library dsa_13).
    reflexivity.
  - split; [reflexivity|].
    apply (X21_dsa_key_export_never_returns DsaKey.toy_library
             (Dsa.set_x 7 (Dsa.set_k 3 dsa_13))) with (key := [8; 4; 23; 11; 7]).
    reflexivity.
Defined.

(** X22.  [DsaSignature.privkey] follows the recovery.  On an instance as
    the constructor returns it the property raises AssertionError.  After a
    recovery that returned, it builds the key from [y], [g], [p], [q] of
    the unchanged public key and the recovered [x]; a recovered [x] of 0 is
    taken for a missing key by [assert self.x]. *)
Theorem X22_dsa_privkey_follows_recovery {K : Type} (lib : DsaKey.Library K)
    (env : Imports) (sig : sig_arg) (h : hash_arg) (pubkey : Dsa.PublicKey)
    (inst : Dsa.DsaSignature) :
  Dsa.__init__ env sig h pubkey = Returned inst ->
  DsaKey.privkey lib inst = Raised (AssertionError "self.x") /\
  (forall other self' u,
     Dsa.recover_nonce_reuse other inst = (self', Returned u) ->
     exists x,
       Dsa.self_x self' = Some x /\
       DsaKey.privkey lib self'
       = if x =? 0 then Raised (AssertionError "self.x")
         else (ygp <- DsaKey.y_g_p lib pubkey ;;
               let '(y, g, p) := ygp in
               DsaKey.construct lib [y; g; p; Dsa.pubkey_q pubkey; x])).
Proof.
  intros Hinit.
  destruct (dsa_init_returned _ _ _ _ _ Hinit)
    as (sg & hh & t & _ & _ & _ & _ & ->).
  split; [reflexivity|].
  intros other self' u R.
  destruct (dsa_recover_outcomes _ _ _ _ R)
    as [(_ & e & E)|[(k & e & _ & E)|(k & x & -> & _)]];
    try discriminate E.
  exists x. split; [reflexivity|].
  unfold DsaKey.privkey. simpl. destruct (x =? 0); reflexivity.
Qed.

Lemma X22_dsa_privkey_follows_recovery_witness :
  Dsa.__init__ reference_imports (SigTuple [7; 9]) (HInt 11) toy_dsa_pubkey
  = Returned dsa_11 /\
  DsaKey.privkey DsaKey.toy_library dsa_11 = Raised (AssertionError "self.x") /\
  Dsa.recover_nonce_reuse dsa_13 dsa_11
  = (Dsa.set_x 7 (Dsa.set_k 3 dsa_11), Returned tt) /\
  exists x,
    Dsa.self_x (Dsa.set_x 7 (Dsa.set_k 3 dsa_11)) = Some x /\
    DsaKey.privkey DsaKey.toy_library (Dsa.set_x 7 (Dsa.set_k 3 dsa_11))
    = if x =? 0 then Raised (AssertionError "self.x")
      else (ygp <- DsaKey.y_g_p DsaKey.toy_library toy_dsa_pubkey ;;
            let '(y, g, p) := ygp in
            DsaKey.construct DsaKey.toy_library
              [y; g; p; Dsa.pubkey_q toy_dsa_pubkey; x]).
Proof.
  assert (I : Dsa.__init__ reference_imports (SigTuple [7; 9]) (HInt 11)
                toy_dsa_pubkey = Returned dsa_11)
    by (apply dsa_init_accepts; reflexivity).
  split; [exact I|].
  destruct (X22_dsa_privkey_follows_recovery DsaKey.toy_library
              reference_imports _ _ _ _ I) as [Fresh After].
  split; [exact Fresh|].
  split; [exact dsa_recovery_of_signed_pair_example|].
  exact (After dsa_13 _ tt dsa_recovery_of_signed_pair_example).
Defined.
